(** * Photo-AI-Clone: model cache and training-job bookkeeping

    A shallow embedding of the Python services under [api/]:
    - [config.py]            (module [Config]),
    - [storage_service.py]   (module [StorageService]),
    - [training_service.py]  (module [TrainingService]),
    - [model_service.py]     (module [ModelService]),
    - the [/train] endpoint of [main.py] (module [Main]),
    followed by the properties of the job store, the orchestrator and the
    model cache.

    Conventions of the embedding.
    - A Python [dict] with string keys is a [gmap string _]; a missing key
      is [None] of the lookup, the Python value [None] is [JNull].
    - The directory tree under [USERS_DIR] is a finite map from names to
      directories, as on a POSIX file system without links: names are
      byte strings and are compared exactly, and there is a directory
      where the services make one and a file where they write one.  A
      path join of the services addresses the entry of a name exactly
      when the name is a single component ([Py.component]); the
      definitions of the storage are the code for such identifiers, and
      [storable] says the same of the names the images are written
      under.  Limits of the file system other than the length of a name
      (space, permissions, the length of a whole path) are not part of
      the tree.
    - [datetime.now().isoformat()] reads a wall clock: the world carries
      the sequence of its readings and the number of readings consumed.
    - Library calls that can raise (diffusers, torch) are answered by an
      environment record; a raised exception is [Raise] of [str(e)]. *)

From Stdlib Require Import ZArith String Ascii List Lia Bool Sorted.
From stdpp Require Import base option list gmap strings pretty fin_maps.
From Equations Require Import Equations.

Open Scope string_scope.
Open Scope Z_scope.

(** ** JSON values and Python dictionaries *)

Inductive jval :=
| JNull
| JBool (b : bool)
| JInt (z : Z)
| JFloat (repr : string)   (* a float, carried as its JSON literal *)
| JStr (s : string).

#[global] Instance jval_eq_dec : EqDecision jval.
Proof. solve_decision. Defined.

Abbreviation dict := (gmap string jval).

(** [d.get(k, dflt)] *)
Definition dict_get (d : dict) (k : string) (dflt : jval) : jval :=
  default dflt (d !! k).

(** The result of running Python code that may raise: [Raise e] carries
    [str(e)]. *)
Inductive outcome (A : Type) :=
| Ok (a : A)
| Raise (e : string).
Arguments Ok {A} a.
Arguments Raise {A} e.

(** ** Strings and [pathlib] *)

Module Py.

(** [s.startswith(pre)] *)
Definition startswith (s pre : string) : bool := String.prefix pre s.

(** [s.endswith(suf)] *)
Definition endswith (s suf : string) : bool :=
  String.prefix (String.rev suf) (String.rev s).

(** [l.rfind(c)] on the characters of a string *)
Fixpoint rfind (c : ascii) (l : list ascii) : option nat :=
  match l with
  | [] => None
  | x :: l' =>
      match rfind c l' with
      | Some i => Some (S i)
      | None => if Ascii.eqb x c then Some 0%nat else None
      end
  end.

(** split on ["/"] *)
Fixpoint split_slash (cur : list ascii) (l : list ascii) : list (list ascii) :=
  match l with
  | [] => [rev cur]
  | x :: l' =>
      if Ascii.eqb x "/" then rev cur :: split_slash [] l'
      else split_slash (x :: cur) l'
  end.

(** [PurePosixPath(p).name]: the last component, empty and ["."]
    components being dropped by the parser. *)
Definition path_name (p : string) : list ascii :=
  let parts :=
    filter (λ c, c ≠ [] ∧ c ≠ ["."%char])
           (split_slash [] (list_ascii_of_string p)) in
  List.last parts [].

(** [PurePosixPath(p).suffix] *)
Definition path_suffix (p : string) : string :=
  let name := path_name p in
  match rfind "." name with
  | Some i =>
      if bool_decide (0 < i ∧ i < length name - 1)%nat
      then string_of_list_ascii (drop i name)
      else ""
  | None => ""
  end.

(** [p / c] for a non-root directory [p] and a single component [c] *)
Definition path_join (p c : string) : string := p +:+ "/" +:+ c.

(** [f"{n:03d}"] for a non-negative [n] *)
Definition fmt_03d (n : nat) : string :=
  let s := pretty n in
  string_of_list_ascii (replicate (3 - String.length s) "0"%char) +:+ s.

(** A string that names one entry of a directory: not empty, not ["."]
    and not [".."], without ["/"] and without a NUL character, and of at
    most 255 bytes.  For such a string [c], and only for such a string,
    [p / c] is the entry named [c] of the directory [p]: an empty string
    or ["."] gives [p] itself, [".."] its parent, a ["/"] inside [c] a
    path below or outside [p], and a NUL character or a longer name makes
    the system call raise. *)
Definition component (s : string) : bool :=
  negb (bool_decide (s = "")) && negb (bool_decide (s = "."))
  && negb (bool_decide (s = ".."))
  && forallb (λ c, negb (Ascii.eqb c "/") && negb (Ascii.eqb c "000"))
             (list_ascii_of_string s)
  && (String.length s <=? 255)%nat.

End Py.

(** ** [config.py] *)

Module Config.

(** What the constants of [config.py] depend on: where the package is
    installed and whether [torch.cuda.is_available()]. *)
Record install := {
  BASE_DIR : string;          (* [Path(__file__).parent.parent], absolute *)
  cuda_available : bool
}.

Definition DATA_DIR (i : install) : string := Py.path_join (BASE_DIR i) "data".
Definition USERS_DIR (i : install) : string := Py.path_join (DATA_DIR i) "users".
Definition MODELS_DIR (i : install) : string := Py.path_join (DATA_DIR i) "models".

Definition DEFAULT_MODEL_ID (i : install) : string :=
  Py.path_join (BASE_DIR i) "Aurel_diffusers".
Definition FALLBACK_MODEL_ID : string := "runwayml/stable-diffusion-v1-5".

Definition DEVICE (i : install) : string :=
  if cuda_available i then "cuda" else "cpu".
Definition TORCH_DTYPE (i : install) : string :=
  if bool_decide (DEVICE i = "cuda") then "float16" else "float32".

Definition USER_MODELS (i : install) : gmap string string :=
  <["user_123" := DEFAULT_MODEL_ID i]> (<["default" := DEFAULT_MODEL_ID i]> ∅).

(** [TRAINING_CONFIG] and [STORAGE_CONFIG] *)
Definition max_images_per_user : Z := 20.
Definition min_images_per_user : Z := 10.
Definition max_image_size_mb : Z := 10.
Definition max_total_size_mb : Z := 100.
Definition max_user_storage_gb : Z := 5.

End Config.

(** ** The directory tree under [USERS_DIR] and the world *)

Definition bytes := list Byte.byte.

(** One entry of the ["images"] list of a [metadata.json]. *)
Record image_info := {
  ii_filename : string;
  ii_original_filename : string;
  ii_size_bytes : Z;
  ii_path : string
}.

(** The contents of a [metadata.json], as [save_training_images] writes
    it.  [custom_metadata] is the job record; it is optional because
    [update_training_status] tests for the key. *)
Record metadata := {
  md_user_id : string;
  md_model_identifier : string;
  md_created_at : string;
  md_num_images : Z;
  md_total_size_bytes : Z;
  md_images : list image_info;
  md_custom_metadata : option dict
}.

(** [USERS_DIR/<user_id>/training_images/<model_identifier>/] *)
Record training_dir := {
  td_images : option (gmap string bytes);   (* the [images/] directory *)
  td_metadata : option metadata             (* the file [metadata.json] *)
}.

(** [USERS_DIR/<user_id>/] *)
Record user_dir := {
  ud_training_images : option (gmap string training_dir);
  ud_models : option (gset string);
  ud_logs : bool
}.

Abbreviation disk := (gmap string user_dir).

Record world := {
  users_dir : disk;                  (* durable: the tree under USERS_DIR *)
  active_jobs : gmap string dict;    (* in memory: TrainingService.active_jobs *)
  now_at : nat → string;             (* the readings of the wall clock *)
  ticks : nat                        (* how many readings were taken *)
}.

(** [datetime.now().isoformat()] *)
Definition datetime_now (w : world) : string * world :=
  (now_at w (ticks w),
   {| users_dir := users_dir w; active_jobs := active_jobs w;
      now_at := now_at w; ticks := S (ticks w) |}).

Definition with_disk (w : world) (d : disk) : world :=
  {| users_dir := d; active_jobs := active_jobs w;
     now_at := now_at w; ticks := ticks w |}.

(** A process restart: the durable tree survives, the index does not. *)
Definition restart (w : world) : world :=
  {| users_dir := users_dir w; active_jobs := ∅;
     now_at := now_at w; ticks := ticks w |}.

Module Disk.

(** The directory [USERS_DIR/<user_id>/training_images/<model_identifier>/],
    for identifiers that are components: the entry of that name. *)
Definition lookup_training_dir (d : disk) (user_id model_identifier : string)
  : option training_dir :=
  ud ← d !! user_id;
  tis ← ud_training_images ud;
  tis !! model_identifier.

(** The contents of [.../<user_id>/training_images/<model_identifier>/metadata.json],
    [None] when [metadata_path.exists()] is false. *)
Definition read_metadata (d : disk) (user_id model_identifier : string)
  : option metadata :=
  td ← lookup_training_dir d user_id model_identifier;
  td_metadata td.

(** Replace an existing training directory (writes below a directory that
    exists; the callers establish that it does). *)
Definition set_training_dir (d : disk) (user_id model_identifier : string)
    (td : training_dir) : disk :=
  match d !! user_id with
  | Some ud =>
      match ud_training_images ud with
      | Some tis =>
          <[user_id := {| ud_training_images := Some (<[model_identifier := td]> tis);
                          ud_models := ud_models ud;
                          ud_logs := ud_logs ud |}]> d
      | None => d
      end
  | None => d
  end.

(** [open(metadata_path, "w")] followed by [json.dump] *)
Definition write_metadata (d : disk) (user_id model_identifier : string)
    (md : metadata) : disk :=
  match lookup_training_dir d user_id model_identifier with
  | Some td =>
      set_training_dir d user_id model_identifier
        {| td_images := td_images td; td_metadata := Some md |}
  | None => d
  end.

End Disk.

(** ** [storage_service.py] *)

Module StorageService.

(** [get_user_directory]: [mkdir(parents=True, exist_ok=True)] of the
    user's directory and of its three sub-directories. *)
Definition get_user_directory (d : disk) (user_id : string) : disk :=
  let ud := default {| ud_training_images := None; ud_models := None;
                       ud_logs := false |} (d !! user_id) in
  <[user_id := {| ud_training_images := Some (default ∅ (ud_training_images ud));
                  ud_models := Some (default ∅ (ud_models ud));
                  ud_logs := true |}]> d.

(** [get_model_training_directory]: [training_dir.mkdir(parents=True,
    exist_ok=True)] and [images_dir.mkdir(exist_ok=True)]; what is already
    there is kept.  The directory is the entry named [model_identifier],
    which is what the path join gives for components. *)
Definition get_model_training_directory (d : disk)
    (user_id model_identifier : string) : disk :=
  let ud := default {| ud_training_images := None; ud_models := None;
                       ud_logs := false |} (d !! user_id) in
  let tis := default ∅ (ud_training_images ud) in
  let td := default {| td_images := None; td_metadata := None |}
                    (tis !! model_identifier) in
  let td' := {| td_images := Some (default ∅ (td_images td));
                td_metadata := td_metadata td |} in
  <[user_id := {| ud_training_images := Some (<[model_identifier := td']> tis);
                  ud_models := ud_models ud;
                  ud_logs := ud_logs ud |}]> d.

(** The value [save_training_images] returns. *)
Record save_result := {
  sr_training_dir : string;
  sr_images_dir : string;
  sr_num_images : Z;
  sr_total_size_bytes : Z;
  sr_metadata_path : string
}.

Section WithInstall.
Variable inst : Config.install.

Definition training_dir_path (user_id model_identifier : string) : string :=
  Py.path_join (Py.path_join (Py.path_join (Config.USERS_DIR inst) user_id)
                             "training_images") model_identifier.

(** The loop [for idx, (filename, content) in enumerate(images)]: the
    files written into [images/], the entries appended to [saved_images]
    and the running [total_size].  Each [open(image_path, "wb")] is the
    write of the entry named [new_filename]; it is that, and does not
    raise, when [new_filename] is a component (it is not when
    [model_identifier] holds a ["/"]). *)
Fixpoint save_each (model_identifier images_dir : string) (idx : nat)
    (images : list (string * bytes)) (files : gmap string bytes)
    (saved : list image_info) (total_size : Z)
  : gmap string bytes * list image_info * Z :=
  match images with
  | [] => (files, saved, total_size)
  | (filename, content) :: rest =>
      let file_extension := Py.path_suffix filename in
      let new_filename :=
        model_identifier +:+ "_" +:+ Py.fmt_03d idx +:+ file_extension in
      let image_path := Py.path_join images_dir new_filename in
      let file_size := Z.of_nat (length content) in
      save_each model_identifier images_dir (S idx) rest
        (<[new_filename := content]> files)
        (saved ++ [{| ii_filename := new_filename;
                      ii_original_filename := filename;
                      ii_size_bytes := file_size;
                      ii_path := image_path |}])
        (total_size + file_size)
  end.

(** [save_training_images(user_id, model_identifier, images, metadata)],
    for identifiers and image names that are components.  For those there
    is no failure branch: the directories are made with [exist_ok=True]
    and both the images and [metadata.json] are opened for writing, which
    truncates what is there. *)
Definition save_training_images (w : world) (user_id model_identifier : string)
    (images : list (string * bytes)) (metadata : option dict)
  : save_result * world :=
  let d := get_model_training_directory (users_dir w) user_id model_identifier in
  let training_dir := training_dir_path user_id model_identifier in
  let images_dir := Py.path_join training_dir "images" in
  let td := default {| td_images := None; td_metadata := None |}
                    (Disk.lookup_training_dir d user_id model_identifier) in
  let '(files, saved_images, total_size) :=
    save_each model_identifier images_dir 0 images
              (default ∅ (td_images td)) [] 0 in
  let '(created_at, w) := datetime_now w in
  let custom := default ∅ metadata in            (* [metadata or {}] *)
  let training_metadata :=
    {| md_user_id := user_id;
       md_model_identifier := model_identifier;
       md_created_at := created_at;
       md_num_images := Z.of_nat (length saved_images);
       md_total_size_bytes := total_size;
       md_images := saved_images;
       md_custom_metadata := Some custom |} in
  let metadata_path := Py.path_join training_dir "metadata.json" in
  let d := Disk.set_training_dir d user_id model_identifier
             {| td_images := Some files;
                td_metadata := Some training_metadata |} in
  ({| sr_training_dir := training_dir;
      sr_images_dir := images_dir;
      sr_num_images := Z.of_nat (length saved_images);
      sr_total_size_bytes := total_size;
      sr_metadata_path := metadata_path |},
   with_disk w d).

End WithInstall.

(** [validate_storage_limits(user_id, additional_size_bytes)].
    [current_size] is what [get_user_storage_size] measures, the sum of
    [st_size] over every file below the user's directory; the tree here
    does not size JSON text or model artifacts, so the measure is given.
    Measuring goes through [get_user_directory], which creates the
    directories. *)
Definition validate_storage_limits (d : disk) (user_id : string)
    (current_size additional_size_bytes : Z) : bool * disk :=
  let d := get_user_directory d user_id in
  let max_size := Config.max_user_storage_gb * 1024 * 1024 * 1024 in
  let total_after_upload := current_size + additional_size_bytes in
  (negb (bool_decide (total_after_upload > max_size)), d).

(** [delete_model_data]: [shutil.rmtree(training_dir)], for identifiers
    that are components ([training_dir] is then the entry of that name). *)
Definition delete_model_data (d : disk) (user_id model_identifier : string)
  : bool * disk :=
  match d !! user_id with
  | Some ud =>
      match ud_training_images ud with
      | Some tis =>
          match tis !! model_identifier with
          | Some _ =>
              (true,
               <[user_id := {| ud_training_images := Some (delete model_identifier tis);
                               ud_models := ud_models ud;
                               ud_logs := ud_logs ud |}]> d)
          | None => (false, d)
          end
      | None => (false, d)
      end
  | None => (false, d)
  end.

(** [list_user_models(user_id)]: the contents of the [metadata.json] of
    every model directory that has one, in the order of [iterdir()];
    nothing is created. *)
Definition list_user_models (d : disk) (user_id : string) : list metadata :=
  match d !! user_id ≫= ud_training_images with
  | Some tis => omap (λ entry, td_metadata entry.2) (map_to_list tis)
  | None => []
  end.

End StorageService.

(** ** IEEE binary64 arithmetic, as far as the progress formula uses it

    Every finite non-negative double is an integer multiple of [2^-1074];
    a double is carried as that multiple.  Results are rounded to the
    nearest value with 53 significant bits, ties to even (subnormals
    included).  Overflow is not represented: the values computed below
    never exceed 50. *)

Module Float64.

(** [1.0] *)
Definition one : Z := Eval vm_compute in 2 ^ 1074.

(** The integer nearest to [a / b], ties to even ([b > 0]). *)
Definition rnd_even (a b : Z) : Z :=
  let q := a / b in
  let r := a mod b in
  if 2 * r <? b then q
  else if b <? 2 * r then q + 1
  else if Z.even q then q else q + 1.

(** The double nearest to the rational [a / b] (in units of [2^-1074]):
    with [s] the number of low bits that do not fit in the significand,
    round [a / (b * 2^s)] to an integer and shift back. *)
Definition round (a b : Z) : Z :=
  let s := Z.max (Z.log2 (a / b) - 52) 0 in
  rnd_even a (b * 2 ^ s) * 2 ^ s.

(** [float(k)] for an integer [0 <= k < 2^53] *)
Definition of_int (k : Z) : Z := k * one.

(** [g / n]: Python's true division of two positive integers, correctly
    rounded. *)
Definition int_truediv (g n : Z) : Z := round (g * one) n.

(** [x * y] *)
Definition mul (x y : Z) : Z := round (x * y) one.

(** [int(x)]: truncation (the value is non-negative) *)
Definition to_int (x : Z) : Z := x / one.

End Float64.

(** ** [training_service.py] *)

Module TrainingService.

(** *** The job store: [update_training_status], [get_training_status] *)

(** The entry [update_training_status] puts into [active_jobs]. *)
Definition job_info (user_id model_identifier training_id status : string)
    (progress : Z) (message : string) : dict :=
  <["user_id" := JStr user_id]>
  (<["model_identifier" := JStr model_identifier]>
  (<["message" := JStr message]>
  (<["progress" := JInt progress]>
  (<["status" := JStr status]>
  (<["training_id" := JStr training_id]> ∅))))).

(** The [custom_metadata] section after an update; [w] supplies the clock
    readings.  Returns the section and the world with the clock advanced. *)
Definition update_custom (w : world) (cm : dict) (status : string)
    (progress : Z) (message : string) (error : option string) : dict * world :=
  let cm := <["status" := JStr status]> cm in
  let cm := <["progress" := JInt progress]> cm in
  let cm := <["message" := JStr message]> cm in
  let '(t, w) := datetime_now w in
  let cm := <["last_updated" := JStr t]> cm in
  let '(cm, w) :=
    if bool_decide (status = "running") && bool_decide (cm !! "started_at" = None)
    then let '(t, w) := datetime_now w in (<["started_at" := JStr t]> cm, w)
    else (cm, w) in
  let '(cm, w) :=
    if bool_decide (status = "completed") || bool_decide (status = "failed")
    then let '(t, w) := datetime_now w in (<["completed_at" := JStr t]> cm, w)
    else (cm, w) in
  let cm :=
    match error with
    | Some e => if bool_decide (e = "") then cm else <["error" := JStr e]> cm
    | None => cm
    end in
  (cm, w).

(** [update_training_status(user_id, model_identifier, training_id, status,
    progress, message, error)] *)
Definition update_training_status (w : world)
    (user_id model_identifier training_id status : string)
    (progress : Z) (message : string) (error : option string) : world :=
  match Disk.read_metadata (users_dir w) user_id model_identifier with
  | None => w                                 (* logged; [return] *)
  | Some metadata =>
      let cm := default ∅ (md_custom_metadata metadata) in
      let '(cm, w) := update_custom w cm status progress message error in
      let metadata :=
        {| md_user_id := md_user_id metadata;
           md_model_identifier := md_model_identifier metadata;
           md_created_at := md_created_at metadata;
           md_num_images := md_num_images metadata;
           md_total_size_bytes := md_total_size_bytes metadata;
           md_images := md_images metadata;
           md_custom_metadata := Some cm |} in
      {| users_dir := Disk.write_metadata (users_dir w) user_id model_identifier metadata;
         active_jobs :=
           <[training_id := job_info user_id model_identifier training_id
                                     status progress message]> (active_jobs w);
         now_at := now_at w;
         ticks := ticks w |}
  end.

(** The record the durable scan builds from a matching [metadata.json]. *)
Definition scan_record (training_id : string) (md : metadata) : dict :=
  let cm := default ∅ (md_custom_metadata md) in
  <["completed_at" := dict_get cm "completed_at" JNull]>
  (<["started_at" := dict_get cm "started_at" JNull]>
  (<["message" := dict_get cm "message" (JStr "")]>
  (<["progress" := dict_get cm "progress" (JInt 0)]>
  (<["user_id" := JStr (md_user_id md)]>
  (<["model_identifier" := JStr (md_model_identifier md)]>
  (<["status" := dict_get cm "status" (JStr "unknown")]>
  (<["training_id" := JStr training_id]> ∅))))))).

(** [for model_dir in training_images_dir.iterdir(): ...] *)
Fixpoint scan_model_dirs (training_id : string)
    (dirs : list (string * training_dir)) : option dict :=
  match dirs with
  | [] => None
  | (_, td) :: rest =>
      match td_metadata td with
      | Some md =>
          if bool_decide (default ∅ (md_custom_metadata md) !! "training_id"
                          = Some (JStr training_id))
          then Some (scan_record training_id md)
          else scan_model_dirs training_id rest
      | None => scan_model_dirs training_id rest
      end
  end.

(** [for user_dir in self.users_dir.iterdir(): ...] *)
Fixpoint scan_user_dirs (training_id : string)
    (dirs : list (string * user_dir)) : option dict :=
  match dirs with
  | [] => None
  | (_, ud) :: rest =>
      match ud_training_images ud with
      | Some tis =>
          match scan_model_dirs training_id (map_to_list tis) with
          | Some r => Some r
          | None => scan_user_dirs training_id rest
          end
      | None => scan_user_dirs training_id rest
      end
  end.

(** [get_training_status(training_id)] *)
Definition get_training_status (w : world) (training_id : string) : option dict :=
  match active_jobs w !! training_id with
  | Some info => Some info
  | None => scan_user_dirs training_id (map_to_list (users_dir w))
  end.

(** *** The orchestrator: [start_training], [_train_lora], [_train_dreambooth] *)

(** One call of [update_training_status] by the orchestrator. *)
Record call := {
  c_status : string;
  c_progress : Z;
  c_message : string;
  c_error : option string
}.

(** The orchestrator runs over the world and records the calls it issues. *)
Record run := {
  r_world : world;
  r_calls : list call
}.

Definition M (A : Type) : Type := run → outcome A * run.

Definition ret {A} (a : A) : M A := λ r, (Ok a, r).
Definition raise {A} (e : string) : M A := λ r, (Raise e, r).
Definition bind {A B} (m : M A) (k : A → M B) : M B :=
  λ r, match m r with
       | (Ok a, r') => k a r'
       | (Raise e, r') => (Raise e, r')
       end.

(** [try: body  except Exception as e: handler(str(e))] *)
Definition try_except {A} (body : M A) (handler : string → M A) : M A :=
  λ r, match body r with
       | (Ok a, r') => (Ok a, r')
       | (Raise e, r') => handler e r'
       end.

Notation "'let*' x ':=' m 'in' k" := (bind m (λ x, k))
  (at level 10, x name, m at level 100, k at level 200, only parsing).
Notation "m >> k" := (bind m (λ _, k))
  (at level 65, right associativity, only parsing).

(** The places where the fine-tuning code calls into torch and diffusers,
    each of which may raise. *)
Inductive stage :=
| StImports                    (* the imports inside [_train_dreambooth] *)
| StLoadComponents             (* tokenizer, text encoder, VAE, UNet *)
| StDataset                    (* dataset and data loader *)
| StOptimizer                  (* optimizer, scheduler, [.to(device)] *)
| StStep (global_step : nat)   (* one iteration, before [global_step += 1] *)
| StSave.                      (* the pipeline and [save_pretrained] *)

(** What torch and diffusers answer during one run. *)
Record trainer := {
  raises : stage → option string;   (* [str(e)] when the stage raises *)
  dataloader_len : nat;             (* [len(dataloader)] *)
  loss_4f : nat → string            (* [f"{loss.item():.4f}"] at a step *)
}.

Section Orchestrator.
Variable inst : Config.install.
Variable env : trainer.
Variables user_id model_identifier training_id : string.

(** A call of [self.update_training_status] for this job. *)
Definition update (status : string) (progress : Z) (message : string)
    (error : option string) : M () :=
  λ r, (Ok (),
        {| r_world := update_training_status (r_world r) user_id model_identifier
                        training_id status progress message error;
           r_calls := r_calls r ++ [{| c_status := status; c_progress := progress;
                                       c_message := message; c_error := error |}] |}).

Definition ext (st : stage) : M () :=
  λ r, match raises env st with
       | Some e => (Raise e, r)
       | None => (Ok (), r)
       end.

Definition read_world : M world := λ r, (Ok (r_world r), r).

(** A change of the directory tree. *)
Definition modify_disk (f : disk → disk) : M () :=
  λ r, (Ok (), {| r_world := with_disk (r_world r) (f (users_dir (r_world r)));
                  r_calls := r_calls r |}).

Definition training_dir : string :=
  StorageService.training_dir_path inst user_id model_identifier.
Definition images_dir : string := Py.path_join training_dir "images".
Definition output_model_dir : string :=
  Py.path_join (Py.path_join (Py.path_join (Config.USERS_DIR inst) user_id)
                             "models") model_identifier.

(** [len(list(images_dir.glob("*" + ext)))] *)
Definition glob_count (files : gmap string bytes) (ext : string) : Z :=
  Z.of_nat (length (filter (λ kv, Is_true (Py.endswith kv.1 ext)) (map_to_list files))).

(** [output_model_dir.mkdir(parents=True, exist_ok=True)] *)
Definition mkdir_output_model_dir (d : disk) : disk :=
  let ud := default {| ud_training_images := None; ud_models := None;
                       ud_logs := false |} (d !! user_id) in
  <[user_id := {| ud_training_images := ud_training_images ud;
                  ud_models := Some ({[model_identifier]} ∪ default ∅ (ud_models ud));
                  ud_logs := ud_logs ud |}]> d.

(** [_train_lora] *)
Definition _train_lora : M dict :=
  update "running" 15 "Loading base model..." None >>
  update "running" 20 "Training in progress (this may take 30-60 minutes)..." None >>
  update "completed" 100
         ("Training completed! Model saved to " +:+ output_model_dir) None >>
  ret (<["message" := JStr "LoRA training placeholder (implementation pending)"]>
       (<["method" := JStr "lora"]>
       (<["model_path" := JStr output_model_dir]>
       (<["training_id" := JStr training_id]>
       (<["success" := JBool true]> ∅))))).

Section Dreambooth.
Variable num_train_epochs : Z.

(** [num_steps = len(dataloader) * num_train_epochs] *)
Definition num_steps : Z := Z.of_nat (dataloader_len env) * num_train_epochs.

(** [40 + int((global_step / num_steps) * 50)] *)
Definition loop_progress (global_step : nat) : Z :=
  40 + Float64.to_int
         (Float64.mul (Float64.int_truediv (Z.of_nat global_step) num_steps)
                      (Float64.of_int 50)).

(** [for batch in dataloader:], [k] batches left in epoch [epoch];
    returns [global_step]. *)
Fixpoint batches (k : nat) (epoch : nat) (global_step : nat) : M nat :=
  match k with
  | O => ret global_step
  | S k' =>
      ext (StStep global_step) >>
      let global_step := S global_step in
      (if bool_decide (global_step mod 10 = 0)%nat
       then update "running" (loop_progress global_step)
              ("Training epoch " +:+ pretty (S epoch) +:+ "/" +:+ pretty num_train_epochs
               +:+ ", step " +:+ pretty global_step +:+ "/" +:+ pretty num_steps
               +:+ ", loss: " +:+ loss_4f env global_step) None
       else ret ()) >>
      batches k' epoch global_step
  end.

(** [for epoch in range(num_train_epochs):], [n] epochs left *)
Fixpoint epochs (n : nat) (epoch : nat) (global_step : nat) : M nat :=
  match n with
  | O => ret global_step
  | S n' =>
      let* g := batches (dataloader_len env) epoch global_step in
      epochs n' (S epoch) g
  end.

(** [len(dataset)]: the files [DreamBoothDataset] finds in [images_dir] *)
Definition dataset_len (w : world) : Z :=
  match Disk.lookup_training_dir (users_dir w) user_id model_identifier with
  | Some td =>
      let files := default ∅ (td_images td) in
      glob_count files ".png" + glob_count files ".jpg"
      + glob_count files ".jpeg" + glob_count files ".webp"
  | None => 0
  end.

(** The handler shared by both [except Exception as e:] blocks. *)
Definition on_failure {A} (e : string) : M A :=
  update "failed" 0 "Training failed" (Some e) >>
  raise e.

(** [_train_dreambooth] *)
Definition _train_dreambooth : M dict :=
  try_except
    (update "running" 15 "Loading base Stable Diffusion v1.5 model..." None >>
     ext StImports >>
     update "running" 20 "Loading model components (UNet, VAE, Text Encoder)..." None >>
     ext StLoadComponents >>
     update "running" 30 "Preparing training dataset..." None >>
     ext StDataset >>
     let* w := read_world in
     update "running" 40
            ("Starting training on " +:+ pretty (dataset_len w) +:+ " images...") None >>
     ext StOptimizer >>
     epochs (Z.to_nat num_train_epochs) 0 0 >>
     update "running" 90 "Training complete! Saving model..." None >>
     ext StSave >>
     update "completed" 100
            ("DreamBooth training completed successfully! Model saved to "
             +:+ output_model_dir) None >>
     ret (<["message" := JStr ("DreamBooth training completed! Use prompt '"
                               +:+ model_identifier +:+ " person"
                               +:+ "' to generate images.")]>
          (<["method" := JStr "dreambooth"]>
          (<["model_path" := JStr output_model_dir]>
          (<["training_id" := JStr training_id]>
          (<["success" := JBool true]> ∅))))))
    on_failure.

(** The body of the [try] of [start_training]. *)
Definition start_training_body (use_lora : bool) : M dict :=
  update "running" 5 "Initializing training environment..." None >>
  let* w := read_world in
  match Disk.lookup_training_dir (users_dir w) user_id model_identifier
        ≫= td_images with
  | None => raise ("Training images directory not found: " +:+ images_dir)
  | Some files =>
      let num_images :=
        glob_count files ".png" + glob_count files ".jpg"
        + glob_count files ".jpeg" in
      if bool_decide (num_images < 10)
      then raise ("Insufficient training images: " +:+ pretty num_images +:+ " < 10")
      else
        modify_disk mkdir_output_model_dir >>
        update "running" 10
               ("Preparing to train with " +:+ pretty num_images +:+ " images...")
               None >>
        if use_lora then _train_lora else _train_dreambooth
  end.

(** [start_training(user_id, model_identifier, training_id,
    num_train_epochs, ..., use_lora)] *)
Definition start_training (use_lora : bool) : M dict :=
  try_except (start_training_body use_lora) on_failure.

End Dreambooth.
End Orchestrator.

(** Running the orchestrator from a world, with no call issued yet. *)
Definition run_from (w : world) : run := {| r_world := w; r_calls := [] |}.

End TrainingService.

(** ** [model_service.py] *)

Module ModelService.

(** A loaded [StableDiffusionPipeline].  [obj_id] is the identity of the
    Python object: every successful [from_pretrained] makes a new one. *)
Record pipeline := {
  obj_id : nat;
  loaded_from : string;        (* the identifier [from_pretrained] was given *)
  on_device : string;
  torch_dtype : string;
  attention_slicing : bool;
  xformers : bool
}.

(** What the model hub (or the local path) answers for an identifier:
    any exception raised inside the [try] of [load_model], or a pipeline,
    for which [enable_xformers_memory_efficient_attention] works or not. *)
Inductive hub_answer :=
| Unloadable (e : string)
| Loadable (xformers_available : bool).

(** The state of the [ModelService] instance. *)
Record service := {
  model_cache : gmap string pipeline;
  next_obj : nat;                (* the next fresh object identity *)
  attempts : list string         (* the identifiers given to [from_pretrained] so far *)
}.

Definition init : service :=
  {| model_cache := ∅; next_obj := 0; attempts := [] |}.

Section WithInstall.
Variable inst : Config.install.

(** [get_model_id(user_id)] *)
Definition get_model_id (user_id : string) : string :=
  default (Config.DEFAULT_MODEL_ID inst) (Config.USER_MODELS inst !! user_id).

(** The pipeline the [try] of [load_model] returns when nothing raises:
    a new object, moved to the device, with attention slicing on the CPU
    and, on a GPU, xformers when it is available and attention slicing
    when it is not. *)
Definition new_pipeline (sv : service) (model_id : string)
    (xformers_available : bool) : pipeline :=
  let on_cpu := bool_decide (Config.DEVICE inst = "cpu") in
  let use_xformers := negb on_cpu && xformers_available in
  {| obj_id := next_obj sv;
     loaded_from := model_id;
     on_device := Config.DEVICE inst;
     torch_dtype := Config.TORCH_DTYPE inst;
     attention_slicing := negb use_xformers;
     xformers := use_xformers |}.

(** The body of the [try] of [load_model]. *)
Definition try_load (hub : string → hub_answer) (sv : service) (model_id : string)
  : outcome pipeline * service :=
  match hub model_id with
  | Unloadable e =>
      (Raise e,
       {| model_cache := model_cache sv; next_obj := next_obj sv;
          attempts := attempts sv ++ [model_id] |})
  | Loadable xformers_available =>
      (Ok (new_pipeline sv model_id xformers_available),
       {| model_cache := model_cache sv; next_obj := S (next_obj sv);
          attempts := attempts sv ++ [model_id] |})
  end.

(** [load_model(model_id)].  The recursive call is the one of the source;
    it is made only from an identifier other than the fallback, and is
    made on the fallback. *)
Equations? load_model (hub : string → hub_answer) (sv : service) (model_id : string)
  : outcome pipeline * service
  by wf (if bool_decide (model_id = Config.FALLBACK_MODEL_ID) then 0 else 1)%nat lt :=
  load_model hub sv model_id with try_load hub sv model_id => {
    | (Ok pipe, sv') := (Ok pipe, sv');
    | (Raise e, sv') with decide (model_id = Config.FALLBACK_MODEL_ID) => {
        | right _ := load_model hub sv' Config.FALLBACK_MODEL_ID;
        | left _ :=
            (Raise ("Failed to load model " +:+ model_id +:+ ": " +:+ e), sv') } }.
Proof.
  repeat case_bool_decide; (congruence || lia).
Defined.

(** [get_or_load_model(user_id)] *)
Definition get_or_load_model (hub : string → hub_answer) (sv : service)
    (user_id : string) : outcome (pipeline * string) * service :=
  let model_id := get_model_id user_id in
  match model_cache sv !! model_id with
  | Some pipe => (Ok (pipe, model_id), sv)
  | None =>
      match load_model hub sv model_id with
      | (Ok pipe, sv') =>
          (Ok (pipe, model_id),
           {| model_cache := <[model_id := pipe]> (model_cache sv');
              next_obj := next_obj sv'; attempts := attempts sv' |})
      | (Raise e, sv') => (Raise e, sv')
      end
  end.

(** The arguments of one call of the pipeline. *)
Record pipe_args := {
  pa_prompt : string;
  pa_num_inference_steps : Z;
  pa_guidance_scale : string;
  pa_width : Z;
  pa_height : Z;
  pa_generator : option Z        (* [manual_seed(seed)], [None] without a seed *)
}.

(** [generate_image(user_id, prompt, ...)]; [run_pipe] is the denoising
    computation [pipe(...)], returning [result.images[0]]. *)
Definition generate_image {image : Type}
    (run_pipe : pipeline → pipe_args → outcome image)
    (hub : string → hub_answer) (sv : service) (user_id prompt : string)
    (num_inference_steps : Z) (guidance_scale : string) (width height : Z)
    (seed : option Z) : outcome (image * string) * service :=
  match get_or_load_model hub sv user_id with
  | (Ok (pipe, model_id), sv') =>
      let generator := seed in
      match run_pipe pipe {| pa_prompt := prompt;
                             pa_num_inference_steps := num_inference_steps;
                             pa_guidance_scale := guidance_scale;
                             pa_width := width; pa_height := height;
                             pa_generator := generator |} with
      | Ok img => (Ok (img, model_id), sv')
      | Raise e => (Raise e, sv')
      end
  | (Raise e, sv') => (Raise e, sv')
  end.

End WithInstall.

(** [clear_cache()] *)
Definition clear_cache (sv : service) : service :=
  {| model_cache := ∅; next_obj := next_obj sv; attempts := attempts sv |}.

(** [get_loaded_models_count()] *)
Definition get_loaded_models_count (sv : service) : nat := size (model_cache sv).

End ModelService.

(** ** [main.py]: the [/train] and [/train/{training_id}/status] endpoints *)

Module Main.

(** One uploaded file. *)
Record upload := {
  up_filename : string;
  up_content_type : string;
  up_contents : bytes
}.

(** The [HTTPException(status_code=400, ...)] cases of [train_model]. *)
Inductive bad_request :=
| TooFewImages (num_images : Z)
| TooManyImages (num_images : Z)
| IdentifierTooShort
| ImageTooLarge (filename : string) (size : Z)
| TotalTooLarge (total_size : Z)
| StorageLimitExceeded (user_id : string).

Record train_response := {
  tr_success : bool;
  tr_message : string;
  tr_model_identifier : string;
  tr_training_id : string;
  tr_images_saved : Z;
  tr_estimated_time_minutes : Z
}.

(** The task handed to [background_tasks.add_task]: a call of
    [training_service.start_training] with [resolution=512] and
    [use_lora=False]. *)
Record background_task := {
  bt_user_id : string;
  bt_model_identifier : string;
  bt_training_id : string;
  bt_num_train_epochs : Z;
  bt_learning_rate : string;
  bt_train_batch_size : Z;
  bt_resolution : Z;
  bt_use_lora : bool
}.

(** The loop that reads the uploads: files whose content type is not an
    image are skipped; an image above the size limit ends the request. *)
Fixpoint read_images (images : list upload) (images_data : list (string * bytes))
    (total_size : Z) : bad_request + list (string * bytes) * Z :=
  match images with
  | [] => inr (images_data, total_size)
  | image :: rest =>
      if negb (Py.startswith (up_content_type image) "image/")
      then read_images rest images_data total_size
      else
        let contents := up_contents image in
        let total_size := total_size + Z.of_nat (length contents) in
        let max_size := Config.max_image_size_mb * 1024 * 1024 in
        if bool_decide (Z.of_nat (length contents) > max_size)
        then inl (ImageTooLarge (up_filename image) (Z.of_nat (length contents)))
        else read_images rest (images_data ++ [(up_filename image, contents)])
                         total_size
  end.

(** The [custom_metadata] a new job starts with. *)
Definition training_metadata (training_id : string) (num_train_epochs : Z)
    (learning_rate : string) (train_batch_size : Z) : dict :=
  <["status" := JStr "pending"]>
  (<["train_batch_size" := JInt train_batch_size]>
  (<["learning_rate" := JFloat learning_rate]>
  (<["num_train_epochs" := JInt num_train_epochs]>
  (<["training_id" := JStr training_id]> ∅)))).

(** [train_model].  [uuid8] is [uuid.uuid4().hex[:8]]; [current_size] is
    what [get_user_storage_size] measures for the user. *)
Definition train_model (inst : Config.install) (w : world)
    (uuid8 : string) (current_size : Z)
    (model_identifier user_id : string) (num_train_epochs : Z)
    (learning_rate : string) (train_batch_size : Z) (images : list upload)
  : (bad_request + train_response * background_task) * world :=
  let num_images := Z.of_nat (length images) in
  if bool_decide (num_images < 10) then (inl (TooFewImages num_images), w)
  else if bool_decide (num_images > 20) then (inl (TooManyImages num_images), w)
  else if bool_decide (String.length model_identifier < 3)%nat
       then (inl IdentifierTooShort, w)
  else
    let training_id := "train_" +:+ uuid8 in
    match read_images images [] 0 with
    | inl err => (inl err, w)
    | inr (images_data, total_size) =>
        let max_total := Config.max_total_size_mb * 1024 * 1024 in
        if bool_decide (total_size > max_total)
        then (inl (TotalTooLarge total_size), w)
        else
          let '(within, d) :=
            StorageService.validate_storage_limits (users_dir w) user_id
              current_size total_size in
          let w := with_disk w d in
          if negb within then (inl (StorageLimitExceeded user_id), w)
          else
            let '(storage_result, w) :=
              StorageService.save_training_images inst w user_id model_identifier
                images_data
                (Some (training_metadata training_id num_train_epochs
                                         learning_rate train_batch_size)) in
            let saved_count := StorageService.sr_num_images storage_result in
            (inr ({| tr_success := true;
                     tr_message :=
                       "DreamBooth training started for model '" +:+ model_identifier
                       +:+ "'. Use GET /train/" +:+ training_id
                       +:+ "/status to track progress.";
                     tr_model_identifier := model_identifier;
                     tr_training_id := training_id;
                     tr_images_saved := saved_count;
                     tr_estimated_time_minutes := Z.quot num_train_epochs 2 |},
                  {| bt_user_id := user_id;
                     bt_model_identifier := model_identifier;
                     bt_training_id := training_id;
                     bt_num_train_epochs := num_train_epochs;
                     bt_learning_rate := learning_rate;
                     bt_train_batch_size := train_batch_size;
                     bt_resolution := 512;
                     bt_use_lora := false |}),
             w)
    end.

(** Running a queued task. *)
Definition run_background (inst : Config.install) (env : TrainingService.trainer)
    (t : background_task) (w : world)
  : outcome dict * TrainingService.run :=
  TrainingService.start_training inst env (bt_user_id t) (bt_model_identifier t)
    (bt_training_id t) (bt_num_train_epochs t) (bt_use_lora t)
    (TrainingService.run_from w).

(** The fields of [TrainingStatusResponse]. *)
Record training_status_response := {
  ts_training_id : jval;
  ts_status : jval;
  ts_progress : jval;
  ts_message : jval;
  ts_model_identifier : jval;
  ts_user_id : jval;
  ts_started_at : jval;
  ts_completed_at : jval;
  ts_error : jval
}.

(** The keyword arguments of [TrainingStatusResponse(...)], read from the
    record with [status_info.get]. *)
Definition status_arguments (status_info : dict) : training_status_response :=
  {| ts_training_id := dict_get status_info "training_id" JNull;
     ts_status := dict_get status_info "status" (JStr "unknown");
     ts_progress := dict_get status_info "progress" (JInt 0);
     ts_message := dict_get status_info "message" (JStr "");
     ts_model_identifier := dict_get status_info "model_identifier" JNull;
     ts_user_id := dict_get status_info "user_id" JNull;
     ts_started_at := dict_get status_info "started_at" JNull;
     ts_completed_at := dict_get status_info "completed_at" JNull;
     ts_error := dict_get status_info "error" JNull |}.

(** The validation of [schemas.py], as the fields declare it, on the
    values the services put into a status record (strings, integers and
    [None]): [str] is a string, [Optional[str]] a string or [None], and
    [progress] an integer with [ge=0] and [le=100]. *)
Definition is_str (v : jval) : bool :=
  match v with JStr _ => true | _ => false end.
Definition is_optional_str (v : jval) : bool :=
  match v with JStr _ | JNull => true | _ => false end.
Definition is_progress (v : jval) : bool :=
  match v with JInt z => bool_decide (0 ≤ z ≤ 100) | _ => false end.

Definition validates (r : training_status_response) : bool :=
  is_str (ts_training_id r) && is_str (ts_status r) && is_progress (ts_progress r)
  && is_str (ts_message r) && is_optional_str (ts_model_identifier r)
  && is_optional_str (ts_user_id r) && is_optional_str (ts_started_at r)
  && is_optional_str (ts_completed_at r) && is_optional_str (ts_error r).

(** What an endpoint answers: the response model, the 404 it raises
    itself, or the 500 its [except Exception] turns any other exception
    into. *)
Inductive answer (A : Type) :=
| Answer200 (body : A)
| Error404
| Error500.
Arguments Answer200 {A} body.
Arguments Error404 {A}.
Arguments Error500 {A}.

(** The body of a 200. *)
Definition body {A} (a : answer A) : option A :=
  match a with Answer200 r => Some r | _ => None end.

(** [GET /train/{training_id}/status] *)
Definition get_training_status (w : world) (training_id : string)
  : answer training_status_response :=
  match TrainingService.get_training_status w training_id with
  | None => Error404
  | Some status_info =>
      if bool_decide (status_info = ∅) then Error404     (* [if not status_info] *)
      else
        let response := status_arguments status_info in
        if validates response then Answer200 response
        else Error500                  (* the [ValidationError] of the model *)
  end.

End Main.

(** ** Vocabulary of the properties *)

(** The durable job record: the [custom_metadata] section of the
    [metadata.json] at the job's location. *)
Definition job_record (w : world) (user_id model_identifier : string) : option dict :=
  Disk.read_metadata (users_dir w) user_id model_identifier ≫= md_custom_metadata.

(** A field of it, read as [metadata.get("custom_metadata", {}).get(key)];
    [None] also when there is no [metadata.json]. *)
Definition job_field (w : world) (user_id model_identifier key : string) : option jval :=
  md ← Disk.read_metadata (users_dir w) user_id model_identifier;
  default ∅ (md_custom_metadata md) !! key.

Definition terminal (status : string) : Prop :=
  status = "completed" ∨ status = "failed".

(** A sequence of updates of one job, in order. *)
Definition apply_updates (w : world) (user_id model_identifier training_id : string)
    (calls : list TrainingService.call) : world :=
  foldl (λ w c, TrainingService.update_training_status w user_id model_identifier
                  training_id (TrainingService.c_status c)
                  (TrainingService.c_progress c) (TrainingService.c_message c)
                  (TrainingService.c_error c))
        w calls.

(** A sequence of [get_or_load_model] calls, each with the answers the hub
    gives at that time; no [clear_cache] in between. *)
Definition acquires (inst : Config.install) (sv : ModelService.service)
    (calls : list ((string → ModelService.hub_answer) * string))
  : ModelService.service :=
  foldl (λ sv c, (ModelService.get_or_load_model inst c.1 sv c.2).2) sv calls.

(** Partial correctness of an orchestrator computation, with one
    postcondition for a normal return and one for a raised exception.
    The computations are total functions, so the triple speaks about the
    run that does happen. *)
Definition triple {A} (P : TrainingService.run → Prop) (m : TrainingService.M A)
    (Q : A → TrainingService.run → Prop)
    (E : string → TrainingService.run → Prop) : Prop :=
  ∀ r, P r →
    match m r with
    | (Ok a, r') => Q a r'
    | (Raise e, r') => E e r'
    end.

(** The calls issued so far are all [running], their progress values are
    non-decreasing and lie between [0] and [b]. *)
Definition climbing (b : Z) (calls : list TrainingService.call) : Prop :=
  Sorted Z.le (map TrainingService.c_progress calls) ∧
  Forall (λ c, TrainingService.c_status c = "running"
               ∧ 0 ≤ TrainingService.c_progress c ≤ b) calls.

(** The progress values of the [running] calls of a trace. *)
Definition running_progress (calls : list TrainingService.call) : list Z :=
  map TrainingService.c_progress
      (filter (λ c, TrainingService.c_status c = "running") calls).

(** The job's [metadata.json] exists. *)
Definition has_metadata (user_id model_identifier : string)
    (r : TrainingService.run) : Prop :=
  is_Some (Disk.read_metadata (users_dir (TrainingService.r_world r))
                              user_id model_identifier).

(** The calls issued so far are a climb of [running] calls followed by
    calls that satisfy [tail]. *)
Definition climbed_then (tail : list TrainingService.call → Prop)
    (r : TrainingService.run) : Prop :=
  ∃ pre post, TrainingService.r_calls r = (pre ++ post)%list
              ∧ climbing 100 pre ∧ tail post.

(** One call, to [completed] with progress 100. *)
Definition completion (post : list TrainingService.call) : Prop :=
  ∃ c, post = [c] ∧ TrainingService.c_status c = "completed"
       ∧ TrainingService.c_progress c = 100.

(** Calls to [failed] only. *)
Definition failures (post : list TrainingService.call) : Prop :=
  Forall (λ c, TrainingService.c_status c = "failed") post.

(** The bound the training loop keeps on the progress reported up to
    global step [g]. *)
Definition loop_bound (env : TrainingService.trainer) (num_train_epochs : Z)
    (g : nat) : Z :=
  if decide (0 < TrainingService.num_steps env num_train_epochs)
  then TrainingService.loop_progress env num_train_epochs g else 40.

(** One operation on the [ModelService] instance: a [get_or_load_model]
    with the answers the hub gives at that time, or a [clear_cache]. *)
Inductive service_op :=
| Acquire (hub : string → ModelService.hub_answer) (user_id : string)
| ClearCache.

(** A sequence of operations on the service, in order. *)
Definition serve (inst : Config.install) (sv : ModelService.service)
    (ops : list service_op) : ModelService.service :=
  foldl (λ sv op,
           match op with
           | Acquire hub user_id => (ModelService.get_or_load_model inst hub sv user_id).2
           | ClearCache => ModelService.clear_cache sv
           end)
        sv ops.

(** The object identities handed out so far are below [next_obj]. *)
Definition fresh_ids (sv : ModelService.service) : Prop :=
  ∀ k p, ModelService.model_cache sv !! k = Some p →
         (ModelService.obj_id p < ModelService.next_obj sv)%nat.

(** Only the default identifier is a key of the cache. *)
Definition default_only (inst : Config.install) (sv : ModelService.service) : Prop :=
  ∀ k, is_Some (ModelService.model_cache sv !! k) → k = Config.DEFAULT_MODEL_ID inst.

(** The name [save_training_images] gives to the image at index [idx]:
    [f"{model_identifier}_{idx:03d}{file_extension}"]. *)
Definition image_filename (model_identifier : string) (idx : nat) (filename : string)
  : string :=
  model_identifier +:+ "_" +:+ Py.fmt_03d idx +:+ Py.path_suffix filename.

(** Every name [save_training_images] gives to an image of the list is a
    component: the images can be written into [images/]. *)
Definition storable (model_identifier : string) (images : list (string * bytes)) : bool :=
  forallb id (imap (λ idx image,
                      Py.component (image_filename model_identifier idx image.1))
                   images).

(** The number spelled by the leading decimal digits of a string, read
    on from [acc]. *)
Fixpoint leading_number (acc : N) (s : string) : N :=
  match s with
  | String c s' =>
      let d := N_of_ascii c in
      if bool_decide (48 ≤ d ≤ 57)%N
      then leading_number (10 * acc + (d - 48)) s'
      else acc
  | EmptyString => acc
  end.

(** The string is empty or starts with a character that is not a digit. *)
Definition starts_plain (s : string) : Prop :=
  match s with
  | String c _ => ¬ (48 ≤ N_of_ascii c ≤ 57)%N
  | EmptyString => True
  end.

(** The uploads [train_model] keeps: those whose content type starts
    with ["image/"]. *)
Definition is_image (image : Main.upload) : Prop :=
  Is_true (Py.startswith (Main.up_content_type image) "image/").

(** What [train_model] passes on to [save_training_images] for the
    uploads it keeps. *)
Definition kept_images (images : list Main.upload) : list (string * bytes) :=
  map (λ image, (Main.up_filename image, Main.up_contents image))
      (filter is_image images).

(** The durable record and the index entry of the job show the last
    update the run has issued. *)
Definition shows_last_call (user_id model_identifier training_id : string)
    (r : TrainingService.run) : Prop :=
  ∀ c, last (TrainingService.r_calls r) = Some c →
    let w := TrainingService.r_world r in
    job_field w user_id model_identifier "status"
      = Some (JStr (TrainingService.c_status c))
    ∧ job_field w user_id model_identifier "progress"
      = Some (JInt (TrainingService.c_progress c))
    ∧ job_field w user_id model_identifier "message"
      = Some (JStr (TrainingService.c_message c))
    ∧ active_jobs w !! training_id
      = Some (TrainingService.job_info user_id model_identifier training_id
                (TrainingService.c_status c) (TrainingService.c_progress c)
                (TrainingService.c_message c)).

(** The directory [USERS_DIR/<user_id>/models/<model_identifier>] exists. *)
Definition has_output_dir (user_id model_identifier : string)
    (r : TrainingService.run) : Prop :=
  ∃ models, users_dir (TrainingService.r_world r) !! user_id ≫= ud_models = Some models
            ∧ model_identifier ∈ models.

(** ** Sample worlds *)

Module Sample.

Definition inst : Config.install :=
  {| Config.BASE_DIR := "/srv/photo-ai"; Config.cuda_available := false |}.

Definition clock (n : nat) : string := "2025-01-09T10:30:00." +:+ Py.fmt_03d n.

Definition fresh : world :=
  {| users_dir := ∅; active_jobs := ∅; now_at := clock; ticks := 0 |}.

Definition photo (n : nat) : Main.upload :=
  {| Main.up_filename := "photo" +:+ pretty n +:+ ".png";
     Main.up_content_type := "image/png";
     Main.up_contents := [Byte.x89; Byte.x50; Byte.x4e; Byte.x47] |}.

(** [POST /train] for [user_123] and [aurel_person], ten photos, three
    epochs. *)
Definition created :=
  Main.train_model inst fresh "ab12cd34" 0 "aurel_person" "user_123" 3 "5e-06" 1
                   (map photo (seq 0 10)).

Definition pending : world := created.2.

Definition task : Main.background_task :=
  {| Main.bt_user_id := "user_123"; Main.bt_model_identifier := "aurel_person";
     Main.bt_training_id := "train_ab12cd34"; Main.bt_num_train_epochs := 3;
     Main.bt_learning_rate := "5e-06"; Main.bt_train_batch_size := 1;
     Main.bt_resolution := 512; Main.bt_use_lora := false |}.

(** Nothing raises; ten batches per epoch. *)
Definition quiet : TrainingService.trainer :=
  {| TrainingService.raises := λ _, None;
     TrainingService.dataloader_len := 10;
     TrainingService.loss_4f := λ _, "0.1234" |}.

(** Loading the model components raises. *)
Definition out_of_memory : TrainingService.trainer :=
  {| TrainingService.raises :=
       λ st, match st with
             | TrainingService.StLoadComponents => Some "CUDA out of memory"
             | _ => None
             end;
     TrainingService.dataloader_len := 10;
     TrainingService.loss_4f := λ _, "0.1234" |}.

Definition completed_run := Main.run_background inst quiet task pending.
Definition completed : world := TrainingService.r_world completed_run.2.

Definition failed_run := Main.run_background inst out_of_memory task pending.
Definition failed : world := TrainingService.r_world failed_run.2.

(** The hub has the fallback model only. *)
Definition fallback_only (model_id : string) : ModelService.hub_answer :=
  if bool_decide (model_id = Config.FALLBACK_MODEL_ID)
  then ModelService.Loadable false
  else ModelService.Unloadable "model not found".

(** The hub has nothing. *)
Definition offline (model_id : string) : ModelService.hub_answer :=
  ModelService.Unloadable "connection refused".

(** The hub has every model. *)
Definition online (model_id : string) : ModelService.hub_answer :=
  ModelService.Loadable false.

End Sample.

(** * Properties *)

Open Scope list_scope.

(** ** Rounding in binary64 *)

Section Rounding.
Import Float64.

Lemma rnd_even_cases a b : 0 < b →
  (rnd_even a b = a / b ∧ 2 * (a mod b) ≤ b) ∨
  (rnd_even a b = a / b + 1 ∧ b ≤ 2 * (a mod b)).
Proof.
  intros Hb. unfold rnd_even.
  destruct (Z.ltb_spec (2 * (a mod b)) b); [left; lia|].
  destruct (Z.ltb_spec b (2 * (a mod b))); [right; lia|].
  destruct (Z.even (a / b)); [left|right]; lia.
Qed.

Lemma rnd_even_same_den a c b : 0 < b → a ≤ c → rnd_even a b ≤ rnd_even c b.
Proof.
  intros Hb Hac.
  pose proof (Z.div_le_mono a c b Hb Hac) as Hq.
  pose proof (Z.div_mod a b ltac:(lia)) as Ha.
  pose proof (Z.div_mod c b ltac:(lia)) as Hc.
  pose proof (Z.mod_pos_bound a b Hb).
  pose proof (Z.mod_pos_bound c b Hb).
  destruct (Z.eq_dec (a / b) (c / b)) as [Heq|Hne].
  - unfold rnd_even. rewrite <- Heq in *.
    assert (a mod b ≤ c mod b) by lia.
    repeat match goal with |- context [Z.ltb ?x ?y] => destruct (Z.ltb_spec x y) end;
      destruct (Z.even (a / b)); lia.
  - destruct (rnd_even_cases a b Hb) as [[-> _]|[-> _]];
    destruct (rnd_even_cases c b Hb) as [[-> _]|[-> _]]; lia.
Qed.

Lemma rnd_even_scale a b k : 0 < b → 0 < k → rnd_even (a * k) (b * k) = rnd_even a b.
Proof.
  intros Hb Hk. unfold rnd_even.
  rewrite Z.div_mul_cancel_r by lia.
  rewrite Z.mul_mod_distr_r by lia.
  replace (2 * (a mod b * k) <? b * k) with (2 * (a mod b) <? b).
  2:{ destruct (Z.ltb_spec (2 * (a mod b)) b), (Z.ltb_spec (2 * (a mod b * k)) (b * k)); try reflexivity; nia. }
  replace (b * k <? 2 * (a mod b * k)) with (b <? 2 * (a mod b)).
  2:{ destruct (Z.ltb_spec b (2 * (a mod b))), (Z.ltb_spec (b * k) (2 * (a mod b * k))); try reflexivity; nia. }
  reflexivity.
Qed.

Lemma rnd_even_mono a b c d : 0 < b → 0 < d → a * d ≤ c * b → rnd_even a b ≤ rnd_even c d.
Proof.
  intros Hb Hd H.
  rewrite <- (rnd_even_scale a b d) by lia.
  rewrite <- (rnd_even_scale c d b) by lia.
  replace (d * b) with (b * d) by lia.
  apply rnd_even_same_den; lia.
Qed.

Lemma rnd_even_exact k b : 0 < b → rnd_even (k * b) b = k.
Proof.
  intros Hb. unfold rnd_even.
  rewrite Z.div_mul, Z.mod_mul by lia.
  destruct (Z.ltb_spec (2 * 0) b); lia.
Qed.

Lemma div_le_cross a b c d : 0 < b → 0 < d → a * d ≤ c * b → a / b ≤ c / d.
Proof.
  intros Hb Hd H.
  apply Z.div_le_lower_bound; [lia|].
  pose proof (Z.mul_div_le a b Hb). nia.
Qed.

Lemma log2_upper x : 0 ≤ x → x < 2 ^ (Z.log2 x + 1).
Proof.
  intros Hx. destruct (Z.eq_dec x 0) as [->|]; [reflexivity|].
  pose proof (Z.log2_spec x ltac:(lia)). replace (Z.log2 x + 1) with (Z.succ (Z.log2 x)) by lia. lia.
Qed.

Lemma round_nonneg a b : 0 ≤ a → 0 < b → 0 ≤ round a b.
Proof.
  intros Ha Hb. unfold round.
  set (s := Z.max _ _). assert (0 ≤ s) by lia.
  assert (0 < 2 ^ s) by (apply Z.pow_pos_nonneg; lia).
  assert (0 < b * 2 ^ s) by nia.
  pose proof (Z.div_pos a (b * 2 ^ s) Ha ltac:(lia)).
  destruct (rnd_even_cases a (b * 2 ^ s)) as [[-> _]|[-> _]]; nia.
Qed.

Lemma round_mono a b c d :
  0 ≤ a → 0 < b → 0 < d → a * d ≤ c * b → round a b ≤ round c d.
Proof.
  intros Ha Hb Hd H.
  assert (Hc : 0 ≤ c) by nia.
  pose proof (div_le_cross a b c d Hb Hd H) as Hdiv.
  pose proof (Z.div_pos a b Ha Hb) as Hab.
  pose proof (Z.log2_le_mono _ _ Hdiv) as Hlog.
  unfold round.
  set (sa := Z.max (Z.log2 (a / b) - 52) 0).
  set (sc := Z.max (Z.log2 (c / d) - 52) 0).
  assert (0 ≤ sa) by lia. assert (0 ≤ sc) by lia.
  assert (Hpa : 0 < 2 ^ sa) by (apply Z.pow_pos_nonneg; lia).
  assert (Hpc : 0 < 2 ^ sc) by (apply Z.pow_pos_nonneg; lia).
  destruct (Z.eq_dec sa sc) as [Heq|Hne].
  - rewrite <- Heq. apply Z.mul_le_mono_nonneg_r; [lia|].
    apply rnd_even_mono; nia.
  - assert (Hlt : sa < sc) by lia.
    assert (Hsc : sc = Z.log2 (c / d) - 52) by lia.
    (* lower bound for c *)
    assert (Hcd : 0 < c / d).
    { destruct (Z.eq_dec (c / d) 0) as [E|]; [|lia]. rewrite E in Hsc. simpl in Hsc. lia. }
    pose proof (Z.log2_spec (c / d) Hcd) as [Hlo _].
    replace (Z.log2 (c / d)) with (52 + sc) in Hlo by lia.
    rewrite (Z.pow_add_r 2 52 sc) in Hlo by lia.
    pose proof (Z.mul_div_le c d Hd) as Hmd.
    assert (Hdp : 0 < d * 2 ^ sc) by (apply Z.mul_pos_pos; lia).
    assert (Hbp : 0 < b * 2 ^ sa) by (apply Z.mul_pos_pos; lia).
    assert (Hc52 : 2 ^ 52 ≤ rnd_even c (d * 2 ^ sc)).
    { transitivity (rnd_even (2 ^ 52 * (d * 2 ^ sc)) (d * 2 ^ sc));
        [rewrite rnd_even_exact by exact Hdp; lia|].
      apply rnd_even_same_den; [exact Hdp|].
      transitivity (d * (c / d)); [|lia].
      replace (2 ^ 52 * (d * 2 ^ sc)) with (d * (2 ^ 52 * 2 ^ sc)) by ring.
      apply Z.mul_le_mono_nonneg_l; lia. }
    (* upper bound for a *)
    pose proof (log2_upper (a / b) Hab) as Hup.
    assert (Hle : 2 ^ (Z.log2 (a / b) + 1) ≤ 2 ^ (53 + sa)).
    { apply Z.pow_le_mono_r; lia. }
    rewrite (Z.pow_add_r 2 53 sa) in Hle by lia.
    assert (Ha53 : rnd_even a (b * 2 ^ sa) ≤ 2 ^ 53).
    { transitivity (rnd_even (2 ^ 53 * (b * 2 ^ sa)) (b * 2 ^ sa));
        [|rewrite rnd_even_exact by exact Hbp; lia].
      apply rnd_even_same_den; [exact Hbp|].
      pose proof (Z.div_mod a b ltac:(lia)). pose proof (Z.mod_pos_bound a b Hb).
      assert (a ≤ b * (a / b + 1)) by lia.
      assert (a / b + 1 ≤ 2 ^ 53 * 2 ^ sa) by lia.
      transitivity (b * (a / b + 1)); [lia|].
      replace (2 ^ 53 * (b * 2 ^ sa)) with (b * (2 ^ 53 * 2 ^ sa)) by ring.
      apply Z.mul_le_mono_nonneg_l; lia. }
    assert (Hstep : 2 * 2 ^ sa ≤ 2 ^ sc).
    { replace (2 * 2 ^ sa) with (2 ^ (sa + 1)) by (rewrite Z.pow_add_r by lia; lia).
      apply Z.pow_le_mono_r; lia. }
    change (2 ^ 53) with (2 ^ 52 * 2) in Ha53.
    transitivity (2 ^ 52 * 2 * 2 ^ sa); [nia|].
    transitivity (2 ^ 52 * 2 ^ sc); nia.
Qed.

Lemma round_exact k b m s :
  0 < b → 0 ≤ s → k = m * 2 ^ s → s = Z.max (Z.log2 k - 52) 0 → round (k * b) b = k.
Proof.
  intros Hb Hs Hk Hs'. unfold round.
  rewrite Z.div_mul by lia. rewrite <- Hs'.
  assert (0 < 2 ^ s) by (apply Z.pow_pos_nonneg; lia).
  replace (k * b) with (m * (b * 2 ^ s)) by (subst k; lia).
  rewrite rnd_even_exact by nia. lia.
Qed.

Lemma round_one b : 0 < b → round (one * b) b = one.
Proof.
  intros Hb. apply (round_exact one b (2 ^ 52) 1022);
    [lia | lia | vm_compute; reflexivity | vm_compute; reflexivity].
Qed.

Lemma round_fifty : round (of_int 50 * one) one = of_int 50.
Proof.
  apply (round_exact (of_int 50) one (50 * 2 ^ 47) 1027);
    [reflexivity | lia | vm_compute; reflexivity | vm_compute; reflexivity].
Qed.

#[local] Abbreviation scaled g n :=
  (to_int (mul (int_truediv g n) (of_int 50))).

Lemma one_pos : 0 < one.
Proof. reflexivity. Qed.

Lemma fifty_pos : 0 < of_int 50.
Proof. reflexivity. Qed.

Lemma int_truediv_mono g g' n : 0 < n → 0 ≤ g ≤ g' → int_truediv g n ≤ int_truediv g' n.
Proof.
  intros Hn [Hg Hgg]. pose proof one_pos as Hone. unfold int_truediv.
  apply round_mono; [apply Z.mul_nonneg_nonneg; lia | lia | lia |].
  repeat apply Z.mul_le_mono_nonneg_r; lia.
Qed.

Lemma int_truediv_nonneg g n : 0 < n → 0 ≤ g → 0 ≤ int_truediv g n.
Proof.
  intros Hn Hg. pose proof one_pos. apply round_nonneg; [apply Z.mul_nonneg_nonneg; lia | lia].
Qed.

Lemma int_truediv_le_one g n : 0 < n → 0 ≤ g ≤ n → int_truediv g n ≤ one.
Proof.
  intros Hn [Hg Hgn]. pose proof one_pos as Hone.
  rewrite <- (round_one n Hn). unfold int_truediv.
  apply round_mono; [apply Z.mul_nonneg_nonneg; lia | lia | lia |].
  apply Z.mul_le_mono_nonneg_r; [lia|].
  rewrite (Z.mul_comm one n). apply Z.mul_le_mono_nonneg_r; lia.
Qed.

Lemma mul_mono_l x x' y : 0 ≤ x ≤ x' → 0 ≤ y → mul x y ≤ mul x' y.
Proof.
  intros [Hx Hxx] Hy. pose proof one_pos as Hone. unfold mul.
  apply round_mono; [apply Z.mul_nonneg_nonneg; lia | lia | lia |].
  repeat apply Z.mul_le_mono_nonneg_r; lia.
Qed.

Lemma mul_nonneg x y : 0 ≤ x → 0 ≤ y → 0 ≤ mul x y.
Proof.
  intros Hx Hy. pose proof one_pos. apply round_nonneg; [apply Z.mul_nonneg_nonneg; lia | lia].
Qed.

Lemma to_int_mono x y : x ≤ y → to_int x ≤ to_int y.
Proof. intros H. apply Z.div_le_mono; [apply one_pos | exact H]. Qed.

Lemma scaled_mono g g' n : 0 < n → 0 ≤ g ≤ g' → scaled g n ≤ scaled g' n.
Proof.
  intros Hn Hg. pose proof fifty_pos.  apply to_int_mono.
  apply mul_mono_l; [|lia]. split.
  - apply int_truediv_nonneg; lia.
  - apply int_truediv_mono; lia.
Qed.

Lemma scaled_range g n : 0 < n → 0 ≤ g ≤ n → 0 ≤ scaled g n ≤ 50.
Proof.
  intros Hn Hg. pose proof fifty_pos. pose proof one_pos.  split.
  - apply Z.div_pos; [|lia]. apply mul_nonneg; [apply int_truediv_nonneg|]; lia.
  - change 50 with (to_int (of_int 50)). apply to_int_mono.
    rewrite <- round_fifty.
    transitivity (mul one (of_int 50)).
    + apply mul_mono_l; [|lia]. split;
        [apply int_truediv_nonneg | apply int_truediv_le_one]; lia.
    + unfold mul. rewrite (Z.mul_comm one). reflexivity.
Qed.

End Rounding.

(** ** The durable tree *)

Section DiskFacts.
Implicit Types (d : disk) (u m : string) (td : training_dir) (md : metadata).

Lemma lookup_set_training_dir d u m td td0 :
  Disk.lookup_training_dir d u m = Some td0 →
  Disk.lookup_training_dir (Disk.set_training_dir d u m td) u m = Some td.
Proof.
  unfold Disk.lookup_training_dir, Disk.set_training_dir.
  destruct (d !! u) as [ud|] eqn:Hu; simpl; [|discriminate].
  destruct (ud_training_images ud) as [tis|] eqn:Ht; simpl; [|discriminate].
  intros _. rewrite lookup_insert_eq. simpl. by rewrite lookup_insert_eq.
Qed.

Lemma read_write_metadata d u m md md0 :
  Disk.read_metadata d u m = Some md0 →
  Disk.read_metadata (Disk.write_metadata d u m md) u m = Some md.
Proof.
  unfold Disk.read_metadata, Disk.write_metadata.
  destruct (Disk.lookup_training_dir d u m) as [td|] eqn:Htd; simpl; [|discriminate].
  intros _. by erewrite lookup_set_training_dir.
Qed.

End DiskFacts.

(** ** [update_custom] field by field *)

Section UpdateCustom.
Import TrainingService.

(** The clock readings an update takes: one for [last_updated], one more
    when [started_at] is set, one more when [completed_at] is set. *)
Lemma update_custom_eq w cm status progress message error :
  update_custom w cm status progress message error =
  let first := bool_decide (status = "running" ∧ cm !! "started_at" = None) in
  let fin := bool_decide (terminal status) in
  let t := ticks w in
  let cm1 := <["last_updated" := JStr (now_at w t)]>
             (<["message" := JStr message]>
             (<["progress" := JInt progress]>
             (<["status" := JStr status]> cm))) in
  let cm2 := if first then <["started_at" := JStr (now_at w (S t))]> cm1 else cm1 in
  let t2 := if first then S (S t) else S t in
  let cm3 := if fin then <["completed_at" := JStr (now_at w t2)]> cm2 else cm2 in
  let t3 := if fin then S t2 else t2 in
  let cm4 := match error with
             | Some e => if bool_decide (e = "") then cm3 else <["error" := JStr e]> cm3
             | None => cm3
             end in
  (cm4, {| users_dir := users_dir w; active_jobs := active_jobs w;
           now_at := now_at w; ticks := t3 |}).
Proof.
  unfold update_custom, datetime_now, terminal. cbv zeta.
  rewrite bool_decide_and, bool_decide_or.
  match goal with
  | |- context [bool_decide (?m !! "started_at" = None)] =>
      lazymatch m with
      | cm => fail
      | _ => replace (bool_decide (m !! "started_at" = None))
               with (bool_decide (cm !! "started_at" = None))
               by (apply bool_decide_ext; by rewrite !lookup_insert_ne)
      end
  end.
  destruct (bool_decide (status = "running")), (bool_decide (cm !! "started_at" = None)),
    (bool_decide (status = "completed")), (bool_decide (status = "failed"));
    reflexivity.
Qed.

Ltac custom_cases :=
  rewrite update_custom_eq; cbv zeta; simpl;
  repeat match goal with
         | |- context [if ?b then _ else _] => destruct b eqn:?
         | |- context [match ?e with Some _ => _ | None => _ end] => destruct e eqn:?
         end;
  rewrite ?lookup_insert_eq; repeat (rewrite lookup_insert_ne by done);
  rewrite ?lookup_insert_eq.

Variables (w : world) (cm : dict) (status : string) (progress : Z)
          (message : string) (error : option string).

Lemma update_custom_frame :
  let w' := (update_custom w cm status progress message error).2 in
  users_dir w' = users_dir w ∧ active_jobs w' = active_jobs w ∧
  now_at w' = now_at w ∧ (ticks w < ticks w')%nat.
Proof.
  rewrite update_custom_eq; cbv zeta; simpl.
  repeat split; repeat case_match; lia.
Qed.

Lemma update_custom_status :
  (update_custom w cm status progress message error).1 !! "status" = Some (JStr status).
Proof. custom_cases; done. Qed.

Lemma update_custom_progress :
  (update_custom w cm status progress message error).1 !! "progress"
  = Some (JInt progress).
Proof. custom_cases; done. Qed.

Lemma update_custom_message :
  (update_custom w cm status progress message error).1 !! "message"
  = Some (JStr message).
Proof. custom_cases; done. Qed.

Lemma update_custom_last_updated :
  (update_custom w cm status progress message error).1 !! "last_updated"
  = Some (JStr (now_at w (ticks w))).
Proof. custom_cases; done. Qed.

Lemma update_custom_started_at :
  (update_custom w cm status progress message error).1 !! "started_at" =
    if bool_decide (status = "running" ∧ cm !! "started_at" = None)
    then Some (JStr (now_at w (S (ticks w))))
    else cm !! "started_at".
Proof. custom_cases; done. Qed.

Lemma update_custom_completed_at :
  (update_custom w cm status progress message error).1 !! "completed_at" =
    if bool_decide (terminal status)
    then Some (JStr (now_at w
                 (if bool_decide (status = "running" ∧ cm !! "started_at" = None)
                  then S (S (ticks w)) else S (ticks w))))
    else cm !! "completed_at".
Proof. custom_cases; done. Qed.

Lemma update_custom_error :
  (update_custom w cm status progress message error).1 !! "error" =
    match error with
    | Some e => if bool_decide (e = "") then cm !! "error" else Some (JStr e)
    | None => cm !! "error"
    end.
Proof. custom_cases; done. Qed.

Lemma update_custom_other k :
  k ∉ ["status"; "progress"; "message"; "last_updated"; "started_at";
       "completed_at"; "error"] →
  (update_custom w cm status progress message error).1 !! k = cm !! k.
Proof.
  intros Hk. rewrite update_custom_eq; cbv zeta; simpl.
  repeat case_match;
    repeat (rewrite lookup_insert_ne; [|intros <-; apply Hk; set_solver]); done.
Qed.

End UpdateCustom.

(** ** [update_training_status] *)

Section Update.
Import TrainingService.
Implicit Types (w : world) (u m tid st msg : string) (p : Z) (err : option string).

Lemma update_missing w u m tid st p msg err :
  Disk.read_metadata (users_dir w) u m = None →
  update_training_status w u m tid st p msg err = w.
Proof. intros H. unfold update_training_status. by rewrite H. Qed.

Lemma update_found w u m tid st p msg err md :
  Disk.read_metadata (users_dir w) u m = Some md →
  let cm := default ∅ (md_custom_metadata md) in
  let w' := update_training_status w u m tid st p msg err in
  Disk.read_metadata (users_dir w') u m
    = Some {| md_user_id := md_user_id md;
              md_model_identifier := md_model_identifier md;
              md_created_at := md_created_at md;
              md_num_images := md_num_images md;
              md_total_size_bytes := md_total_size_bytes md;
              md_images := md_images md;
              md_custom_metadata := Some (update_custom w cm st p msg err).1 |}
  ∧ active_jobs w' = <[tid := job_info u m tid st p msg]> (active_jobs w)
  ∧ now_at w' = now_at w
  ∧ (ticks w < ticks w')%nat.
Proof.
  intros H cm w'. subst w'. unfold update_training_status. rewrite H.
  fold cm. pose proof (update_custom_frame w cm st p msg err) as Hf.
  destruct (update_custom w cm st p msg err) as [cm' w1]. simpl in *.
  destruct Hf as (Hd & Ha & Hn & Ht). rewrite Hd, Ha, Hn.
  split; [by eapply read_write_metadata | done].
Qed.

Lemma update_field w u m tid st p msg err md k :
  Disk.read_metadata (users_dir w) u m = Some md →
  job_field (update_training_status w u m tid st p msg err) u m k
  = (update_custom w (default ∅ (md_custom_metadata md)) st p msg err).1 !! k.
Proof.
  intros H. unfold job_field.
  destruct (update_found w u m tid st p msg err md H) as (-> & _). done.
Qed.

Lemma update_keeps_metadata w u m tid st p msg err :
  is_Some (Disk.read_metadata (users_dir w) u m) →
  is_Some (Disk.read_metadata (users_dir (update_training_status w u m tid st p msg err)) u m).
Proof.
  intros [md H]. destruct (update_found w u m tid st p msg err md H) as (-> & _). eauto.
Qed.

Lemma job_field_metadata w u m k v :
  job_field w u m k = Some v → is_Some (Disk.read_metadata (users_dir w) u m).
Proof.
  unfold job_field. destruct (Disk.read_metadata _ _ _); [eauto | discriminate].
Qed.

End Update.

(** C10.  When the job's [metadata.json] does not exist,
    [update_training_status] returns and leaves the world as it was: the
    durable tree, the in-memory index and the clock.  Conversely, whenever
    a call changes the in-memory index, the [metadata.json] existed and
    now carries the status of the call: the index is never written
    without the durable write. *)
Theorem update_without_metadata_is_noop
    (w : world) (u m tid st : string) (p : Z) (msg : string) (err : option string) :
  let w' := TrainingService.update_training_status w u m tid st p msg err in
  (Disk.read_metadata (users_dir w) u m = None →
     w' = w ∧ users_dir w' = users_dir w ∧ active_jobs w' = active_jobs w)
  ∧ (active_jobs w' ≠ active_jobs w →
     is_Some (Disk.read_metadata (users_dir w) u m)
     ∧ job_field w' u m "status" = Some (JStr st)).
Proof.
  intros w'. subst w'. split.
  - intros H. rewrite update_missing by done. done.
  - intros Hne.
    destruct (Disk.read_metadata (users_dir w) u m) as [md|] eqn:Hmd.
    + split; [eauto|]. erewrite update_field by done. apply update_custom_status.
    + rewrite update_missing in Hne by done. done.
Qed.

Lemma update_without_metadata_is_noop_witness :
  Disk.read_metadata (users_dir Sample.fresh) "user_123" "aurel_person" = None
  ∧ TrainingService.update_training_status Sample.fresh "user_123" "aurel_person"
      "train_ab12cd34" "running" 5 "Initializing training environment..." None
    = Sample.fresh.
Proof.
  split; [reflexivity|].
  apply (update_without_metadata_is_noop Sample.fresh "user_123" "aurel_person"
           "train_ab12cd34" "running" 5 "Initializing training environment..." None).
  reflexivity.
Defined.

(** C1, as stated, fails: the sample job has completed, and a later update
    with status [failed] is applied.  The durable record and the index
    entry both change. *)
Lemma terminal_update_changes_record :
  let w := Sample.completed in
  let w' := TrainingService.update_training_status w "user_123" "aurel_person"
              "train_ab12cd34" "failed" 0 "late report" None in
  job_field w "user_123" "aurel_person" "status" = Some (JStr "completed")
  ∧ job_field w' "user_123" "aurel_person" "status" = Some (JStr "failed")
  ∧ job_field w "user_123" "aurel_person" "progress" = Some (JInt 100)
  ∧ job_field w' "user_123" "aurel_person" "progress" = Some (JInt 0)
  ∧ users_dir w' ≠ users_dir w
  ∧ active_jobs w' ≠ active_jobs w.
Proof.
  cbv zeta. repeat split; try (vm_compute; reflexivity).
  - intros H.
    apply (f_equal (λ d : disk,
             md ← Disk.read_metadata d "user_123" "aurel_person";
             default ∅ (md_custom_metadata md) !! "status")) in H.
    vm_compute in H. discriminate.
  - intros H.
    apply (f_equal (λ a : gmap string dict,
             info ← a !! "train_ab12cd34"; info !! "status")) in H.
    vm_compute in H. discriminate.
Qed.

(** C1, amended.  An update of a job whose status is terminal is applied
    like any other: the durable record takes the status, progress and
    message of the call and a new [last_updated], the index entry for the
    training id is replaced by the one built from the call, and the
    fields an update never writes keep their values. *)
Theorem terminal_job_update_is_applied
    (w : world) (u m tid st0 st : string) (p : Z) (msg : string) (err : option string) :
  job_field w u m "status" = Some (JStr st0) →
  terminal st0 →
  let w' := TrainingService.update_training_status w u m tid st p msg err in
  job_field w' u m "status" = Some (JStr st)
  ∧ job_field w' u m "progress" = Some (JInt p)
  ∧ job_field w' u m "message" = Some (JStr msg)
  ∧ job_field w' u m "last_updated" = Some (JStr (now_at w (ticks w)))
  ∧ active_jobs w' !! tid = Some (TrainingService.job_info u m tid st p msg)
  ∧ ∀ k, k ∉ ["status"; "progress"; "message"; "last_updated"; "started_at";
              "completed_at"; "error"] →
         job_field w' u m k = job_field w u m k.
Proof.
  intros Hst _ w'. subst w'.
  destruct (job_field_metadata _ _ _ _ _ Hst) as [md Hmd].
  destruct (update_found w u m tid st p msg err md Hmd) as (_ & Ha & _).
  rewrite !(update_field _ _ _ _ _ _ _ _ md) by done.
  rewrite update_custom_status, update_custom_progress, update_custom_message,
    update_custom_last_updated, Ha, lookup_insert_eq.
  repeat split; try done.
  intros k Hk. rewrite (update_field _ _ _ _ _ _ _ _ md) by done.
  rewrite update_custom_other by done. unfold job_field. by rewrite Hmd.
Qed.

Lemma terminal_job_update_is_applied_witness :
  job_field
    (TrainingService.update_training_status Sample.completed "user_123"
       "aurel_person" "train_ab12cd34" "failed" 0 "late report" None)
    "user_123" "aurel_person" "status" = Some (JStr "failed").
Proof.
  apply (terminal_job_update_is_applied Sample.completed "user_123" "aurel_person"
           "train_ab12cd34" "completed" "failed" 0 "late report" None).
  - vm_compute. reflexivity.
  - left. reflexivity.
Defined.

(** ** [started_at] *)

Section StartedAt.
Import TrainingService.
Implicit Types (w : world) (u m tid : string) (calls : list call).

Lemma apply_updates_app w u m tid calls1 calls2 :
  apply_updates w u m tid (calls1 ++ calls2)
  = apply_updates (apply_updates w u m tid calls1) u m tid calls2.
Proof. unfold apply_updates. apply foldl_app. Qed.

Lemma apply_updates_keeps_metadata w u m tid calls :
  is_Some (Disk.read_metadata (users_dir w) u m) →
  is_Some (Disk.read_metadata (users_dir (apply_updates w u m tid calls)) u m).
Proof.
  revert w. induction calls as [|c calls IH]; intros w H; [done|].
  simpl. apply IH. by apply update_keeps_metadata.
Qed.

Lemma started_at_kept w u m tid st p msg err v :
  job_field w u m "started_at" = Some v →
  job_field (update_training_status w u m tid st p msg err) u m "started_at" = Some v.
Proof.
  intros Hv. destruct (job_field_metadata _ _ _ _ _ Hv) as [md Hmd].
  rewrite (update_field _ _ _ _ _ _ _ _ md) by done.
  rewrite update_custom_started_at.
  unfold job_field in Hv. rewrite Hmd in Hv. simpl in Hv.
  rewrite bool_decide_eq_false_2; [done|]. intros [_ Hn]. congruence.
Qed.

Lemma started_at_kept_by_updates w u m tid calls v :
  job_field w u m "started_at" = Some v →
  job_field (apply_updates w u m tid calls) u m "started_at" = Some v.
Proof.
  revert w. induction calls as [|c calls IH]; intros w H; [done|].
  simpl. apply IH. by apply started_at_kept.
Qed.

Lemma started_at_not_set_before_running w u m tid calls :
  is_Some (Disk.read_metadata (users_dir w) u m) →
  job_field w u m "started_at" = None →
  Forall (λ c, c_status c ≠ "running") calls →
  job_field (apply_updates w u m tid calls) u m "started_at" = None.
Proof.
  revert w. induction calls as [|c calls IH]; intros w Hmd Hn Hall; [done|].
  inversion Hall as [|? ? Hc Hrest]; subst. simpl.
  apply IH; [by apply update_keeps_metadata | | done].
  destruct Hmd as [md Hmd].
  rewrite (update_field _ _ _ _ _ _ _ _ md) by done.
  rewrite update_custom_started_at.
  rewrite bool_decide_eq_false_2 by (intros [? _]; done).
  unfold job_field in Hn. by rewrite Hmd in Hn.
Qed.

End StartedAt.

(** C9.  For a job whose record has no [started_at] yet (as after
    creation): updates with a status other than [running] leave it unset;
    the first update with status [running] sets it to the clock reading
    that update takes for it; every later update, with status [running]
    or any other, leaves that value in place. *)
Theorem started_at_recorded_once
    (w : world) (u m tid : string)
    (before : list TrainingService.call) (first : TrainingService.call)
    (after : list TrainingService.call) :
  is_Some (Disk.read_metadata (users_dir w) u m) →
  job_field w u m "started_at" = None →
  Forall (λ c, TrainingService.c_status c ≠ "running") before →
  TrainingService.c_status first = "running" →
  let w0 := apply_updates w u m tid before in
  let w1 := apply_updates w0 u m tid [first] in
  let w2 := apply_updates w1 u m tid after in
  job_field w0 u m "started_at" = None
  ∧ job_field w1 u m "started_at" = Some (JStr (now_at w0 (S (ticks w0))))
  ∧ job_field w2 u m "started_at" = Some (JStr (now_at w0 (S (ticks w0)))).
Proof.
  intros Hmd Hnone Hbefore Hfirst w0 w1 w2.
  assert (H0 : job_field w0 u m "started_at" = None)
    by (by apply started_at_not_set_before_running).
  assert (H1 : job_field w1 u m "started_at" = Some (JStr (now_at w0 (S (ticks w0))))).
  { subst w1. simpl.
    destruct (apply_updates_keeps_metadata w u m tid before Hmd) as [md0 Hmd0].
    fold w0 in Hmd0.
    rewrite (update_field _ _ _ _ _ _ _ _ md0) by done.
    rewrite update_custom_started_at.
    unfold job_field in H0. rewrite Hmd0 in H0. simpl in H0.
    by rewrite bool_decide_eq_true_2. }
  split; [done|]. split; [done|].
  by apply started_at_kept_by_updates.
Qed.

Lemma started_at_recorded_once_witness :
  let first := {| TrainingService.c_status := "running"; TrainingService.c_progress := 5;
                  TrainingService.c_message := "Initializing training environment...";
                  TrainingService.c_error := None |} in
  let second := {| TrainingService.c_status := "running"; TrainingService.c_progress := 10;
                   TrainingService.c_message := "Preparing to train with 10 images...";
                   TrainingService.c_error := None |} in
  let w1 := apply_updates Sample.pending "user_123" "aurel_person" "train_ab12cd34"
              [first] in
  let w2 := apply_updates w1 "user_123" "aurel_person" "train_ab12cd34" [second] in
  job_field w1 "user_123" "aurel_person" "started_at"
    = Some (JStr "2025-01-09T10:30:00.002")
  ∧ job_field w2 "user_123" "aurel_person" "started_at"
    = Some (JStr "2025-01-09T10:30:00.002").
Proof.
  intros first second w1 w2.
  assert (H1 : is_Some (Disk.read_metadata (users_dir Sample.pending)
                          "user_123" "aurel_person")) by (vm_compute; eauto).
  assert (H2 : job_field Sample.pending "user_123" "aurel_person" "started_at" = None)
    by (vm_compute; reflexivity).
  destruct (started_at_recorded_once Sample.pending "user_123" "aurel_person"
              "train_ab12cd34" [] first [second] H1 H2 (List.Forall_nil _) eq_refl)
    as (_ & A & B).
  split; [exact A | exact B].
Defined.

(** ** [get_training_status] *)

Section Get.
Import TrainingService.

Lemma job_info_no_error u m tid st p msg :
  job_info u m tid st p msg !! "error" = None.
Proof. unfold job_info. by repeat (rewrite lookup_insert_ne by done). Qed.

Lemma job_info_status u m tid st p msg :
  job_info u m tid st p msg !! "status" = Some (JStr st).
Proof.
  unfold job_info. repeat (rewrite lookup_insert_ne by done).
  by rewrite lookup_insert_eq.
Qed.

Lemma scan_record_no_error tid md : scan_record tid md !! "error" = None.
Proof. unfold scan_record. by repeat (rewrite lookup_insert_ne by done). Qed.

Lemma scan_model_dirs_no_error tid dirs d :
  scan_model_dirs tid dirs = Some d → d !! "error" = None.
Proof.
  induction dirs as [|[name td] dirs IH]; simpl; [discriminate|].
  destruct (td_metadata td) as [md|]; [|done].
  case_bool_decide; [|done]. intros [= <-]. apply scan_record_no_error.
Qed.

Lemma scan_user_dirs_no_error tid dirs d :
  scan_user_dirs tid dirs = Some d → d !! "error" = None.
Proof.
  induction dirs as [|[name ud] dirs IH]; simpl; [discriminate|].
  destruct (ud_training_images ud) as [tis|]; [|done].
  destruct (scan_model_dirs tid (map_to_list tis)) as [r|] eqn:Hr; [|done].
  intros [= <-]. by eapply scan_model_dirs_no_error.
Qed.

End Get.

(** C4.  When a job is moved to [failed] with a non-empty error
    description, the description is stored in the durable record, and
    [get_training_status] does not return it: the record served from the
    in-memory index has status [failed] and no [error] key, and after a
    restart whatever the durable scan returns has no [error] key either. *)
Theorem failed_job_error_not_reported
    (w : world) (u m tid : string) (p : Z) (msg e : string) :
  is_Some (Disk.read_metadata (users_dir w) u m) →
  e ≠ "" →
  let w' := TrainingService.update_training_status w u m tid "failed" p msg (Some e) in
  job_field w' u m "status" = Some (JStr "failed")
  ∧ job_field w' u m "error" = Some (JStr e)
  ∧ (∃ d, TrainingService.get_training_status w' tid = Some d
          ∧ d !! "status" = Some (JStr "failed") ∧ d !! "error" = None)
  ∧ (∀ d, TrainingService.get_training_status (restart w') tid = Some d →
          d !! "error" = None).
Proof.
  intros [md Hmd] He w'. subst w'.
  destruct (update_found w u m tid "failed" p msg (Some e) md Hmd) as (_ & Ha & _).
  rewrite !(update_field _ _ _ _ _ _ _ _ md) by done.
  rewrite update_custom_status, update_custom_error, bool_decide_eq_false_2 by done.
  split; [done|]. split; [done|]. split.
  - eexists. unfold TrainingService.get_training_status.
    rewrite Ha, lookup_insert_eq. split; [done|].
    split; [apply job_info_status | apply job_info_no_error].
  - intros d. unfold TrainingService.get_training_status, restart. simpl.
    rewrite lookup_empty. apply scan_user_dirs_no_error.
Qed.

Lemma failed_job_error_not_reported_witness :
  let w' := TrainingService.update_training_status Sample.pending "user_123"
              "aurel_person" "train_ab12cd34" "failed" 0 "Training failed"
              (Some "CUDA out of memory") in
  job_field w' "user_123" "aurel_person" "error" = Some (JStr "CUDA out of memory")
  ∧ ∃ d, TrainingService.get_training_status w' "train_ab12cd34" = Some d
         ∧ d !! "status" = Some (JStr "failed") ∧ d !! "error" = None.
Proof.
  intros w'.
  assert (H1 : is_Some (Disk.read_metadata (users_dir Sample.pending)
                          "user_123" "aurel_person")) by (vm_compute; eauto).
  assert (H2 : "CUDA out of memory" ≠ "") by discriminate.
  destruct (failed_job_error_not_reported Sample.pending "user_123" "aurel_person"
              "train_ab12cd34" 0 "Training failed" "CUDA out of memory" H1 H2)
    as (_ & A & B & _).
  split; [exact A | exact B].
Defined.

(** The same on the sample run in which loading the model components
    raises: the client polling [GET /train/{training_id}/status] sees the
    status [failed] and a null [error], from the index and, after a
    restart, from the durable scan, while the durable record holds the
    description. *)
Example failed_run_status_response :
  job_field Sample.failed "user_123" "aurel_person" "error"
    = Some (JStr "CUDA out of memory")
  ∧ (Main.ts_status
       <$> Main.body (Main.get_training_status Sample.failed "train_ab12cd34"))
    = Some (JStr "failed")
  ∧ (Main.ts_error
       <$> Main.body (Main.get_training_status Sample.failed "train_ab12cd34"))
    = Some JNull
  ∧ (Main.ts_status
       <$> Main.body (Main.get_training_status (restart Sample.failed) "train_ab12cd34"))
    = Some (JStr "failed")
  ∧ (Main.ts_error
       <$> Main.body (Main.get_training_status (restart Sample.failed) "train_ab12cd34"))
    = Some JNull.
Proof. repeat split; vm_compute; reflexivity. Qed.

(** ** [save_training_images] *)

Section Create.
Import StorageService.

Lemma save_each_length mid dir idx images files saved total :
  length (save_each mid dir idx images files saved total).1.2
  = (length saved + length images)%nat.
Proof.
  revert idx files saved total.
  induction images as [|[name content] images IH]; intros; simpl; [lia|].
  rewrite IH, length_app. simpl. lia.
Qed.

Lemma lookup_get_model_training_directory d u m :
  is_Some (Disk.lookup_training_dir (get_model_training_directory d u m) u m).
Proof.
  unfold Disk.lookup_training_dir, get_model_training_directory.
  rewrite lookup_insert_eq. simpl. rewrite lookup_insert_eq. eauto.
Qed.

Lemma save_training_images_metadata inst w u m images metadata :
  let r := save_training_images inst w u m images metadata in
  ∃ md, Disk.read_metadata (users_dir r.2) u m = Some md
        ∧ md_custom_metadata md = Some (default ∅ metadata)
        ∧ md_user_id md = u ∧ md_model_identifier md = m
        ∧ md_created_at md = now_at w (ticks w)
        ∧ md_num_images md = Z.of_nat (length images)
        ∧ sr_num_images r.1 = Z.of_nat (length images).
Proof.
  unfold save_training_images.
  destruct (lookup_get_model_training_directory (users_dir w) u m) as [td Htd].
  rewrite Htd. simpl.
  pose proof (save_each_length m
    (Py.path_join (training_dir_path inst u m) "images") 0 images
    (default ∅ (td_images td)) [] 0) as Hlen.
  destruct (save_each _ _ _ _ _ _ _) as [[files saved] total]. simpl in *.
  eexists. split.
  - unfold Disk.read_metadata. erewrite lookup_set_training_dir by done. done.
  - simpl. rewrite Hlen. done.
Qed.

End Create.

(** C5, as stated, fails: the sample job has completed, and a second
    [POST /train] for the same user and model identifier is accepted.  The
    record at the location now belongs to the new job, in state [pending];
    the completed job's fields are gone and its training id is no longer
    found after a restart. *)
Lemma create_over_existing_record_succeeds :
  let again :=
    Main.train_model Sample.inst Sample.completed "0f0f0f0f" 0 "aurel_person"
                     "user_123" 3 "5e-06" 1 (map Sample.photo (seq 0 10)) in
  job_field Sample.completed "user_123" "aurel_person" "training_id"
    = Some (JStr "train_ab12cd34")
  ∧ job_field Sample.completed "user_123" "aurel_person" "status"
    = Some (JStr "completed")
  ∧ (Main.tr_success <$> (match again.1 with inr (resp, _) => Some resp | inl _ => None end))
    = Some true
  ∧ job_field again.2 "user_123" "aurel_person" "training_id"
    = Some (JStr "train_0f0f0f0f")
  ∧ job_field again.2 "user_123" "aurel_person" "status" = Some (JStr "pending")
  ∧ job_field again.2 "user_123" "aurel_person" "completed_at" = None
  ∧ TrainingService.get_training_status (restart again.2) "train_ab12cd34" = None.
Proof. cbv zeta. repeat split; vm_compute; reflexivity. Qed.

(** C5, amended.  A create at a location where a durable record exists,
    with identifiers that are single path components and images whose new
    names are, does not fail: [save_training_images] returns, and the
    record at the location is a new one, made at the time of the call,
    whose job section is exactly the metadata passed in (the former job
    section is not kept). *)
Theorem create_replaces_existing_record
    (inst : Config.install) (w : world) (u m : string)
    (images : list (string * bytes)) (metadata : option dict) :
  Py.component u = true →
  Py.component m = true →
  storable m images = true →
  is_Some (Disk.read_metadata (users_dir w) u m) →
  let r := StorageService.save_training_images inst w u m images metadata in
  StorageService.sr_num_images r.1 = Z.of_nat (length images)
  ∧ job_record r.2 u m = Some (default ∅ metadata)
  ∧ ∃ md, Disk.read_metadata (users_dir r.2) u m = Some md
          ∧ md_created_at md = now_at w (ticks w)
          ∧ md_num_images md = Z.of_nat (length images).
Proof.
  intros _ _ _ _ r.
  destruct (save_training_images_metadata inst w u m images metadata)
    as (md & Hmd & Hcm & _ & _ & Hcr & Hn & Hres).
  fold r in Hmd, Hres. split; [done|]. split.
  - unfold job_record. rewrite Hmd. done.
  - eauto.
Qed.

Lemma create_replaces_existing_record_witness :
  let images := [("front.png", [Byte.x89; Byte.x50]); ("side.jpg", [Byte.xff])] in
  job_record
    (StorageService.save_training_images Sample.inst Sample.completed "user_123"
       "aurel_person" images
       (Some (Main.training_metadata "train_0f0f0f0f" 3 "5e-06" 1))).2
    "user_123" "aurel_person"
  = Some (Main.training_metadata "train_0f0f0f0f" 3 "5e-06" 1).
Proof.
  intros images.
  assert (Hu : Py.component "user_123" = true) by reflexivity.
  assert (Hm : Py.component "aurel_person" = true) by reflexivity.
  assert (Hs : storable "aurel_person" images = true) by (vm_compute; reflexivity).
  assert (H : is_Some (Disk.read_metadata (users_dir Sample.completed)
                         "user_123" "aurel_person")) by (vm_compute; eauto).
  destruct (create_replaces_existing_record Sample.inst Sample.completed "user_123"
              "aurel_person" images
              (Some (Main.training_metadata "train_0f0f0f0f" 3 "5e-06" 1)) Hu Hm Hs H)
    as (_ & A & _).
  exact A.
Defined.

(** ** The model cache *)

Section Models.
Import ModelService.
Variable inst : Config.install.
Implicit Types (hub : string → hub_answer) (sv : service) (m u : string).

(** The default model is a path below the installation directory; it is
    never the fallback identifier. *)
Lemma default_is_not_fallback : Config.DEFAULT_MODEL_ID inst ≠ Config.FALLBACK_MODEL_ID.
Proof.
  unfold Config.DEFAULT_MODEL_ID, Config.FALLBACK_MODEL_ID, Py.path_join.
  generalize (Config.BASE_DIR inst). intros s H.
  repeat (destruct s as [|? s]; simpl in H; [discriminate H|];
          injection H as _ H).
  destruct s; discriminate H.
Qed.

Lemma get_model_id_default u : get_model_id inst u = Config.DEFAULT_MODEL_ID inst.
Proof.
  unfold get_model_id, Config.USER_MODELS.
  destruct (decide (u = "user_123")) as [->|]; [by rewrite lookup_insert_eq|].
  rewrite lookup_insert_ne by done.
  destruct (decide (u = "default")) as [->|]; [by rewrite lookup_insert_eq|].
  by rewrite lookup_insert_ne.
Qed.

Lemma load_model_eq hub sv m :
  load_model inst hub sv m =
  match try_load inst hub sv m with
  | (Ok pipe, sv') => (Ok pipe, sv')
  | (Raise e, sv') =>
      if decide (m = Config.FALLBACK_MODEL_ID)
      then (Raise ("Failed to load model " +:+ m +:+ ": " +:+ e), sv')
      else load_model inst hub sv' Config.FALLBACK_MODEL_ID
  end.
Proof.
  rewrite load_model_unfold_eq. unfold load_model_unfold.
  destruct (try_load inst hub sv m) as [[pipe|e] sv']; simpl; [done|].
  destruct (decide (m = Config.FALLBACK_MODEL_ID)); done.
Qed.

Lemma load_model_cache hub sv m :
  model_cache (load_model inst hub sv m).2 = model_cache sv.
Proof.
  rewrite load_model_eq. unfold try_load.
  destruct (hub m); simpl; [|done].
  destruct (decide (m = Config.FALLBACK_MODEL_ID)); [done|].
  rewrite load_model_eq. unfold try_load.
  destruct (hub Config.FALLBACK_MODEL_ID); simpl; [|done].
  destruct (decide (Config.FALLBACK_MODEL_ID = Config.FALLBACK_MODEL_ID)); done.
Qed.

Lemma get_or_load_model_keeps hub sv u k p :
  model_cache sv !! k = Some p →
  model_cache (get_or_load_model inst hub sv u).2 !! k = Some p.
Proof.
  intros Hk. unfold get_or_load_model.
  destruct (model_cache sv !! get_model_id inst u) as [q|] eqn:Hq; [done|].
  pose proof (load_model_cache hub sv (get_model_id inst u)) as Hc.
  destruct (load_model inst hub sv (get_model_id inst u)) as [[pipe|e] sv']; simpl in *.
  - rewrite Hc. rewrite lookup_insert_ne; [done|]. intros <-. congruence.
  - by rewrite Hc.
Qed.

Lemma acquires_keep sv calls k p :
  model_cache sv !! k = Some p →
  model_cache (acquires inst sv calls) !! k = Some p.
Proof.
  revert sv. induction calls as [|[hub u] calls IH]; intros sv H; [done|].
  simpl. apply IH. by apply get_or_load_model_keeps.
Qed.

Lemma get_or_load_model_cached hub sv u pipe m sv1 :
  get_or_load_model inst hub sv u = (Ok (pipe, m), sv1) →
  m = get_model_id inst u ∧ model_cache sv1 !! m = Some pipe.
Proof.
  unfold get_or_load_model.
  destruct (model_cache sv !! get_model_id inst u) as [q|] eqn:Hq.
  - intros [= <- <- <-]. done.
  - destruct (load_model inst hub sv (get_model_id inst u)) as [[q|e] sv']; [|discriminate].
    intros [= <- <- <-]. simpl. by rewrite lookup_insert_eq.
Qed.

Lemma load_model_on_fallback hub sv :
  load_model inst hub sv Config.FALLBACK_MODEL_ID =
  match hub Config.FALLBACK_MODEL_ID with
  | Unloadable e =>
      (Raise ("Failed to load model " +:+ Config.FALLBACK_MODEL_ID +:+ ": " +:+ e),
       {| model_cache := model_cache sv; next_obj := next_obj sv;
          attempts := attempts sv ++ [Config.FALLBACK_MODEL_ID] |})
  | Loadable x =>
      (Ok (new_pipeline inst sv Config.FALLBACK_MODEL_ID x),
       {| model_cache := model_cache sv; next_obj := S (next_obj sv);
          attempts := attempts sv ++ [Config.FALLBACK_MODEL_ID] |})
  end.
Proof.
  rewrite load_model_eq. unfold try_load.
  destruct (hub Config.FALLBACK_MODEL_ID); [|done].
  destruct (decide (Config.FALLBACK_MODEL_ID = Config.FALLBACK_MODEL_ID)); done.
Qed.

Lemma load_model_on_failure hub sv m e :
  hub m = Unloadable e →
  load_model inst hub sv m =
  let sv1 := {| model_cache := model_cache sv; next_obj := next_obj sv;
                attempts := attempts sv ++ [m] |} in
  if decide (m = Config.FALLBACK_MODEL_ID)
  then (Raise ("Failed to load model " +:+ m +:+ ": " +:+ e), sv1)
  else load_model inst hub sv1 Config.FALLBACK_MODEL_ID.
Proof. intros H. rewrite load_model_eq. unfold try_load. by rewrite H. Qed.

End Models.

(** C8.  After [get_or_load_model] has returned a handle for a model
    identifier, and after any further [get_or_load_model] calls (for any
    users, whatever the hub answers) with no [clear_cache] in between, a
    call that resolves to the same identifier returns the same pipeline
    object and leaves the service as it is: nothing is loaded, no
    [from_pretrained] is attempted. *)
Theorem second_acquire_is_cache_hit
    (inst : Config.install) (hub1 hub2 : string → ModelService.hub_answer)
    (sv sv1 : ModelService.service) (u1 u2 m : string) (pipe : ModelService.pipeline)
    (between : list ((string → ModelService.hub_answer) * string)) :
  ModelService.get_or_load_model inst hub1 sv u1 = (Ok (pipe, m), sv1) →
  ModelService.get_model_id inst u2 = m →
  let sv2 := acquires inst sv1 between in
  ModelService.get_or_load_model inst hub2 sv2 u2 = (Ok (pipe, m), sv2).
Proof.
  intros H1 Hm sv2.
  destruct (get_or_load_model_cached inst _ _ _ _ _ _ H1) as [_ Hc].
  pose proof (acquires_keep inst sv1 between m pipe Hc) as Hc2. fold sv2 in Hc2.
  unfold ModelService.get_or_load_model. rewrite Hm, Hc2. done.
Qed.

Lemma second_acquire_is_cache_hit_witness :
  let first := ModelService.get_or_load_model Sample.inst Sample.online
                 ModelService.init "user_123" in
  ∃ pipe, first.1 = Ok (pipe, Config.DEFAULT_MODEL_ID Sample.inst)
          ∧ ModelService.get_or_load_model Sample.inst Sample.offline first.2 "default"
            = (Ok (pipe, Config.DEFAULT_MODEL_ID Sample.inst), first.2).
Proof.
  intros first.
  exists (ModelService.new_pipeline Sample.inst ModelService.init
            (Config.DEFAULT_MODEL_ID Sample.inst) false).
  split; [vm_compute; reflexivity|].
  apply (second_acquire_is_cache_hit Sample.inst Sample.online Sample.offline
           ModelService.init first.2 "user_123" "default"
           (Config.DEFAULT_MODEL_ID Sample.inst) _ []).
  - vm_compute. reflexivity.
  - vm_compute. reflexivity.
Defined.

(** C6, as stated, fails at the fallback identifier: it is not the
    default, its load fails, and [load_model] makes one attempt and no
    retry. *)
Lemma fallback_request_is_not_retried :
  let r := ModelService.load_model Sample.inst Sample.offline ModelService.init
             Config.FALLBACK_MODEL_ID in
  Config.FALLBACK_MODEL_ID ≠ Config.DEFAULT_MODEL_ID Sample.inst
  ∧ Sample.offline Config.FALLBACK_MODEL_ID = ModelService.Unloadable "connection refused"
  ∧ ModelService.attempts r.2 = [Config.FALLBACK_MODEL_ID]
  ∧ r.1 = Raise "Failed to load model runwayml/stable-diffusion-v1-5: connection refused".
Proof. cbv zeta. repeat split; try (vm_compute; reflexivity). discriminate. Qed.

(** C6, amended.  When the load of an identifier fails: if the identifier
    is not the fallback (the default included), [load_model] makes exactly
    one further attempt, on the fallback, and returns what that attempt
    gives, the fallback pipeline or a load error; if the identifier is the
    fallback itself, the call fails with the load error and no further
    attempt. *)
Theorem load_model_retries_once_on_fallback
    (inst : Config.install) (hub : string → ModelService.hub_answer)
    (sv : ModelService.service) (m e : string) :
  hub m = ModelService.Unloadable e →
  let r := ModelService.load_model inst hub sv m in
  (m ≠ Config.FALLBACK_MODEL_ID →
     ModelService.attempts r.2
       = (ModelService.attempts sv ++ [m; Config.FALLBACK_MODEL_ID])%list
     ∧ r.1 = match hub Config.FALLBACK_MODEL_ID with
             | ModelService.Unloadable e' =>
                 Raise ("Failed to load model " +:+ Config.FALLBACK_MODEL_ID
                        +:+ ": " +:+ e')
             | ModelService.Loadable x =>
                 Ok (ModelService.new_pipeline inst sv Config.FALLBACK_MODEL_ID x)
             end)
  ∧ (m = Config.FALLBACK_MODEL_ID →
     ModelService.attempts r.2 = (ModelService.attempts sv ++ [m])%list
     ∧ r.1 = Raise ("Failed to load model " +:+ m +:+ ": " +:+ e)).
Proof.
  intros Hm r. subst r. rewrite (load_model_on_failure inst hub sv m e Hm).
  cbv zeta. split.
  - intros Hne. destruct (decide (m = Config.FALLBACK_MODEL_ID)); [done|].
    rewrite load_model_on_fallback.
    destruct (hub Config.FALLBACK_MODEL_ID); simpl; by rewrite <- app_assoc.
  - intros ->.
    destruct (decide (Config.FALLBACK_MODEL_ID = Config.FALLBACK_MODEL_ID)); done.
Qed.

Lemma load_model_retries_once_on_fallback_witness :
  ModelService.attempts
    (ModelService.load_model Sample.inst Sample.fallback_only ModelService.init
       (Config.DEFAULT_MODEL_ID Sample.inst)).2
  = [Config.DEFAULT_MODEL_ID Sample.inst; Config.FALLBACK_MODEL_ID].
Proof.
  apply (load_model_retries_once_on_fallback Sample.inst Sample.fallback_only
           ModelService.init (Config.DEFAULT_MODEL_ID Sample.inst) "model not found").
  - vm_compute. reflexivity.
  - apply default_is_not_fallback.
Defined.

(** C3.  When the identifier resolved for the user is not cached and
    fails to load while the fallback loads, [get_or_load_model] returns
    the fallback pipeline together with the identifier that was requested,
    which is not the fallback identifier; the pipeline is cached under the
    requested identifier, and [generate_image] reports that same
    identifier next to the image. *)
Theorem fallback_is_reported_as_requested_model
    (inst : Config.install) (hub : string → ModelService.hub_answer)
    (sv : ModelService.service) (u e : string) (x : bool) :
  let requested := ModelService.get_model_id inst u in
  ModelService.model_cache sv !! requested = None →
  hub requested = ModelService.Unloadable e →
  hub Config.FALLBACK_MODEL_ID = ModelService.Loadable x →
  ∃ pipe sv',
    ModelService.get_or_load_model inst hub sv u = (Ok (pipe, requested), sv')
    ∧ ModelService.loaded_from pipe = Config.FALLBACK_MODEL_ID
    ∧ requested ≠ Config.FALLBACK_MODEL_ID
    ∧ ModelService.model_cache sv' !! requested = Some pipe
    ∧ ∀ (image : Type) (run_pipe : ModelService.pipeline → ModelService.pipe_args → outcome image)
        (prompt : string) (steps : Z) (guidance : string) (width height : Z)
        (seed : option Z),
        match ModelService.generate_image inst run_pipe hub sv u prompt steps guidance
                width height seed with
        | (Ok (_, reported), _) => reported = requested
        | (Raise _, _) => True
        end.
Proof.
  intros requested Hmiss Hreq Hfb.
  assert (Hne : requested ≠ Config.FALLBACK_MODEL_ID).
  { subst requested. rewrite get_model_id_default. apply default_is_not_fallback. }
  assert (Hget : ModelService.get_or_load_model inst hub sv u
                 = (Ok (ModelService.new_pipeline inst
                          {| ModelService.model_cache := ModelService.model_cache sv;
                             ModelService.next_obj := ModelService.next_obj sv;
                             ModelService.attempts := (ModelService.attempts sv ++ [requested])%list |}
                          Config.FALLBACK_MODEL_ID x, requested),
                    {| ModelService.model_cache :=
                         <[requested := ModelService.new_pipeline inst
                             {| ModelService.model_cache := ModelService.model_cache sv;
                                ModelService.next_obj := ModelService.next_obj sv;
                                ModelService.attempts := (ModelService.attempts sv ++ [requested])%list |}
                             Config.FALLBACK_MODEL_ID x]> (ModelService.model_cache sv);
                       ModelService.next_obj := S (ModelService.next_obj sv);
                       ModelService.attempts :=
                         ((ModelService.attempts sv ++ [requested])
                          ++ [Config.FALLBACK_MODEL_ID])%list |})).
  { unfold ModelService.get_or_load_model. fold requested. rewrite Hmiss.
    rewrite (load_model_on_failure inst hub sv requested e Hreq). cbv zeta.
    destruct (decide (requested = Config.FALLBACK_MODEL_ID)); [done|].
    rewrite load_model_on_fallback, Hfb. done. }
  eexists _, _. split; [exact Hget|].
  split; [done|]. split; [done|]. split; [simpl; by rewrite lookup_insert_eq|].
  intros. unfold ModelService.generate_image. rewrite Hget.
  destruct (run_pipe _ _); done.
Qed.

Lemma fallback_is_reported_as_requested_model_witness :
  ∃ pipe sv',
    ModelService.get_or_load_model Sample.inst Sample.fallback_only
      ModelService.init "user_123"
    = (Ok (pipe, Config.DEFAULT_MODEL_ID Sample.inst), sv')
    ∧ ModelService.loaded_from pipe = Config.FALLBACK_MODEL_ID.
Proof.
  destruct (fallback_is_reported_as_requested_model Sample.inst Sample.fallback_only
              ModelService.init "user_123" "model not found" false)
    as (pipe & sv' & H1 & H2 & _).
  - vm_compute. reflexivity.
  - vm_compute. reflexivity.
  - vm_compute. reflexivity.
  - exists pipe, sv'. split; [exact H1 | exact H2].
Defined.

(** ** Rules for orchestrator computations *)

Section Rules.
Import TrainingService.
Context {A B : Type}.
Implicit Types (P : run → Prop) (E : string → run → Prop).

Lemma triple_ret P (Q : A → run → Prop) E (a : A) :
  (∀ r, P r → Q a r) → triple P (ret a) Q E.
Proof. intros H r Hr. simpl. auto. Qed.

Lemma triple_raise P (Q : A → run → Prop) E (e : string) :
  (∀ r, P r → E e r) → triple P (raise e) Q E.
Proof. intros H r Hr. simpl. auto. Qed.

Lemma triple_bind P (Q1 : A → run → Prop) (Q : B → run → Prop) E
    (m : M A) (k : A → M B) :
  triple P m Q1 E → (∀ a, triple (Q1 a) (k a) Q E) → triple P (bind m k) Q E.
Proof.
  intros Hm Hk r Hr. unfold bind. specialize (Hm r Hr).
  destruct (m r) as [[a|e] r']; [by apply Hk | done].
Qed.

Lemma triple_try P (Q : A → run → Prop) (E1 E : string → run → Prop)
    (body : M A) (handler : string → M A) :
  triple P body Q E1 → (∀ e, triple (E1 e) (handler e) Q E) →
  triple P (try_except body handler) Q E.
Proof.
  intros Hb Hh r Hr. unfold try_except. specialize (Hb r Hr).
  destruct (body r) as [[a|e] r']; [done | by apply Hh].
Qed.

Lemma triple_weaken P P' (Q Q' : A → run → Prop) E E' (m : M A) :
  triple P' m Q' E' →
  (∀ r, P r → P' r) → (∀ a r, Q' a r → Q a r) → (∀ e r, E' e r → E e r) →
  triple P m Q E.
Proof.
  intros Hm HP HQ HE r Hr. specialize (Hm r (HP r Hr)).
  destruct (m r) as [[a|e] r']; auto.
Qed.

End Rules.

(** ** The orchestrator keeps the job's [metadata.json] in place *)

Section KeepsMetadata.
Import TrainingService.
Variables (inst : Config.install) (env : trainer) (u m tid : string) (epochs_given : Z).

#[local] Abbreviation keeps c :=
  (triple (has_metadata u m) c (λ _, has_metadata u m) (λ _, has_metadata u m)).

Lemma keeps_update st p msg err : keeps (update u m tid st p msg err).
Proof. intros r Hr. simpl. by apply update_keeps_metadata. Qed.

Lemma keeps_ext st : keeps (ext env st).
Proof. intros r Hr. unfold ext. by destruct (raises env st). Qed.

Lemma keeps_read_world : keeps read_world.
Proof. intros r Hr. done. Qed.

Lemma read_metadata_mkdir d :
  Disk.read_metadata (mkdir_output_model_dir u m d) u m = Disk.read_metadata d u m.
Proof.
  unfold Disk.read_metadata, Disk.lookup_training_dir, mkdir_output_model_dir.
  rewrite lookup_insert_eq. simpl. by destruct (d !! u).
Qed.

Lemma keeps_mkdir : keeps (modify_disk (mkdir_output_model_dir u m)).
Proof.
  intros r Hr. unfold has_metadata in *. simpl. by rewrite read_metadata_mkdir.
Qed.

Lemma keeps_bind {A B} (c : M A) (k : A → M B) :
  keeps c → (∀ a, keeps (k a)) → keeps (bind c k).
Proof. intros Hc Hk. eapply triple_bind; [exact Hc | exact Hk]. Qed.

Lemma keeps_ret {A} (a : A) : keeps (ret a).
Proof. by apply triple_ret. Qed.

Lemma keeps_raise {A} e : keeps (@raise A e).
Proof. by apply triple_raise. Qed.

Lemma keeps_on_failure {A} e : keeps (@on_failure u m tid A e).
Proof. apply keeps_bind; [apply keeps_update | intros; apply keeps_raise]. Qed.

Lemma keeps_batches k epoch g : keeps (batches env u m tid epochs_given k epoch g).
Proof.
  revert g. induction k as [|k IH]; intros g; simpl; [apply keeps_ret|].
  apply keeps_bind; [apply keeps_ext | intros _].
  apply keeps_bind; [|intros _; apply IH].
  case_bool_decide; [apply keeps_update | apply keeps_ret].
Qed.

Lemma keeps_epochs n epoch g : keeps (epochs env u m tid epochs_given n epoch g).
Proof.
  revert epoch g. induction n as [|n IH]; intros epoch g; simpl; [apply keeps_ret|].
  apply keeps_bind; [apply keeps_batches | intros g'; apply IH].
Qed.

Lemma keeps_train_lora : keeps (_train_lora inst u m tid).
Proof.
  unfold _train_lora.
  repeat (apply keeps_bind; [apply keeps_update | intros _]). apply keeps_ret.
Qed.

Lemma keeps_train_dreambooth : keeps (_train_dreambooth inst env u m tid epochs_given).
Proof.
  unfold _train_dreambooth.
  eapply triple_try; [|intros e; apply keeps_on_failure].
  repeat first
    [ apply keeps_ret
    | apply keeps_bind;
      [ first [ apply keeps_update | apply keeps_ext | apply keeps_read_world
              | apply keeps_epochs ]
      | intros ? ] ].
Qed.

Lemma keeps_start_training_body use_lora :
  keeps (start_training_body inst env u m tid epochs_given use_lora).
Proof.
  unfold start_training_body.
  apply keeps_bind; [apply keeps_update | intros _].
  apply keeps_bind; [apply keeps_read_world | intros w].
  destruct (_ ≫= td_images) as [files|]; [|apply keeps_raise].
  case_bool_decide; [apply keeps_raise|].
  apply keeps_bind; [apply keeps_mkdir | intros _].
  apply keeps_bind; [apply keeps_update | intros _].
  destruct use_lora; [apply keeps_train_lora | apply keeps_train_dreambooth].
Qed.

End KeepsMetadata.

(** C2, as stated, fails: in the sample run the job is [running] with
    progress 20 when loading the model components raises, and the record
    ends with status [failed] and progress 0. *)
Lemma failure_does_not_keep_progress :
  let calls := TrainingService.r_calls Sample.failed_run.2 in
  let before := apply_updates Sample.pending "user_123" "aurel_person"
                  "train_ab12cd34" (take 4 calls) in
  map (λ c, (TrainingService.c_status c, TrainingService.c_progress c)) calls
    = [("running", 5); ("running", 10); ("running", 15); ("running", 20);
       ("failed", 0); ("failed", 0)]
  ∧ job_field before "user_123" "aurel_person" "status" = Some (JStr "running")
  ∧ job_field before "user_123" "aurel_person" "progress" = Some (JInt 20)
  ∧ Sample.failed_run.1 = Raise "CUDA out of memory"
  ∧ job_field Sample.failed "user_123" "aurel_person" "status" = Some (JStr "failed")
  ∧ job_field Sample.failed "user_123" "aurel_person" "progress" = Some (JInt 0).
Proof. cbv zeta. repeat split; vm_compute; reflexivity. Qed.

(** C2, amended.  When [start_training] ends with an exception for a job
    whose [metadata.json] exists, the last thing it did was the update to
    [failed]: the record has status [failed], progress 0 whatever it was
    before, the message "Training failed" and a [completed_at]; the error
    description is stored when it is not empty. *)
Theorem failure_sets_progress_to_zero
    (inst : Config.install) (env : TrainingService.trainer) (u m tid : string)
    (num_train_epochs : Z) (use_lora : bool) (w : world) (e : string)
    (r' : TrainingService.run) :
  is_Some (Disk.read_metadata (users_dir w) u m) →
  TrainingService.start_training inst env u m tid num_train_epochs use_lora
    (TrainingService.run_from w) = (Raise e, r') →
  let w' := TrainingService.r_world r' in
  job_field w' u m "status" = Some (JStr "failed")
  ∧ job_field w' u m "progress" = Some (JInt 0)
  ∧ job_field w' u m "message" = Some (JStr "Training failed")
  ∧ is_Some (job_field w' u m "completed_at")
  ∧ (e ≠ "" → job_field w' u m "error" = Some (JStr e))
  ∧ last (TrainingService.r_calls r')
    = Some {| TrainingService.c_status := "failed"; TrainingService.c_progress := 0;
              TrainingService.c_message := "Training failed";
              TrainingService.c_error := Some e |}.
Proof.
  intros Hmd Hrun w'. subst w'.
  pose proof (keeps_start_training_body inst env u m tid num_train_epochs use_lora
                (TrainingService.run_from w) Hmd) as Hbody.
  unfold TrainingService.start_training, TrainingService.try_except in Hrun.
  destruct (TrainingService.start_training_body _ _ _ _ _ _ _ _) as [[d|e0] r1];
    [discriminate|].
  destruct Hbody as [md Hmd1].
  unfold TrainingService.on_failure, TrainingService.bind, TrainingService.update,
    TrainingService.raise in Hrun.
  injection Hrun as <- <-. simpl.
  rewrite !(update_field _ _ _ _ _ _ _ _ md) by done.
  rewrite update_custom_status, update_custom_progress, update_custom_message,
    update_custom_completed_at, update_custom_error.
  rewrite (bool_decide_eq_true_2 (terminal "failed")) by (by right).
  repeat split; try done.
  - intros He. by rewrite bool_decide_eq_false_2.
  - by rewrite last_snoc.
Qed.

Lemma failure_sets_progress_to_zero_witness :
  job_field Sample.failed "user_123" "aurel_person" "progress" = Some (JInt 0).
Proof.
  assert (H : is_Some (Disk.read_metadata (users_dir Sample.pending)
                         "user_123" "aurel_person")) by (vm_compute; eauto).
  destruct (failure_sets_progress_to_zero Sample.inst Sample.out_of_memory
              "user_123" "aurel_person" "train_ab12cd34" 3 false Sample.pending
              "CUDA out of memory" Sample.failed_run.2 H)
    as (_ & A & _).
  - vm_compute. reflexivity.
  - exact A.
Defined.

(** ** The progress schedule *)

Section Climbing.
Import TrainingService.

Lemma Sorted_snoc (l : list Z) (x : Z) :
  Sorted Z.le l → Forall (λ y, y ≤ x) l → Sorted Z.le (l ++ [x]).
Proof.
  induction l as [|a l IH]; intros Hs Hall; simpl.
  - repeat constructor.
  - inversion Hs as [|? ? Hs' Hhd]; subst.
    inversion Hall as [|? ? Ha Hl]; subst.
    constructor; [by apply IH|].
    destruct l as [|b l]; simpl; constructor; [done|].
    by inversion Hhd.
Qed.

Lemma climbing_nil b : climbing b [].
Proof. split; constructor. Qed.

Lemma climbing_weaken b b' calls : climbing b calls → b ≤ b' → climbing b' calls.
Proof.
  intros [Hs Hall] Hb. split; [done|].
  eapply Forall_impl; [exact Hall|]. simpl. intros c [? ?]. split; [done | lia].
Qed.

Lemma climbing_snoc b p calls msg err :
  climbing b calls → b ≤ p → 0 ≤ p →
  climbing p (calls ++ [{| c_status := "running"; c_progress := p;
                           c_message := msg; c_error := err |}]).
Proof.
  intros [Hs Hall] Hb Hp. split.
  - rewrite map_app. simpl. apply Sorted_snoc; [done|].
    rewrite Forall_map. eapply Forall_impl; [exact Hall|]. simpl. lia.
  - apply Forall_app. split.
    + eapply Forall_impl; [exact Hall|]. simpl. intros c [? ?]. split; [done | lia].
    + repeat constructor; simpl; lia.
Qed.

Lemma running_progress_app pre post :
  Forall (λ c, c_status c = "running") pre →
  Forall (λ c, c_status c ≠ "running") post →
  running_progress (pre ++ post) = map c_progress pre.
Proof.
  intros Hpre Hpost. unfold running_progress. rewrite filter_app.
  assert (Hall : filter (λ c, c_status c = "running") pre = pre).
  { induction Hpre as [|c l Hc Hl IH]; [done|].
    rewrite filter_cons_True by done. by rewrite IH. }
  assert (Hnone : filter (λ c, c_status c = "running") post = []).
  { induction Hpost as [|c l Hc Hl IH]; [done|].
    by rewrite filter_cons_False. }
  by rewrite Hall, Hnone, app_nil_r.
Qed.

Lemma climbing_running b calls :
  climbing b calls → Forall (λ c, c_status c = "running") calls.
Proof. intros [_ H]. eapply Forall_impl; [exact H|]. by intros c [? _]. Qed.

Lemma climbing_range b calls :
  climbing b calls → Forall (λ p, 0 ≤ p ≤ b) (map c_progress calls).
Proof.
  intros [_ H]. rewrite Forall_map. eapply Forall_impl; [exact H|]. by intros c [_ ?].
Qed.

Variables (inst : Config.install) (env : trainer) (u m tid : string) (epochs_given : Z).

#[local] Abbreviation rp b := (λ r : run, climbing b (r_calls r)).
#[local] Abbreviation total := (Z.to_nat (num_steps env epochs_given)).
#[local] Abbreviation bound := (loop_bound env epochs_given).
#[local] Abbreviation scaled g n :=
  (Float64.to_int (Float64.mul (Float64.int_truediv g n) (Float64.of_int 50))).

Lemma triple_pure {A} (φ : Prop) (P : run → Prop) (c : M A) Q E :
  (φ → triple P c Q E) → triple (λ r, φ ∧ P r) c Q E.
Proof. intros H r [Hφ Hr]. by apply H. Qed.

Lemma rp_update {E : string → run → Prop} b p msg :
  b ≤ p → 0 ≤ p →
  triple (rp b) (update u m tid "running" p msg None) (λ _, rp p) E.
Proof. intros Hb Hp r Hr. simpl. by eapply climbing_snoc. Qed.

Lemma rp_ext b b' st :
  b ≤ b' → triple (rp b) (ext env st) (λ _, rp b) (λ _, rp b').
Proof.
  intros Hb r Hr. unfold ext. destruct (raises env st); [|done].
  by eapply climbing_weaken.
Qed.

Lemma rp_read_world {E : string → run → Prop} b :
  triple (rp b) read_world (λ _, rp b) E.
Proof. intros r Hr. done. Qed.

Lemma rp_modify_disk {E : string → run → Prop} b f :
  triple (rp b) (modify_disk f) (λ _, rp b) E.
Proof. intros r Hr. done. Qed.

Lemma rp_completed {E : string → run → Prop} b msg :
  b ≤ 100 →
  triple (rp b) (update u m tid "completed" 100 msg None)
         (λ _, climbed_then completion) E.
Proof.
  intros Hb r Hr. simpl. eexists (r_calls r), _. split; [done|].
  split; [by eapply climbing_weaken|]. eexists. done.
Qed.

Lemma failures_on_failure {A} e :
  triple (climbed_then failures) (@on_failure u m tid A e)
         (λ _ _, False) (λ _, climbed_then failures).
Proof.
  intros r (pre & post & Hc & Hpre & Hpost).
  unfold on_failure, bind, update, raise. simpl.
  exists pre, (post ++ [{| c_status := "failed"; c_progress := 0;
                           c_message := "Training failed"; c_error := Some e |}]).
  split; [simpl; rewrite Hc; symmetry; apply app_assoc|]. split; [done|].
  apply Forall_app. split; [done|]. by repeat constructor.
Qed.

Lemma rp_failures b r : b ≤ 100 → rp b r → climbed_then failures r.
Proof.
  intros Hb Hr. simpl in Hr. exists (r_calls r), []. rewrite app_nil_r.
  split; [done|]. split; [exact (climbing_weaken _ _ _ Hr Hb) | constructor].
Qed.

Lemma bound_step g : (S g ≤ total)%nat → bound (S g) = loop_progress env epochs_given (S g).
Proof. intros H. unfold loop_bound. case_decide; [done | lia]. Qed.

Lemma bound_mono g g' : (g ≤ g' ≤ total)%nat → bound g ≤ bound g'.
Proof.
  intros H. unfold loop_bound, loop_progress. case_decide; [|done].
  apply Z.add_le_mono_l. apply scaled_mono; lia.
Qed.

Lemma bound_range g : (g ≤ total)%nat → 40 ≤ bound g ≤ 90.
Proof.
  intros H. unfold loop_bound, loop_progress. case_decide; [|lia].
  pose proof (scaled_range (Z.of_nat g) (num_steps env epochs_given)). lia.
Qed.

Lemma rp_batches k epoch g :
  (g + k ≤ total)%nat →
  triple (rp (bound g)) (batches env u m tid epochs_given k epoch g)
         (λ g' r, g' = (g + k)%nat ∧ rp (bound g') r) (λ _, rp 100).
Proof.
  revert g. induction k as [|k IH]; intros g Hg; simpl.
  - apply triple_ret. intros r Hr. by rewrite Nat.add_0_r.
  - pose proof (bound_range g ltac:(lia)). pose proof (bound_range (S g) ltac:(lia)).
    pose proof (bound_mono g (S g) ltac:(lia)).
    eapply triple_bind; [apply (rp_ext _ 100); lia | intros ?].
    eapply triple_bind with (Q1 := λ _, rp (bound (S g))).
    + case_bool_decide.
      * rewrite <- bound_step by lia. apply rp_update; lia.
      * apply triple_ret. intros r Hr. by eapply climbing_weaken.
    + intros ?. eapply triple_weaken; [apply (IH (S g)); lia | done | | done].
      intros g' r [-> Hr]. split; [lia | done].
Qed.

Lemma rp_epochs n epoch g :
  (g + n * dataloader_len env ≤ total)%nat →
  triple (rp (bound g)) (epochs env u m tid epochs_given n epoch g)
         (λ g' r, (g' ≤ total)%nat ∧ rp (bound g') r) (λ _, rp 100).
Proof.
  revert epoch g. induction n as [|n IH]; intros epoch g Hg; simpl.
  - apply triple_ret. intros r Hr. split; [lia | done].
  - eapply triple_bind; [apply rp_batches; lia|].
    intros g'. simpl.
    intros r [-> Hr]. apply (IH (S epoch) (g + dataloader_len env)%nat); [lia | done].
Qed.

Lemma total_epochs : (Z.to_nat epochs_given * dataloader_len env ≤ total)%nat.
Proof. unfold num_steps. nia. Qed.

Lemma climb_train_lora :
  triple (rp 10) (_train_lora inst u m tid)
         (λ _, climbed_then completion) (λ _, climbed_then failures).
Proof.
  unfold _train_lora.
  eapply triple_bind; [apply rp_update; lia | intros ?].
  eapply triple_bind; [apply rp_update; lia | intros ?].
  eapply triple_bind; [apply rp_completed; lia | intros ?].
  by apply triple_ret.
Qed.

Lemma climb_train_dreambooth :
  triple (rp 10) (_train_dreambooth inst env u m tid epochs_given)
         (λ _, climbed_then completion) (λ _, climbed_then failures).
Proof.
  unfold _train_dreambooth.
  eapply triple_try with (E1 := λ _, rp 100).
  2:{ intros e. eapply triple_weaken; [apply failures_on_failure | | | done].
      - intros r Hr. by apply (rp_failures 100).
      - intros ? ? []. }
  eapply triple_bind; [apply rp_update; lia | intros ?].
  eapply triple_bind; [apply (rp_ext _ 100); lia | intros ?].
  eapply triple_bind; [apply rp_update; lia | intros ?].
  eapply triple_bind; [apply (rp_ext _ 100); lia | intros ?].
  eapply triple_bind; [apply rp_update; lia | intros ?].
  eapply triple_bind; [apply (rp_ext _ 100); lia | intros ?].
  eapply triple_bind; [apply rp_read_world | intros w].
  eapply triple_bind; [apply rp_update; lia | intros ?].
  eapply triple_bind; [apply (rp_ext _ 100); lia | intros ?].
  eapply triple_bind.
  { eapply triple_weaken;
      [apply (rp_epochs (Z.to_nat epochs_given) 0 0); simpl; apply total_epochs
      | | intros g r H; exact H | done].
    intros r Hr. simpl in Hr. eapply climbing_weaken; [exact Hr|].
    apply (bound_range 0). lia. }
  intros g. apply triple_pure. intros Hg.
  pose proof (bound_range g Hg).
  eapply triple_bind; [apply rp_update; lia | intros ?].
  eapply triple_bind; [apply (rp_ext _ 100); lia | intros ?].
  eapply triple_bind; [apply rp_completed; lia | intros ?].
  by apply triple_ret.
Qed.

Lemma climb_start_training use_lora :
  triple (rp 0) (start_training inst env u m tid epochs_given use_lora)
         (λ _, climbed_then completion) (λ _, climbed_then failures).
Proof.
  unfold start_training.
  eapply triple_try with (E1 := λ _, climbed_then failures).
  2:{ intros e. eapply triple_weaken; [apply failures_on_failure | done | | done].
      intros ? ? []. }
  unfold start_training_body.
  eapply triple_bind with (Q1 := λ _, rp 5); [apply (rp_update 0 5); lia | intros ?].
  eapply triple_bind with (Q1 := λ _, rp 5); [apply rp_read_world | intros w].
  destruct (_ ≫= td_images) as [files|].
  2:{ apply triple_raise. intros r Hr. by apply (rp_failures 5). }
  case_bool_decide.
  { apply triple_raise. intros r Hr. by apply (rp_failures 5). }
  eapply triple_bind with (Q1 := λ _, rp 5); [apply rp_modify_disk | intros ?].
  eapply triple_bind with (Q1 := λ _, rp 10); [apply rp_update; lia | intros ?].
  destruct use_lora; [apply climb_train_lora | apply climb_train_dreambooth].
Qed.

End Climbing.

(** C7.  In every run of [start_training], with either strategy and
    whatever the fine-tuning code does: the progress values of the updates
    issued with status [running] are non-decreasing and lie between 0 and
    100; and when the run returns normally, the last update issued is the
    one to [completed], with progress 100, and every update before it has
    status [running]. *)
Theorem progress_climbs_to_100
    (inst : Config.install) (env : TrainingService.trainer) (u m tid : string)
    (num_train_epochs : Z) (use_lora : bool) (w : world) :
  let res := TrainingService.start_training inst env u m tid num_train_epochs
               use_lora (TrainingService.run_from w) in
  let calls := TrainingService.r_calls res.2 in
  Sorted Z.le (running_progress calls)
  ∧ Forall (λ p, 0 ≤ p ≤ 100) (running_progress calls)
  ∧ ∀ d, res.1 = Ok d →
      ∃ pre c, calls = pre ++ [c]
               ∧ Forall (λ c, TrainingService.c_status c = "running") pre
               ∧ TrainingService.c_status c = "completed"
               ∧ TrainingService.c_progress c = 100.
Proof.
  intros res calls.
  pose proof (climb_start_training inst env u m tid num_train_epochs use_lora
                (TrainingService.run_from w) (climbing_nil 0)) as H.
  fold res in H. subst calls. destruct res as [[d|e] r']; simpl in *.
  - destruct H as (pre & post & Hc & Hpre & c & -> & Hst & Hp).
    rewrite Hc, running_progress_app;
      [|by eapply climbing_running | by repeat constructor; rewrite Hst].
    split; [apply Hpre|]. split; [by eapply climbing_range|].
    intros _ _. exists pre, c. split; [done|].
    split; [by eapply climbing_running | done].
  - destruct H as (pre & post & Hc & Hpre & Hpost).
    rewrite Hc, running_progress_app; [|by eapply climbing_running|].
    + split; [apply Hpre|]. split; [by eapply climbing_range | discriminate].
    + eapply Forall_impl; [exact Hpost|]. simpl. intros c ->. discriminate.
Qed.

Lemma progress_climbs_to_100_witness :
  running_progress (TrainingService.r_calls Sample.completed_run.2)
    = [5; 10; 15; 20; 30; 40; 56; 73; 90; 90]
  ∧ ∃ pre c, TrainingService.r_calls Sample.completed_run.2 = pre ++ [c]
             ∧ TrainingService.c_status c = "completed"
             ∧ TrainingService.c_progress c = 100.
Proof.
  split; [vm_compute; reflexivity|].
  destruct (progress_climbs_to_100 Sample.inst Sample.quiet "user_123" "aurel_person"
              "train_ab12cd34" 3 false Sample.pending) as (_ & _ & H).
  destruct (Sample.completed_run.1) as [d|e] eqn:Hd; [|vm_compute in Hd; discriminate].
  destruct (H d Hd) as (pre & c & Hc & _ & Hs & Hp).
  exists pre, c. split; [exact Hc | split; [exact Hs | exact Hp]].
Defined.

(** * Further properties *)

(** ** The job store: further properties *)

Section DiskFrame.
Implicit Types (d : disk) (u m : string) (td : training_dir) (md : metadata).

Lemma lookup_set_training_dir_ne d u m td u' m' :
  (u', m') ≠ (u, m) →
  Disk.lookup_training_dir (Disk.set_training_dir d u m td) u' m'
  = Disk.lookup_training_dir d u' m'.
Proof.
  intros Hne. unfold Disk.lookup_training_dir, Disk.set_training_dir.
  destruct (d !! u) as [ud|] eqn:Hu; [|done].
  destruct (ud_training_images ud) as [tis|] eqn:Ht; [|done].
  destruct (decide (u' = u)) as [->|Hu'].
  - rewrite lookup_insert_eq, Hu. simpl. rewrite Ht. simpl.
    rewrite lookup_insert_ne; [done|]. intros <-. by apply Hne.
  - by rewrite lookup_insert_ne.
Qed.

Lemma set_training_dir_models d u m td u' :
  (ud_models <$> Disk.set_training_dir d u m td !! u') = (ud_models <$> d !! u').
Proof.
  unfold Disk.set_training_dir.
  destruct (d !! u) as [ud|] eqn:Hu; [|done].
  destruct (ud_training_images ud) as [tis|] eqn:Ht; [|done].
  destruct (decide (u' = u)) as [->|Hu'].
  - by rewrite lookup_insert_eq, Hu.
  - by rewrite lookup_insert_ne.
Qed.

Lemma set_training_dir_is_Some d u m td u' :
  is_Some (Disk.set_training_dir d u m td !! u') ↔ is_Some (d !! u').
Proof.
  rewrite <- !fmap_is_Some with (f := ud_models).
  by rewrite set_training_dir_models.
Qed.

Lemma lookup_write_metadata_ne d u m md u' m' :
  (u', m') ≠ (u, m) →
  Disk.lookup_training_dir (Disk.write_metadata d u m md) u' m'
  = Disk.lookup_training_dir d u' m'.
Proof.
  intros Hne. unfold Disk.write_metadata.
  destruct (Disk.lookup_training_dir d u m); [|done].
  by apply lookup_set_training_dir_ne.
Qed.

Lemma lookup_write_metadata d u m md td :
  Disk.lookup_training_dir d u m = Some td →
  Disk.lookup_training_dir (Disk.write_metadata d u m md) u m
  = Some {| td_images := td_images td; td_metadata := Some md |}.
Proof.
  intros H. unfold Disk.write_metadata. rewrite H.
  by eapply lookup_set_training_dir.
Qed.

Lemma write_metadata_models d u m md u' :
  (ud_models <$> Disk.write_metadata d u m md !! u') = (ud_models <$> d !! u').
Proof.
  unfold Disk.write_metadata.
  destruct (Disk.lookup_training_dir d u m); [|done].
  apply set_training_dir_models.
Qed.

Lemma read_metadata_lookup d u m md :
  Disk.read_metadata d u m = Some md ↔
  ∃ td, Disk.lookup_training_dir d u m = Some td ∧ td_metadata td = Some md.
Proof.
  unfold Disk.read_metadata. split.
  - destruct (Disk.lookup_training_dir d u m) as [td|]; simpl; [|done].
    intros H. by exists td.
  - intros (td & -> & H). done.
Qed.

Lemma lookup_training_dir_Some d u m td :
  Disk.lookup_training_dir d u m = Some td ↔
  ∃ ud tis, d !! u = Some ud ∧ ud_training_images ud = Some tis ∧ tis !! m = Some td.
Proof.
  unfold Disk.lookup_training_dir. split.
  - destruct (d !! u) as [ud|]; simpl; [|done].
    destruct (ud_training_images ud) as [tis|] eqn:Ht; simpl; [|done].
    intros H. by exists ud, tis.
  - intros (ud & tis & -> & Ht & H). simpl. rewrite Ht. done.
Qed.

End DiskFrame.

Section UpdateFrame.
Import TrainingService.
Implicit Types (w : world) (u m tid st msg : string) (p : Z) (err : option string).

(** The directory tree after an update. *)
Lemma update_users_dir w u m tid st p msg err md :
  Disk.read_metadata (users_dir w) u m = Some md →
  ∃ md', users_dir (update_training_status w u m tid st p msg err)
         = Disk.write_metadata (users_dir w) u m md'.
Proof.
  intros H. unfold update_training_status. rewrite H.
  pose proof (update_custom_frame w (default ∅ (md_custom_metadata md)) st p msg err) as Hf.
  destruct (update_custom w _ st p msg err) as [cm' w1]. simpl in *.
  destruct Hf as (-> & _). eauto.
Qed.

Lemma update_lookup_ne w u m tid st p msg err u' m' :
  (u', m') ≠ (u, m) →
  Disk.lookup_training_dir (users_dir (update_training_status w u m tid st p msg err)) u' m'
  = Disk.lookup_training_dir (users_dir w) u' m'.
Proof.
  intros Hne.
  destruct (Disk.read_metadata (users_dir w) u m) as [md|] eqn:Hmd.
  - destruct (update_users_dir w u m tid st p msg err md Hmd) as [md' ->].
    by apply lookup_write_metadata_ne.
  - by rewrite update_missing.
Qed.

Lemma update_images w u m tid st p msg err :
  (td_images <$> Disk.lookup_training_dir
                   (users_dir (update_training_status w u m tid st p msg err)) u m)
  = (td_images <$> Disk.lookup_training_dir (users_dir w) u m).
Proof.
  destruct (Disk.read_metadata (users_dir w) u m) as [md|] eqn:Hmd.
  - destruct (update_users_dir w u m tid st p msg err md Hmd) as [md' ->].
    apply read_metadata_lookup in Hmd as (td & Htd & _).
    rewrite (lookup_write_metadata _ _ _ _ td Htd), Htd. done.
  - by rewrite update_missing.
Qed.

Lemma update_models w u m tid st p msg err u' :
  (ud_models <$> users_dir (update_training_status w u m tid st p msg err) !! u')
  = (ud_models <$> users_dir w !! u').
Proof.
  destruct (Disk.read_metadata (users_dir w) u m) as [md|] eqn:Hmd.
  - destruct (update_users_dir w u m tid st p msg err md Hmd) as [md' ->].
    apply write_metadata_models.
  - by rewrite update_missing.
Qed.

Lemma update_job_field_ne w u m tid st p msg err u' m' k :
  (u', m') ≠ (u, m) →
  job_field (update_training_status w u m tid st p msg err) u' m' k
  = job_field w u' m' k.
Proof.
  intros Hne. unfold job_field, Disk.read_metadata.
  by rewrite update_lookup_ne.
Qed.

Lemma update_active_jobs w u m tid st p msg err :
  active_jobs (update_training_status w u m tid st p msg err)
  = match Disk.read_metadata (users_dir w) u m with
    | Some _ => <[tid := job_info u m tid st p msg]> (active_jobs w)
    | None => active_jobs w
    end.
Proof.
  destruct (Disk.read_metadata (users_dir w) u m) as [md|] eqn:Hmd.
  - by destruct (update_found w u m tid st p msg err md Hmd) as (_ & -> & _).
  - by rewrite update_missing.
Qed.

End UpdateFrame.

Section Scan.
Import TrainingService.

Lemma scan_model_dirs_Some tid dirs r :
  scan_model_dirs tid dirs = Some r →
  ∃ name td md, (name, td) ∈ dirs ∧ td_metadata td = Some md
    ∧ default ∅ (md_custom_metadata md) !! "training_id" = Some (JStr tid)
    ∧ r = scan_record tid md.
Proof.
  induction dirs as [|[name td] dirs IH]; simpl; [done|].
  destruct (td_metadata td) as [md|] eqn:Hmd.
  - case_bool_decide as Hid.
    + intros [= <-]. exists name, td, md. split; [left|]. done.
    + intros H. destruct (IH H) as (n & t & x & Hin & ?).
      exists n, t, x. split; [by right | done].
  - intros H. destruct (IH H) as (n & t & x & Hin & ?).
    exists n, t, x. split; [by right | done].
Qed.

Lemma scan_model_dirs_found tid dirs name td md :
  (name, td) ∈ dirs → td_metadata td = Some md →
  default ∅ (md_custom_metadata md) !! "training_id" = Some (JStr tid) →
  is_Some (scan_model_dirs tid dirs).
Proof.
  intros Hin Hmd Hid. induction dirs as [|[n t] dirs IH]; [by apply elem_of_nil in Hin|].
  simpl. apply elem_of_cons in Hin as [[= <- <-]|Hin].
  - rewrite Hmd. rewrite bool_decide_eq_true_2 by done. eauto.
  - specialize (IH Hin).
    destruct (td_metadata t); [|done]. case_bool_decide; [eauto | done].
Qed.

Lemma scan_user_dirs_Some tid dirs r :
  scan_user_dirs tid dirs = Some r →
  ∃ u ud tis, (u, ud) ∈ dirs ∧ ud_training_images ud = Some tis
    ∧ scan_model_dirs tid (map_to_list tis) = Some r.
Proof.
  induction dirs as [|[u ud] dirs IH]; simpl; [done|].
  destruct (ud_training_images ud) as [tis|] eqn:Ht.
  - destruct (scan_model_dirs tid (map_to_list tis)) as [r'|] eqn:Hs.
    + intros [= <-]. exists u, ud, tis. split; [left|]. done.
    + intros H. destruct (IH H) as (a & b & c & Hin & ?).
      exists a, b, c. split; [by right | done].
  - intros H. destruct (IH H) as (a & b & c & Hin & ?).
    exists a, b, c. split; [by right | done].
Qed.

Lemma scan_user_dirs_found tid dirs u ud tis :
  (u, ud) ∈ dirs → ud_training_images ud = Some tis →
  is_Some (scan_model_dirs tid (map_to_list tis)) →
  is_Some (scan_user_dirs tid dirs).
Proof.
  intros Hin Ht Hs. induction dirs as [|[a b] dirs IH]; [by apply elem_of_nil in Hin|].
  simpl. apply elem_of_cons in Hin as [[= <- <-]|Hin].
  - rewrite Ht. destruct Hs as [r ->]. eauto.
  - specialize (IH Hin).
    destruct (ud_training_images b) as [tis'|]; [|done].
    destruct (scan_model_dirs tid (map_to_list tis')); [eauto | done].
Qed.

(** What the durable scan returns comes from a [metadata.json] that
    carries the training id. *)
Lemma scan_disk_Some tid (d : disk) r :
  scan_user_dirs tid (map_to_list d) = Some r →
  ∃ u m md, Disk.read_metadata d u m = Some md
    ∧ default ∅ (md_custom_metadata md) !! "training_id" = Some (JStr tid)
    ∧ r = scan_record tid md.
Proof.
  intros H. apply scan_user_dirs_Some in H as (u & ud & tis & Hu & Ht & H).
  apply scan_model_dirs_Some in H as (m & td & md & Hm & Hmd & Hid & ->).
  apply elem_of_map_to_list in Hu, Hm.
  exists u, m, md. split; [|done].
  apply read_metadata_lookup. exists td. split; [|done].
  apply lookup_training_dir_Some. eauto.
Qed.

Lemma scan_disk_found tid (d : disk) u m md :
  Disk.read_metadata d u m = Some md →
  default ∅ (md_custom_metadata md) !! "training_id" = Some (JStr tid) →
  is_Some (scan_user_dirs tid (map_to_list d)).
Proof.
  intros Hmd Hid.
  apply read_metadata_lookup in Hmd as (td & Htd & Hmd).
  apply lookup_training_dir_Some in Htd as (ud & tis & Hu & Ht & Hm).
  eapply scan_user_dirs_found; [by apply elem_of_map_to_list | done |].
  eapply scan_model_dirs_found; [by apply elem_of_map_to_list | done | done].
Qed.

Lemma job_field_Some w u m k v :
  job_field w u m k = Some v ↔
  ∃ md, Disk.read_metadata (users_dir w) u m = Some md
        ∧ default ∅ (md_custom_metadata md) !! k = Some v.
Proof.
  unfold job_field. split.
  - destruct (Disk.read_metadata (users_dir w) u m) as [md|]; simpl; [|done].
    intros H. by exists md.
  - intros (md & -> & H). done.
Qed.

Lemma scan_record_fields tid md :
  let cm := default ∅ (md_custom_metadata md) in
  let r := scan_record tid md in
  r !! "training_id" = Some (JStr tid)
  ∧ r !! "status" = Some (dict_get cm "status" (JStr "unknown"))
  ∧ r !! "progress" = Some (dict_get cm "progress" (JInt 0))
  ∧ r !! "message" = Some (dict_get cm "message" (JStr ""))
  ∧ r !! "started_at" = Some (dict_get cm "started_at" JNull)
  ∧ r !! "completed_at" = Some (dict_get cm "completed_at" JNull)
  ∧ r !! "user_id" = Some (JStr (md_user_id md))
  ∧ r !! "model_identifier" = Some (JStr (md_model_identifier md)).
Proof.
  cbv zeta. unfold scan_record.
  repeat split; rewrite ?lookup_insert_eq;
    repeat (rewrite lookup_insert_ne by done); by rewrite ?lookup_insert_eq.
Qed.

Lemma job_info_fields u m tid st p msg :
  let r := job_info u m tid st p msg in
  r !! "training_id" = Some (JStr tid)
  ∧ r !! "status" = Some (JStr st)
  ∧ r !! "progress" = Some (JInt p)
  ∧ r !! "message" = Some (JStr msg)
  ∧ r !! "user_id" = Some (JStr u)
  ∧ r !! "model_identifier" = Some (JStr m)
  ∧ r !! "started_at" = None
  ∧ r !! "completed_at" = None
  ∧ r !! "error" = None.
Proof.
  cbv zeta. unfold job_info.
  repeat split; rewrite ?lookup_insert_eq;
    repeat (rewrite lookup_insert_ne by done); by rewrite ?lookup_insert_eq.
Qed.

End Scan.

(** X1.  After an update of a job whose [metadata.json] exists, a status
    query for the training id is answered from the index with exactly the
    identifiers, status, progress and message of that update.  The answer
    has no [started_at], [completed_at] or [error]: when the progress of
    the update is from 0 to 100 the endpoint answers 200 and reports the
    three as null whatever the durable record holds; for any other
    progress the response model rejects the record and the endpoint
    answers 500. *)
Theorem status_after_update_is_the_update
    (w : world) (u m tid st : string) (p : Z) (msg : string) (err : option string) :
  is_Some (Disk.read_metadata (users_dir w) u m) →
  let w' := TrainingService.update_training_status w u m tid st p msg err in
  TrainingService.get_training_status w' tid
    = Some (TrainingService.job_info u m tid st p msg)
  ∧ (0 ≤ p ≤ 100 →
     Main.get_training_status w' tid
     = Main.Answer200
         {| Main.ts_training_id := JStr tid; Main.ts_status := JStr st;
            Main.ts_progress := JInt p; Main.ts_message := JStr msg;
            Main.ts_model_identifier := JStr m; Main.ts_user_id := JStr u;
            Main.ts_started_at := JNull; Main.ts_completed_at := JNull;
            Main.ts_error := JNull |})
  ∧ (¬ 0 ≤ p ≤ 100 → Main.get_training_status w' tid = Main.Error500).
Proof.
  intros [md Hmd] w'. subst w'.
  assert (Hg : TrainingService.get_training_status
                 (TrainingService.update_training_status w u m tid st p msg err) tid
               = Some (TrainingService.job_info u m tid st p msg)).
  { unfold TrainingService.get_training_status.
    by rewrite update_active_jobs, Hmd, lookup_insert_eq. }
  split; [done|].
  unfold Main.get_training_status. rewrite Hg.
  destruct (job_info_fields u m tid st p msg)
    as (H1 & H2 & H3 & H4 & H5 & H6 & H7 & H8 & H9).
  rewrite bool_decide_eq_false_2
    by (intros He; rewrite He in H1; by rewrite lookup_empty in H1).
  unfold Main.status_arguments, Main.validates, dict_get.
  rewrite H1, H2, H3, H4, H5, H6, H7, H8, H9. simpl.
  rewrite !andb_true_r.
  split; intros Hp.
  - by rewrite bool_decide_eq_true_2.
  - by rewrite bool_decide_eq_false_2.
Qed.

Lemma status_after_update_is_the_update_witness :
  let w' := TrainingService.update_training_status Sample.pending "user_123"
              "aurel_person" "train_ab12cd34" "running" 5
              "Initializing training environment..." None in
  TrainingService.get_training_status w' "train_ab12cd34"
  = Some (TrainingService.job_info "user_123" "aurel_person" "train_ab12cd34"
            "running" 5 "Initializing training environment...")
  ∧ Main.ts_progress <$> Main.body (Main.get_training_status w' "train_ab12cd34")
    = Some (JInt 5).
Proof.
  assert (Hmd : is_Some (Disk.read_metadata (users_dir Sample.pending)
                           "user_123" "aurel_person")) by (vm_compute; eauto).
  destruct (status_after_update_is_the_update Sample.pending "user_123" "aurel_person"
              "train_ab12cd34" "running" 5 "Initializing training environment..." None
              Hmd) as (Hlive & Hok & _).
  split; [exact Hlive|].
  rewrite Hok by lia. reflexivity.
Defined.

(** X2.  With an empty index (after a restart), a status query finds a job
    exactly when some [metadata.json] under [USERS_DIR] carries the
    training id in its [custom_metadata], and the record it returns is
    the one built from such a file. *)
Theorem status_found_after_restart
    (w : world) (tid : string) :
  (is_Some (TrainingService.get_training_status (restart w) tid)
   ↔ ∃ u m, job_field w u m "training_id" = Some (JStr tid))
  ∧ ∀ d, TrainingService.get_training_status (restart w) tid = Some d →
      ∃ u m md, Disk.read_metadata (users_dir w) u m = Some md
                ∧ job_field w u m "training_id" = Some (JStr tid)
                ∧ d = TrainingService.scan_record tid md.
Proof.
  unfold TrainingService.get_training_status, restart. simpl.
  rewrite lookup_empty. split; [split|].
  - intros [d Hd]. apply scan_disk_Some in Hd as (u & m & md & Hmd & Hid & _).
    exists u, m. apply job_field_Some. eauto.
  - intros (u & m & H). apply job_field_Some in H as (md & Hmd & Hid).
    by eapply scan_disk_found.
  - intros d Hd. apply scan_disk_Some in Hd as (u & m & md & Hmd & Hid & ->).
    exists u, m, md. split; [done|]. split; [|done].
    apply job_field_Some. eauto.
Qed.

(** X3.  For a job at a location whose identifiers are single path
    components, whose training id is carried by the [metadata.json] at
    that location and by no other, a restart does not change what a
    status query reports as training id, status, progress and message
    after an update; the timestamps [started_at] and [completed_at] of
    the durable record are reported only after the restart. *)
Theorem restart_reports_same_status
    (w : world) (u m tid st : string) (p : Z) (msg : string) (err : option string) :
  Py.component u = true →
  Py.component m = true →
  job_field w u m "training_id" = Some (JStr tid) →
  (∀ u' m', job_field w u' m' "training_id" = Some (JStr tid) → u' = u ∧ m' = m) →
  let w' := TrainingService.update_training_status w u m tid st p msg err in
  ∃ live stored,
    TrainingService.get_training_status w' tid = Some live
    ∧ TrainingService.get_training_status (restart w') tid = Some stored
    ∧ (∀ k, k ∈ ["training_id"; "status"; "progress"; "message"] →
            stored !! k = live !! k)
    ∧ live !! "started_at" = None
    ∧ live !! "completed_at" = None
    ∧ stored !! "started_at" = Some (default JNull (job_field w' u m "started_at"))
    ∧ stored !! "completed_at" = Some (default JNull (job_field w' u m "completed_at")).
Proof.
  intros _ _ Hid Huniq w'.
  destruct (job_field_metadata _ _ _ _ _ Hid) as [md Hmd].
  assert (Hid' : job_field w' u m "training_id" = Some (JStr tid)).
  { subst w'. rewrite (update_field _ _ _ _ _ _ _ _ md) by done.
    rewrite update_custom_other
      by (apply (bool_decide_unpack _); vm_compute; exact I).
    apply job_field_Some in Hid as (md0 & Hmd0 & H). congruence. }
  assert (Huniq' : ∀ u' m', job_field w' u' m' "training_id" = Some (JStr tid)
                            → u' = u ∧ m' = m).
  { intros u' m' H. destruct (decide ((u', m') = (u, m))) as [[= -> ->]|Hne]; [done|].
    subst w'. rewrite update_job_field_ne in H by done. by apply Huniq. }
  assert (Hscan : is_Some (TrainingService.get_training_status (restart w') tid)).
  { unfold TrainingService.get_training_status, restart. simpl. rewrite lookup_empty.
    apply job_field_Some in Hid' as (md' & Hmd' & H').
    by eapply scan_disk_found. }
  destruct Hscan as [stored Hstored].
  exists (TrainingService.job_info u m tid st p msg), stored.
  split.
  { subst w'. unfold TrainingService.get_training_status.
    by rewrite update_active_jobs, Hmd, lookup_insert_eq. }
  split; [done|].
  unfold TrainingService.get_training_status, restart in Hstored. simpl in Hstored.
  rewrite lookup_empty in Hstored.
  apply scan_disk_Some in Hstored as (u' & m' & md' & Hmd' & Hid'' & ->).
  assert (Hloc : u' = u ∧ m' = m).
  { apply Huniq'. apply job_field_Some. eauto. }
  destruct Hloc as [-> ->].
  destruct (scan_record_fields tid md') as (S1 & S2 & S3 & S4 & S5 & S6 & _).
  destruct (job_info_fields u m tid st p msg) as (J1 & J2 & J3 & J4 & _ & _ & J7 & J8 & _).
  assert (Hf : ∀ k, default ∅ (md_custom_metadata md') !! k = job_field w' u m k).
  { intros k. unfold job_field. by rewrite Hmd'. }
  assert (Hst : job_field w' u m "status" = Some (JStr st))
    by (subst w'; rewrite (update_field _ _ _ _ _ _ _ _ md) by done;
        apply update_custom_status).
  assert (Hp : job_field w' u m "progress" = Some (JInt p))
    by (subst w'; rewrite (update_field _ _ _ _ _ _ _ _ md) by done;
        apply update_custom_progress).
  assert (Hm : job_field w' u m "message" = Some (JStr msg))
    by (subst w'; rewrite (update_field _ _ _ _ _ _ _ _ md) by done;
        apply update_custom_message).
  split.
  { intros k Hk. unfold dict_get in *.
    repeat (apply elem_of_cons in Hk as [->|Hk]); [| | | |by apply elem_of_nil in Hk].
    - by rewrite S1, J1.
    - by rewrite S2, J2, Hf, Hst.
    - by rewrite S3, J3, Hf, Hp.
    - by rewrite S4, J4, Hf, Hm. }
  split; [done|]. split; [done|].
  unfold dict_get in *. by rewrite S5, S6, !Hf.
Qed.

(** X4.  An update of a job at a location whose identifiers are single
    path components writes the job's own [metadata.json] and its own
    index entry and nothing else: the training directory of every other
    such location, the job's image files, the [models] directory of every
    user and every other index entry are as before, and no user directory
    is created. *)
Theorem update_touches_one_job
    (w : world) (u m tid st : string) (p : Z) (msg : string) (err : option string) :
  Py.component u = true →
  Py.component m = true →
  let w' := TrainingService.update_training_status w u m tid st p msg err in
  (∀ u' m', Py.component u' = true → Py.component m' = true →
     (u', m') ≠ (u, m) →
     Disk.lookup_training_dir (users_dir w') u' m'
     = Disk.lookup_training_dir (users_dir w) u' m')
  ∧ (td_images <$> Disk.lookup_training_dir (users_dir w') u m)
    = (td_images <$> Disk.lookup_training_dir (users_dir w) u m)
  ∧ (∀ u', Py.component u' = true →
       (ud_models <$> users_dir w' !! u') = (ud_models <$> users_dir w !! u'))
  ∧ (∀ u', Py.component u' = true →
       is_Some (users_dir w' !! u') ↔ is_Some (users_dir w !! u'))
  ∧ (∀ tid', tid' ≠ tid → active_jobs w' !! tid' = active_jobs w !! tid').
Proof.
  intros _ _ w'. subst w'. split; [|split; [|split; [|split]]].
  - intros u' m' _ _ Hne. by apply update_lookup_ne.
  - apply update_images.
  - intros u' _. apply update_models.
  - intros u' _. rewrite <- !fmap_is_Some with (f := ud_models).
    by rewrite update_models.
  - intros tid' Hne. rewrite update_active_jobs.
    destruct (Disk.read_metadata (users_dir w) u m); [|done].
    by rewrite lookup_insert_ne.
Qed.

Lemma update_touches_one_job_witness :
  let w' := TrainingService.update_training_status Sample.pending "user_123"
              "aurel_person" "train_ab12cd34" "running" 5
              "Initializing training environment..." None in
  Disk.lookup_training_dir (users_dir w') "user_123" "other_person"
  = Disk.lookup_training_dir (users_dir Sample.pending) "user_123" "other_person"
  ∧ (td_images <$> Disk.lookup_training_dir (users_dir w') "user_123" "aurel_person")
    = (td_images <$> Disk.lookup_training_dir (users_dir Sample.pending)
                       "user_123" "aurel_person")
  ∧ active_jobs w' !! "train_00000000" = active_jobs Sample.pending !! "train_00000000".
Proof.
  destruct (update_touches_one_job Sample.pending "user_123" "aurel_person"
              "train_ab12cd34" "running" 5 "Initializing training environment..." None
              eq_refl eq_refl) as (Hdirs & Himages & _ & _ & Hjobs).
  split; [|split].
  - apply Hdirs; [reflexivity | reflexivity | discriminate].
  - exact Himages.
  - apply Hjobs. discriminate.
Defined.

Section ErrorField.
Import TrainingService.

Lemma error_kept w u m tid st p msg err v :
  err = None ∨ err = Some "" →
  job_field w u m "error" = Some v →
  job_field (update_training_status w u m tid st p msg err) u m "error" = Some v.
Proof.
  intros He Hv. destruct (job_field_metadata _ _ _ _ _ Hv) as [md Hmd].
  rewrite (update_field _ _ _ _ _ _ _ _ md) by done.
  rewrite update_custom_error.
  unfold job_field in Hv. rewrite Hmd in Hv. simpl in Hv.
  destruct He as [->| ->]; [done|]. by rewrite bool_decide_eq_true_2.
Qed.

End ErrorField.

(** X5.  Updates never clear the [error] field: once an error description
    is stored, it stays in the durable record through every later update
    that carries no error (or an empty one), an update to [completed]
    included. *)
Theorem error_is_never_cleared
    (w : world) (u m tid : string) (calls : list TrainingService.call) (v : jval) :
  job_field w u m "error" = Some v →
  Forall (λ c, TrainingService.c_error c = None ∨ TrainingService.c_error c = Some "")
         calls →
  job_field (apply_updates w u m tid calls) u m "error" = Some v.
Proof.
  intros Hv Hcalls. revert w Hv.
  induction Hcalls as [|c calls Hc _ IH]; intros w Hv; [done|].
  simpl. apply IH. by apply error_kept.
Qed.

Lemma error_is_never_cleared_witness :
  let retry := {| TrainingService.c_status := "completed";
                  TrainingService.c_progress := 100;
                  TrainingService.c_message := "Training completed!";
                  TrainingService.c_error := None |} in
  let w' := apply_updates Sample.failed "user_123" "aurel_person" "train_ab12cd34"
              [retry] in
  job_field w' "user_123" "aurel_person" "error" = Some (JStr "CUDA out of memory").
Proof.
  intros retry w'.
  apply (error_is_never_cleared Sample.failed "user_123" "aurel_person"
           "train_ab12cd34" [retry] (JStr "CUDA out of memory")).
  - vm_compute. reflexivity.
  - repeat constructor.
Defined.

(** X6.  Unlike [started_at], [completed_at] is overwritten: every update
    to [completed] or [failed] of a job whose [metadata.json] exists sets
    it to the clock reading that follows the one taken for
    [last_updated], and every other update leaves it as it is. *)
Theorem completed_at_is_overwritten
    (w : world) (u m tid st : string) (p : Z) (msg : string) (err : option string) :
  is_Some (Disk.read_metadata (users_dir w) u m) →
  let w' := TrainingService.update_training_status w u m tid st p msg err in
  job_field w' u m "last_updated" = Some (JStr (now_at w (ticks w)))
  ∧ (terminal st →
     job_field w' u m "completed_at" = Some (JStr (now_at w (S (ticks w))))
     ∧ ticks w' = S (S (ticks w)))
  ∧ (¬ terminal st → job_field w' u m "completed_at" = job_field w u m "completed_at").
Proof.
  intros [md Hmd] w'. subst w'.
  rewrite !(update_field _ _ _ _ _ _ _ _ md) by done.
  rewrite update_custom_last_updated, update_custom_completed_at.
  split; [done|]. split.
  - intros Ht. rewrite (bool_decide_eq_true_2 (terminal st)) by done.
    assert (Hr : ¬ (st = "running" ∧ default ∅ (md_custom_metadata md) !! "started_at" = None)).
    { intros [-> _]. destruct Ht as [Ht|Ht]; discriminate Ht. }
    rewrite (bool_decide_eq_false_2 _ Hr). split; [done|].
    unfold TrainingService.update_training_status. rewrite Hmd.
    rewrite update_custom_eq. cbv zeta. simpl.
    rewrite (bool_decide_eq_true_2 (terminal st)) by done.
    by rewrite (bool_decide_eq_false_2 _ Hr).
  - intros Ht. rewrite (bool_decide_eq_false_2 (terminal st)) by done.
    unfold job_field. by rewrite Hmd.
Qed.

Lemma completed_at_is_overwritten_witness :
  job_field
    (TrainingService.update_training_status Sample.completed "user_123" "aurel_person"
       "train_ab12cd34" "completed" 100 "again" None)
    "user_123" "aurel_person" "last_updated"
  = Some (JStr (now_at Sample.completed (ticks Sample.completed))).
Proof.
  apply (completed_at_is_overwritten Sample.completed "user_123" "aurel_person"
           "train_ab12cd34" "completed" 100 "again" None).
  vm_compute. eauto.
Defined.

(** ** The names of the stored images *)

Section Names.

Lemma pretty_N_char_digit x : (x < 10)%N → N_of_ascii (pretty_N_char x) = (48 + x)%N.
Proof.
  intros Hx.
  destruct x as [|p]; [done|].
  do 4 (destruct p as [p|p|]; try (vm_compute; reflexivity); try lia).
Qed.

Lemma leading_number_pretty_N_go x s :
  leading_number 0 (pretty_N_go x s) = leading_number x s.
Proof.
  revert s. induction (N.lt_wf_0 x) as [x _ IH]; intros s.
  destruct (decide (x = 0)%N) as [->|Hx]; [by rewrite pretty_N_go_0|].
  rewrite pretty_N_go_step by lia.
  rewrite IH by (apply N.div_lt; lia).
  assert (Hd : (x `mod` 10 < 10)%N) by (apply N.mod_lt; lia).
  assert (Hq : x = (10 * x `div` 10 + x `mod` 10)%N) by (apply N.div_mod; lia).
  simpl. rewrite pretty_N_char_digit by done.
  set (q := (x `div` 10)%N) in *. set (r := (x `mod` 10)%N) in *.
  clearbody q r.
  rewrite bool_decide_eq_true_2 by lia.
  f_equal. lia.
Qed.

Lemma pretty_N_go_app x s t : pretty_N_go x s +:+ t = pretty_N_go x (s +:+ t).
Proof.
  revert s. induction (N.lt_wf_0 x) as [x _ IH]; intros s.
  destruct (decide (x = 0)%N) as [->|Hx]; [by rewrite !pretty_N_go_0|].
  rewrite (pretty_N_go_step x s), (pretty_N_go_step x (s +:+ t)) by lia.
  rewrite IH by (apply N.div_lt; lia). done.
Qed.

Lemma leading_number_plain acc s : starts_plain s → leading_number acc s = acc.
Proof.
  destruct s as [|c s]; simpl; [done|]. intros H.
  by rewrite bool_decide_eq_false_2.
Qed.

Lemma leading_number_pretty (n : nat) s :
  starts_plain s → leading_number 0 (pretty n +:+ s) = N.of_nat n.
Proof.
  intros Hs. unfold pretty, pretty_nat, pretty, pretty_N.
  destruct (decide (N.of_nat n = 0)%N) as [->|Hn].
  - simpl. by apply leading_number_plain.
  - rewrite pretty_N_go_app, leading_number_pretty_N_go. simpl.
    by apply leading_number_plain.
Qed.

Lemma leading_number_zeros k p s :
  leading_number 0 ((string_of_list_ascii (replicate k "0"%char) +:+ p) +:+ s)
  = leading_number 0 (p +:+ s).
Proof. induction k as [|k IH]; simpl; [done|]. exact IH. Qed.

Lemma leading_number_fmt_03d n s :
  starts_plain s → leading_number 0 (Py.fmt_03d n +:+ s) = N.of_nat n.
Proof.
  intros Hs. unfold Py.fmt_03d.
  rewrite leading_number_zeros.
  by apply leading_number_pretty.
Qed.

Lemma rfind_Some c l i : Py.rfind c l = Some i → l !! i = Some c.
Proof.
  revert i. induction l as [|x l IH]; intros i; simpl; [done|].
  destruct (Py.rfind c l) as [j|].
  - intros [= <-]. simpl. by apply IH.
  - destruct (Ascii.eqb x c) eqn:Hx; [|done].
    intros [= <-]. apply Ascii.eqb_eq in Hx. by subst.
Qed.

(** A suffix is empty or starts with its dot. *)
Lemma path_suffix_plain p : starts_plain (Py.path_suffix p).
Proof.
  unfold Py.path_suffix.
  destruct (Py.rfind "." (Py.path_name p)) as [i|] eqn:Hi; [|done].
  case_bool_decide; [|done].
  apply rfind_Some in Hi.
  rewrite (drop_S _ _ _ Hi). simpl. lia.
Qed.

(** Images at different indices get different names. *)
Lemma image_filename_inj mid i fn j fn' :
  image_filename mid i fn = image_filename mid j fn' → i = j.
Proof.
  unfold image_filename. intros H.
  apply String.app_inj in H. apply (String.app_inj "_") in H.
  apply (f_equal (leading_number 0)) in H.
  rewrite !leading_number_fmt_03d in H by apply path_suffix_plain.
  lia.
Qed.

End Names.

Section SaveEach.
Import StorageService.
Variables (mid dir : string).

#[local] Abbreviation info idx fn c :=
  {| ii_filename := image_filename mid idx fn;
     ii_original_filename := fn;
     ii_size_bytes := Z.of_nat (length c);
     ii_path := Py.path_join dir (image_filename mid idx fn) |}.

Lemma save_each_files_other idx images files saved total name :
  (∀ i fn c, images !! i = Some (fn, c) → name ≠ image_filename mid (idx + i) fn) →
  (save_each mid dir idx images files saved total).1.1 !! name = files !! name.
Proof.
  revert idx files saved total.
  induction images as [|[fn c] images IH]; intros idx files saved total Hn; [done|].
  simpl. rewrite IH.
  - rewrite lookup_insert_ne; [done|].
    intros Heq. apply (Hn 0%nat fn c); [done|].
    rewrite Nat.add_0_r. by rewrite <- Heq.
  - intros i fn' c' Hi. specialize (Hn (S i) fn' c' Hi).
    by replace (S idx + i)%nat with (idx + S i)%nat by lia.
Qed.

Lemma save_each_files idx images files saved total i fn c :
  images !! i = Some (fn, c) →
  (save_each mid dir idx images files saved total).1.1
    !! image_filename mid (idx + i) fn = Some c.
Proof.
  revert idx files saved total i.
  induction images as [|[fn0 c0] images IH]; intros idx files saved total i Hi; [done|].
  destruct i as [|i]; simpl in *.
  - injection Hi as -> ->. rewrite Nat.add_0_r.
    rewrite save_each_files_other.
    + apply lookup_insert_eq.
    + intros j fn' c' _ Heq. apply image_filename_inj in Heq. lia.
  - replace (idx + S i)%nat with (S idx + i)%nat by lia. by apply IH.
Qed.

Lemma save_each_saved idx images files saved total :
  (save_each mid dir idx images files saved total).1.2
  = saved ++ imap (λ i fc, info (idx + i)%nat fc.1 fc.2) images.
Proof.
  revert idx files saved total.
  induction images as [|[fn c] images IH]; intros idx files saved total; simpl.
  - by rewrite app_nil_r.
  - rewrite IH, <- app_assoc. simpl. rewrite Nat.add_0_r. do 2 f_equal.
    apply imap_ext. intros i [fn' c'] _. simpl.
    by rewrite Nat.add_succ_r.
Qed.

Lemma save_each_total idx images files saved total :
  (save_each mid dir idx images files saved total).2
  = total + foldr (λ fc acc, Z.of_nat (length fc.2) + acc) 0 images.
Proof.
  revert idx files saved total.
  induction images as [|[fn c] images IH]; intros idx files saved total; simpl; [lia|].
  rewrite IH. lia.
Qed.

End SaveEach.

(** ** The storage service: further properties *)

Section StorageFrame.
Import StorageService.
Implicit Types (d : disk) (u m : string).

Lemma lookup_get_model_training_directory_eq d u m :
  Disk.lookup_training_dir (get_model_training_directory d u m) u m
  = Some {| td_images :=
              Some (default ∅ (Disk.lookup_training_dir d u m ≫= td_images));
            td_metadata := Disk.lookup_training_dir d u m ≫= td_metadata |}.
Proof.
  unfold Disk.lookup_training_dir, get_model_training_directory.
  rewrite lookup_insert_eq. simpl. rewrite lookup_insert_eq.
  destruct (d !! u) as [ud|]; simpl; [|done].
  destruct (ud_training_images ud) as [tis|]; simpl; [|done].
  by destruct (tis !! m).
Qed.

Lemma lookup_get_model_training_directory_ne d u m u' m' :
  (u', m') ≠ (u, m) →
  Disk.lookup_training_dir (get_model_training_directory d u m) u' m'
  = Disk.lookup_training_dir d u' m'.
Proof.
  intros Hne. unfold Disk.lookup_training_dir, get_model_training_directory.
  destruct (decide (u' = u)) as [->|Hu].
  - rewrite lookup_insert_eq. simpl.
    rewrite lookup_insert_ne by (intros <-; by apply Hne).
    destruct (d !! u) as [ud|]; simpl; [|done].
    by destruct (ud_training_images ud).
  - by rewrite lookup_insert_ne.
Qed.

Lemma get_model_training_directory_models d u m u' :
  get_model_training_directory d u m !! u' ≫= ud_models = d !! u' ≫= ud_models.
Proof.
  unfold get_model_training_directory.
  destruct (decide (u' = u)) as [->|Hu].
  - rewrite lookup_insert_eq. simpl. by destruct (d !! u).
  - by rewrite lookup_insert_ne.
Qed.

Lemma set_training_dir_models_bind d u m td u' :
  Disk.set_training_dir d u m td !! u' ≫= ud_models = d !! u' ≫= ud_models.
Proof.
  pose proof (set_training_dir_models d u m td u') as H.
  destruct (Disk.set_training_dir d u m td !! u'), (d !! u'); simpl in *; congruence.
Qed.

Lemma lookup_get_user_directory d u u' m' :
  Disk.lookup_training_dir (get_user_directory d u) u' m'
  = Disk.lookup_training_dir d u' m'.
Proof.
  unfold Disk.lookup_training_dir, get_user_directory.
  destruct (decide (u' = u)) as [->|Hu].
  - rewrite lookup_insert_eq. simpl.
    destruct (d !! u) as [ud|]; simpl; [|done].
    by destruct (ud_training_images ud).
  - by rewrite lookup_insert_ne.
Qed.

(** The tree and the result of [save_training_images], spelled out. *)
Lemma save_training_images_eq inst w u m images metadata :
  let dir := Py.path_join (training_dir_path inst u m) "images" in
  let before := default ∅ (Disk.lookup_training_dir (users_dir w) u m ≫= td_images) in
  let saved := save_each m dir 0 images before [] 0 in
  let md := {| md_user_id := u; md_model_identifier := m;
               md_created_at := now_at w (ticks w);
               md_num_images := Z.of_nat (length saved.1.2);
               md_total_size_bytes := saved.2;
               md_images := saved.1.2;
               md_custom_metadata := Some (default ∅ metadata) |} in
  save_training_images inst w u m images metadata
  = ({| sr_training_dir := training_dir_path inst u m;
        sr_images_dir := dir;
        sr_num_images := Z.of_nat (length saved.1.2);
        sr_total_size_bytes := saved.2;
        sr_metadata_path := Py.path_join (training_dir_path inst u m) "metadata.json" |},
     {| users_dir :=
          Disk.set_training_dir (get_model_training_directory (users_dir w) u m) u m
            {| td_images := Some saved.1.1; td_metadata := Some md |};
        active_jobs := active_jobs w; now_at := now_at w; ticks := S (ticks w) |}).
Proof.
  cbv zeta. unfold save_training_images.
  rewrite lookup_get_model_training_directory_eq. simpl.
  destruct (save_each _ _ _ _ _ _ _) as [[files saved] total]. done.
Qed.

End StorageFrame.

(** X7.  With identifiers that are single path components and images
    whose new names are, [save_training_images] stores every image it is
    given: the image at index [i] is written under the name
    [<model_identifier>_<i, three digits><suffix of its filename>], these
    names are pairwise different, so no image of the call overwrites
    another, and the [images] list and the totals of the new
    [metadata.json] describe exactly the images given. *)
Theorem every_image_is_stored
    (inst : Config.install) (w : world) (u m : string)
    (images : list (string * bytes)) (metadata : option dict) :
  Py.component u = true →
  Py.component m = true →
  storable m images = true →
  let r := StorageService.save_training_images inst w u m images metadata in
  ∃ md files,
    Disk.lookup_training_dir (users_dir r.2) u m
      = Some {| td_images := Some files; td_metadata := Some md |}
    ∧ length (md_images md) = length images
    ∧ NoDup (ii_filename <$> md_images md)
    ∧ (∀ i fn c, images !! i = Some (fn, c) →
         files !! image_filename m i fn = Some c
         ∧ md_images md !! i
           = Some {| ii_filename := image_filename m i fn;
                     ii_original_filename := fn;
                     ii_size_bytes := Z.of_nat (length c);
                     ii_path := Py.path_join (StorageService.sr_images_dir r.1)
                                             (image_filename m i fn) |})
    ∧ md_num_images md = Z.of_nat (length images)
    ∧ md_total_size_bytes md
      = foldr (λ fc acc, Z.of_nat (length fc.2) + acc) 0 images
    ∧ StorageService.sr_num_images r.1 = md_num_images md
    ∧ StorageService.sr_total_size_bytes r.1 = md_total_size_bytes md.
Proof.
  intros _ _ _ r. subst r. rewrite save_training_images_eq. cbv zeta. simpl.
  set (dir := Py.path_join (StorageService.training_dir_path inst u m) "images").
  set (before := default ∅ (Disk.lookup_training_dir (users_dir w) u m ≫= td_images)).
  destruct (lookup_get_model_training_directory (users_dir w) u m) as [td0 Htd0].
  eexists _, _. split; [by eapply lookup_set_training_dir|]. simpl.
  rewrite save_each_saved, save_each_total. simpl.
  rewrite length_imap.
  assert (Hlk : ∀ i fn c, images !! i = Some (fn, c) →
            imap (λ i fc, {| ii_filename := image_filename m (0 + i) fc.1;
                             ii_original_filename := fc.1;
                             ii_size_bytes := Z.of_nat (length fc.2);
                             ii_path := Py.path_join dir (image_filename m (0 + i) fc.1) |})
                 images !! i
            = Some {| ii_filename := image_filename m i fn;
                      ii_original_filename := fn;
                      ii_size_bytes := Z.of_nat (length c);
                      ii_path := Py.path_join dir (image_filename m i fn) |}).
  { intros i fn c Hi. rewrite list_lookup_imap.
    unfold bytes in *. rewrite Hi. done. }
  unfold bytes in *. repeat split; try done.
  - apply NoDup_alt. intros i j name Hi Hj.
    rewrite list_lookup_fmap, list_lookup_imap in Hi, Hj.
    destruct (images !! i) as [[fi ci]|]; [|done].
    destruct (images !! j) as [[fj cj]|]; [|done].
    simpl in *. injection Hi as Hi. injection Hj as Hj.
    rewrite <- Hj in Hi. by apply image_filename_inj in Hi.
  - pose proof (save_each_files m dir 0 images before [] 0 i fn c H) as Hf.
    exact Hf.
  - by apply Hlk.
Qed.

Lemma every_image_is_stored_witness :
  let images := [("front.png", [Byte.x89; Byte.x50]); ("side.jpg", [Byte.xff])] in
  let r := StorageService.save_training_images Sample.inst Sample.fresh "user_123"
             "aurel_person" images None in
  ∃ md files,
    Disk.lookup_training_dir (users_dir r.2) "user_123" "aurel_person"
      = Some {| td_images := Some files; td_metadata := Some md |}
    ∧ files !! "aurel_person_001.jpg" = Some [Byte.xff]
    ∧ md_num_images md = 2
    ∧ md_total_size_bytes md = 3.
Proof.
  intros images r.
  assert (Hu : Py.component "user_123" = true) by reflexivity.
  assert (Hm : Py.component "aurel_person" = true) by reflexivity.
  assert (Hs : storable "aurel_person" images = true) by (vm_compute; reflexivity).
  destruct (every_image_is_stored Sample.inst Sample.fresh "user_123" "aurel_person"
              images None Hu Hm Hs)
    as (md & files & Hdir & _ & _ & Himage & Hnum & Hsize & _).
  exists md, files. split; [exact Hdir|]. split; [|split].
  - destruct (Himage 1%nat "side.jpg" [Byte.xff] eq_refl) as [Hfile _].
    exact Hfile.
  - exact Hnum.
  - exact Hsize.
Defined.

(** X8.  With identifiers that are single path components and images
    whose new names are, [save_training_images] writes at one location
    only and deletes nothing: image files already at the location under
    other names stay, the training directory of every other such location
    and the [models] directory of every user are as before, one clock
    reading is taken, and the in-memory index is not touched, so a new
    job is in no index until its first update. *)
Theorem save_touches_one_location
    (inst : Config.install) (w : world) (u m : string)
    (images : list (string * bytes)) (metadata : option dict) :
  Py.component u = true →
  Py.component m = true →
  storable m images = true →
  let r := StorageService.save_training_images inst w u m images metadata in
  let before := default ∅ (Disk.lookup_training_dir (users_dir w) u m ≫= td_images) in
  let after := default ∅ (Disk.lookup_training_dir (users_dir r.2) u m ≫= td_images) in
  (∀ name, Py.component name = true →
           (∀ i fn c, images !! i = Some (fn, c) → name ≠ image_filename m i fn) →
           after !! name = before !! name)
  ∧ (∀ u' m', Py.component u' = true → Py.component m' = true →
       (u', m') ≠ (u, m) →
       Disk.lookup_training_dir (users_dir r.2) u' m'
       = Disk.lookup_training_dir (users_dir w) u' m')
  ∧ (∀ u', Py.component u' = true →
       users_dir r.2 !! u' ≫= ud_models = users_dir w !! u' ≫= ud_models)
  ∧ active_jobs r.2 = active_jobs w
  ∧ now_at r.2 = now_at w
  ∧ ticks r.2 = S (ticks w).
Proof.
  intros _ _ _ r. subst r. rewrite save_training_images_eq. cbv zeta. simpl.
  destruct (lookup_get_model_training_directory (users_dir w) u m) as [td0 Htd0].
  repeat split.
  - intros name _ Hname. erewrite lookup_set_training_dir by done. simpl.
    by apply save_each_files_other.
  - intros u' m' _ _ Hne. rewrite lookup_set_training_dir_ne by done.
    by apply lookup_get_model_training_directory_ne.
  - intros u' _. rewrite set_training_dir_models_bind.
    apply get_model_training_directory_models.
Qed.

Lemma save_touches_one_location_witness :
  let images := [("front.png", [Byte.x89; Byte.x50]); ("side.jpg", [Byte.xff])] in
  let r := StorageService.save_training_images Sample.inst Sample.completed "user_123"
             "other_person" images None in
  Disk.lookup_training_dir (users_dir r.2) "user_123" "aurel_person"
  = Disk.lookup_training_dir (users_dir Sample.completed) "user_123" "aurel_person"
  ∧ active_jobs r.2 = active_jobs Sample.completed
  ∧ ticks r.2 = S (ticks Sample.completed).
Proof.
  intros images r.
  assert (Hu : Py.component "user_123" = true) by reflexivity.
  assert (Hm : Py.component "other_person" = true) by reflexivity.
  assert (Hs : storable "other_person" images = true) by (vm_compute; reflexivity).
  destruct (save_touches_one_location Sample.inst Sample.completed "user_123"
              "other_person" images None Hu Hm Hs)
    as (_ & Hdirs & _ & Hjobs & _ & Hticks).
  split; [|split].
  - apply Hdirs; [reflexivity | reflexivity | discriminate].
  - exact Hjobs.
  - exact Hticks.
Defined.

(** X9.  After [save_training_images] for a user and a model, with
    identifiers that are single path components and images whose new
    names are, [list_user_models] of that user lists the new record
    together with the records of the user's other models: up to order,
    the new record followed by what is listed once the model's earlier
    data is deleted; the lists of the other users (identifiers that are
    single path components) do not change. *)
Theorem saved_model_is_listed
    (inst : Config.install) (w : world) (u m : string)
    (images : list (string * bytes)) (metadata : option dict) :
  Py.component u = true →
  Py.component m = true →
  storable m images = true →
  let r := StorageService.save_training_images inst w u m images metadata in
  ∃ md,
    Disk.read_metadata (users_dir r.2) u m = Some md
    ∧ StorageService.list_user_models (users_dir r.2) u
      ≡ₚ md :: StorageService.list_user_models
                 (StorageService.delete_model_data (users_dir w) u m).2 u
    ∧ ∀ u', Py.component u' = true → u' ≠ u →
        StorageService.list_user_models (users_dir r.2) u'
        = StorageService.list_user_models (users_dir w) u'.
Proof.
  intros _ _ _ r. subst r. rewrite save_training_images_eq. cbv zeta. simpl.
  destruct (lookup_get_model_training_directory (users_dir w) u m) as [td0 Htd0].
  eexists. split.
  { unfold Disk.read_metadata. erewrite lookup_set_training_dir by done. done. }
  split.
  - unfold Disk.set_training_dir, StorageService.get_model_training_directory.
    rewrite lookup_insert_eq. simpl. rewrite insert_insert_eq.
    set (d := users_dir w).
    unfold StorageService.list_user_models at 1. rewrite lookup_insert_eq. simpl.
    rewrite insert_insert_eq.
    unfold StorageService.delete_model_data, StorageService.list_user_models.
    destruct (d !! u) as [ud|] eqn:Hu; simpl.
    + destruct (ud_training_images ud) as [tis|] eqn:Ht; simpl.
      * rewrite <- (insert_delete_eq tis).
        rewrite map_to_list_insert by apply lookup_delete_eq. simpl.
        apply Permutation_skip.
        destruct (tis !! m) as [td|] eqn:Hm; simpl.
        -- rewrite lookup_insert_eq. done.
        -- rewrite Hu. simpl. rewrite Ht. by rewrite delete_id.
      * rewrite Hu. simpl. rewrite Ht.
        rewrite insert_empty, map_to_list_singleton. done.
    + rewrite Hu. simpl. rewrite insert_empty, map_to_list_singleton. done.
  - intros u' _ Hne. unfold StorageService.list_user_models.
    unfold Disk.set_training_dir, StorageService.get_model_training_directory.
    rewrite lookup_insert_eq. simpl. rewrite insert_insert_eq.
    by rewrite lookup_insert_ne.
Qed.

Lemma saved_model_is_listed_witness :
  let images := [("front.png", [Byte.x89; Byte.x50]); ("side.jpg", [Byte.xff])] in
  let r := StorageService.save_training_images Sample.inst Sample.completed "user_123"
             "other_person" images None in
  length (StorageService.list_user_models (users_dir r.2) "user_123") = 2%nat
  ∧ StorageService.list_user_models (users_dir r.2) "user_456"
    = StorageService.list_user_models (users_dir Sample.completed) "user_456".
Proof.
  intros images r.
  assert (Hu : Py.component "user_123" = true) by reflexivity.
  assert (Hm : Py.component "other_person" = true) by reflexivity.
  assert (Hs : storable "other_person" images = true) by (vm_compute; reflexivity).
  destruct (saved_model_is_listed Sample.inst Sample.completed "user_123"
              "other_person" images None Hu Hm Hs)
    as (md & _ & Hlist & Hothers).
  split.
  - fold r in Hlist. rewrite Hlist. vm_compute. reflexivity.
  - apply Hothers; [reflexivity | discriminate].
Defined.

Lemma delete_model_data_lookup (d : disk) (u m : string) :
  let r := StorageService.delete_model_data d u m in
  Disk.lookup_training_dir r.2 u m = None
  ∧ ∀ u' m', (u', m') ≠ (u, m) →
      Disk.lookup_training_dir r.2 u' m' = Disk.lookup_training_dir d u' m'.
Proof.
  cbv zeta. unfold StorageService.delete_model_data, Disk.lookup_training_dir.
  destruct (d !! u) as [ud|] eqn:Hu; simpl.
  - destruct (ud_training_images ud) as [tis|] eqn:Ht; simpl.
    + destruct (tis !! m) as [td|] eqn:Hm; simpl.
      * rewrite lookup_insert_eq. simpl. rewrite lookup_delete_eq. split; [done|].
        intros u' m' Hne. destruct (decide (u' = u)) as [->|].
        -- rewrite lookup_insert_eq, Hu. simpl. rewrite Ht. simpl.
           by rewrite lookup_delete_ne by (intros <-; by apply Hne).
        -- by rewrite lookup_insert_ne.
      * rewrite Hu. simpl. rewrite Ht. simpl. by rewrite Hm.
    + rewrite Hu. simpl. by rewrite Ht.
  - by rewrite Hu.
Qed.

(** X10.  For identifiers that are single path components,
    [delete_model_data] answers whether the model's training directory
    existed; afterwards the directory, its images and its [metadata.json]
    are gone and a second call answers [False]; the training directory of
    every other such location and the [models] directory of every user,
    the one of the deleted model included, are as before. *)
Theorem delete_removes_training_data_only
    (d : disk) (u m : string) :
  Py.component u = true →
  Py.component m = true →
  let r := StorageService.delete_model_data d u m in
  (r.1 = true ↔ is_Some (Disk.lookup_training_dir d u m))
  ∧ Disk.lookup_training_dir r.2 u m = None
  ∧ Disk.read_metadata r.2 u m = None
  ∧ StorageService.delete_model_data r.2 u m = (false, r.2)
  ∧ (∀ u' m', Py.component u' = true → Py.component m' = true →
       (u', m') ≠ (u, m) →
       Disk.lookup_training_dir r.2 u' m' = Disk.lookup_training_dir d u' m')
  ∧ (∀ u', Py.component u' = true →
       (ud_models <$> r.2 !! u') = (ud_models <$> d !! u'))
  ∧ (r.1 = false → r.2 = d).
Proof.
  intros _ _ r. subst r.
  unfold StorageService.delete_model_data, Disk.read_metadata, Disk.lookup_training_dir.
  destruct (d !! u) as [ud|] eqn:Hu; simpl.
  - destruct (ud_training_images ud) as [tis|] eqn:Ht; simpl.
    + destruct (tis !! m) as [td|] eqn:Hm; simpl.
      * rewrite !lookup_insert_eq. simpl. rewrite lookup_delete_eq. simpl.
        repeat split; eauto.
        -- intros u' m' _ _ Hne. destruct (decide (u' = u)) as [->|].
           ++ rewrite lookup_insert_eq, Hu. simpl. rewrite Ht. simpl.
              by rewrite lookup_delete_ne by (intros <-; by apply Hne).
           ++ by rewrite lookup_insert_ne.
        -- intros u' _. destruct (decide (u' = u)) as [->|].
           ++ by rewrite lookup_insert_eq, Hu.
           ++ by rewrite lookup_insert_ne.
        -- done.
      * rewrite Hu. simpl. rewrite Ht. simpl. rewrite Hm.
        repeat split; first [done | by intros [? ?]].
    + rewrite Hu. simpl. rewrite Ht. simpl.
      repeat split; first [done | by intros [? ?]].
  - rewrite Hu. simpl. repeat split; first [done | by intros [? ?]].
Qed.

Lemma delete_removes_training_data_only_witness :
  let r := StorageService.delete_model_data (users_dir Sample.completed)
             "user_123" "aurel_person" in
  r.1 = true
  ∧ Disk.read_metadata r.2 "user_123" "aurel_person" = None
  ∧ StorageService.delete_model_data r.2 "user_123" "aurel_person" = (false, r.2)
  ∧ (ud_models <$> r.2 !! "user_123")
    = (ud_models <$> users_dir Sample.completed !! "user_123").
Proof.
  intros r.
  destruct (delete_removes_training_data_only (users_dir Sample.completed)
              "user_123" "aurel_person" eq_refl eq_refl)
    as (Hanswer & _ & Hgone & Hagain & _ & Hmodels & _).
  split; [|split; [|split]].
  - apply Hanswer. vm_compute. eauto.
  - exact Hgone.
  - exact Hagain.
  - apply Hmodels. reflexivity.
Defined.


(** X11.  Deleting a model's data does not reach the training service: a
    job that is in the index is still reported from there, unchanged,
    while every later update of the job is dropped; after a restart a job
    whose training id was carried only by the deleted [metadata.json] is
    no longer found. *)
Theorem deleted_job_is_still_reported
    (w : world) (u m tid : string) :
  let w' := with_disk w (StorageService.delete_model_data (users_dir w) u m).2 in
  (∀ info, active_jobs w !! tid = Some info →
           TrainingService.get_training_status w' tid = Some info)
  ∧ (∀ st p msg err,
       TrainingService.update_training_status w' u m tid st p msg err = w')
  ∧ ((∀ u' m', job_field w u' m' "training_id" = Some (JStr tid) → u' = u ∧ m' = m) →
     TrainingService.get_training_status (restart w') tid = None).
Proof.
  intros w'.
  destruct (delete_model_data_lookup (users_dir w) u m) as (Hgone & Hother).
  split; [|split].
  - intros info Hi. unfold TrainingService.get_training_status. simpl. by rewrite Hi.
  - intros st p msg err. apply update_missing. simpl.
    unfold Disk.read_metadata. by rewrite Hgone.
  - intros Huniq.
    destruct (TrainingService.get_training_status (restart w') tid) as [r|] eqn:Hr; [|done].
    exfalso. unfold TrainingService.get_training_status, restart in Hr. simpl in Hr.
    rewrite lookup_empty in Hr.
    apply scan_disk_Some in Hr as (u' & m' & md & Hmd & Hid & _).
    destruct (decide ((u', m') = (u, m))) as [[= -> ->]|Hne].
    + unfold Disk.read_metadata in Hmd. by rewrite Hgone in Hmd.
    + unfold Disk.read_metadata in Hmd. rewrite Hother in Hmd by done.
      destruct (Huniq u' m'); [|congruence].
      apply job_field_Some. exists md. done.
Qed.

(** ** The [/train] endpoint: further properties *)

Section TrainModel.
Import Main.

Lemma read_images_inr images acc total data t :
  read_images images acc total = inr (data, t) →
  data = acc ++ kept_images images
  ∧ t = total + foldr (λ fc s, Z.of_nat (length fc.2) + s) 0 (kept_images images)
  ∧ Forall (λ fc, Z.of_nat (length fc.2) ≤ Config.max_image_size_mb * 1024 * 1024)
           (kept_images images).
Proof.
  revert acc total. unfold kept_images.
  induction images as [|image images IH]; intros acc total; simpl.
  - intros [= <- <-]. rewrite app_nil_r. split; [done|]. split; [lia|constructor].
  - unfold filter. simpl. fold (filter is_image images).
    destruct (decide (is_image image)) as [Hi|Hi]; unfold is_image in Hi.
    + apply Is_true_true in Hi. rewrite Hi. simpl.
      case_bool_decide as Hsz; [done|].
      intros H. apply IH in H as (-> & -> & Hall).
      rewrite <- app_assoc. simpl. split; [done|]. split; [lia|].
      constructor; [simpl; lia | done].
    + apply Is_true_false in Hi. rewrite Hi. simpl. apply IH.
Qed.

Lemma read_images_inl images acc total err :
  read_images images acc total = inl err →
  ∃ image, image ∈ images ∧ is_image image
    ∧ err = ImageTooLarge (up_filename image) (Z.of_nat (length (up_contents image)))
    ∧ Z.of_nat (length (up_contents image)) > Config.max_image_size_mb * 1024 * 1024.
Proof.
  revert acc total.
  induction images as [|image images IH]; intros acc total; simpl; [done|].
  destruct (Py.startswith (up_content_type image) "image/") eqn:Hi; simpl.
  - case_bool_decide as Hsz.
    + intros [= <-]. exists image. split; [left|].
      split; [unfold is_image; by rewrite Hi | done].
    + intros H. destruct (IH _ _ H) as (x & Hx & ?). exists x. split; [by right|done].
  - intros H. destruct (IH _ _ H) as (x & Hx & ?). exists x. split; [by right|done].
Qed.

(** An accepted request writes at the location of its job only. *)
Lemma train_model_other_locations inst w w' uuid8 current_size model_identifier
    user_id num_train_epochs learning_rate train_batch_size images ok u m :
  train_model inst w uuid8 current_size model_identifier user_id
    num_train_epochs learning_rate train_batch_size images = (inr ok, w') →
  (u, m) ≠ (user_id, model_identifier) →
  Disk.read_metadata (users_dir w') u m = Disk.read_metadata (users_dir w) u m.
Proof.
  unfold train_model.
  case_bool_decide as H10; [discriminate|].
  case_bool_decide as H20; [discriminate|].
  case_bool_decide as H3; [discriminate|].
  destruct (read_images images [] 0) as [e|[data total]] eqn:Hr; [discriminate|].
  simpl.
  case_bool_decide as Htot; [discriminate|].
  unfold StorageService.validate_storage_limits.
  case_bool_decide as Hlim; simpl; [discriminate|].
  rewrite save_training_images_eq. cbv zeta.
  intros [= <- <-] Hne. simpl. unfold Disk.read_metadata.
  rewrite lookup_set_training_dir_ne by done.
  rewrite lookup_get_model_training_directory_ne by done.
  by rewrite lookup_get_user_directory.
Qed.

End TrainModel.

(** X12.  A request that [train_model] rejects stores nothing: no image, no
    [metadata.json], no index entry, no clock reading.  Every rejection
    but one leaves the world exactly as it was; the storage-limit
    rejection, whose check goes through [get_user_directory], leaves the
    user's directory and its three sub-directories behind.  Each
    rejection says what was wrong: the number of uploads, the length of
    the identifier, the first image above 10 MB, the total above 100 MB,
    or the user's storage above 5 GB. *)
Theorem rejected_request_stores_nothing
    (inst : Config.install) (w w' : world) (uuid8 : string) (current_size : Z)
    (model_identifier user_id : string) (num_train_epochs : Z)
    (learning_rate : string) (train_batch_size : Z) (images : list Main.upload)
    (err : Main.bad_request) :
  Main.train_model inst w uuid8 current_size model_identifier user_id
    num_train_epochs learning_rate train_batch_size images = (inl err, w') →
  active_jobs w' = active_jobs w
  ∧ ticks w' = ticks w
  ∧ (∀ u m, Disk.lookup_training_dir (users_dir w') u m
            = Disk.lookup_training_dir (users_dir w) u m)
  ∧ match err with
    | Main.TooFewImages n => n = Z.of_nat (length images) ∧ n < 10 ∧ w' = w
    | Main.TooManyImages n => n = Z.of_nat (length images) ∧ n > 20 ∧ w' = w
    | Main.IdentifierTooShort => (String.length model_identifier < 3)%nat ∧ w' = w
    | Main.ImageTooLarge filename size =>
        (∃ image, image ∈ images ∧ is_image image
                  ∧ Main.up_filename image = filename
                  ∧ Z.of_nat (length (Main.up_contents image)) = size)
        ∧ size > 10 * 1024 * 1024 ∧ w' = w
    | Main.TotalTooLarge total =>
        total = foldr (λ fc s, Z.of_nat (length fc.2) + s) 0 (kept_images images)
        ∧ total > 100 * 1024 * 1024 ∧ w' = w
    | Main.StorageLimitExceeded u =>
        u = user_id
        ∧ current_size
          + foldr (λ fc s, Z.of_nat (length fc.2) + s) 0 (kept_images images)
          > 5 * 1024 * 1024 * 1024
        ∧ users_dir w' = StorageService.get_user_directory (users_dir w) user_id
    end.
Proof.
  unfold Main.train_model.
  case_bool_decide as H10; [intros [= <- <-]; done|].
  case_bool_decide as H20; [intros [= <- <-]; done|].
  case_bool_decide as H3; [intros [= <- <-]; done|].
  destruct (Main.read_images images [] 0) as [e|[data total]] eqn:Hr.
  - intros [= <- <-]. apply read_images_inl in Hr as (image & Hin & Hi & -> & Hsz).
    repeat split; try done. eauto 10.
  - apply read_images_inr in Hr as (-> & -> & Hall). simpl.
    case_bool_decide as Htot; [intros [= <- <-]; done|].
    unfold StorageService.validate_storage_limits.
    case_bool_decide as Hlim; simpl.
    + intros [= <- <-]. simpl. repeat split; try done.
      intros u m. apply lookup_get_user_directory.
    + rewrite save_training_images_eq. cbv zeta. discriminate.
Qed.

Lemma rejected_request_stores_nothing_witness :
  (Main.train_model Sample.inst Sample.fresh "ab12cd34" 0 "aurel_person" "user_123"
     3 "5e-06" 1 (map Sample.photo (seq 0 9))).2 = Sample.fresh.
Proof.
  pose proof (rejected_request_stores_nothing Sample.inst Sample.fresh Sample.fresh
                "ab12cd34" 0 "aurel_person" "user_123" 3 "5e-06" 1
                (map Sample.photo (seq 0 9)) (Main.TooFewImages 9)) as H.
  simpl in H. destruct H as (_ & _ & _ & _ & _ & H); [vm_compute; reflexivity|].
  vm_compute. reflexivity.
Defined.

(** X13.  A request that [train_model] accepts had 10 to 20 uploads and an
    identifier of at least 3 characters; the uploads that are not images
    are dropped without an error, so [images_saved] is the number of
    image uploads and may be below 10; the job's durable record is the
    new one, in state [pending] under the id [train_<uuid8>]; the queued
    task carries the same identifiers and epochs and always asks for full
    DreamBooth; and the index is not touched. *)
Theorem accepted_request_creates_pending_job
    (inst : Config.install) (w w' : world) (uuid8 : string) (current_size : Z)
    (model_identifier user_id : string) (num_train_epochs : Z)
    (learning_rate : string) (train_batch_size : Z) (images : list Main.upload)
    (resp : Main.train_response) (task : Main.background_task) :
  Main.train_model inst w uuid8 current_size model_identifier user_id
    num_train_epochs learning_rate train_batch_size images = (inr (resp, task), w') →
  let tid := "train_" +:+ uuid8 in
  (10 ≤ length images ≤ 20)%nat
  ∧ (3 ≤ String.length model_identifier)%nat
  ∧ Main.tr_training_id resp = tid
  ∧ Main.tr_images_saved resp = Z.of_nat (length (filter is_image images))
  ∧ Main.tr_images_saved resp ≤ Z.of_nat (length images)
  ∧ task = {| Main.bt_user_id := user_id;
              Main.bt_model_identifier := model_identifier;
              Main.bt_training_id := tid;
              Main.bt_num_train_epochs := num_train_epochs;
              Main.bt_learning_rate := learning_rate;
              Main.bt_train_batch_size := train_batch_size;
              Main.bt_resolution := 512;
              Main.bt_use_lora := false |}
  ∧ job_record w' user_id model_identifier
    = Some (Main.training_metadata tid num_train_epochs learning_rate train_batch_size)
  ∧ job_field w' user_id model_identifier "status" = Some (JStr "pending")
  ∧ active_jobs w' = active_jobs w
  ∧ users_dir w'
    = users_dir (StorageService.save_training_images inst
                   (with_disk w (StorageService.get_user_directory (users_dir w) user_id))
                   user_id model_identifier (kept_images images)
                   (Some (Main.training_metadata tid num_train_epochs learning_rate
                                                 train_batch_size))).2.
Proof.
  unfold Main.train_model.
  case_bool_decide as H10; [discriminate|].
  case_bool_decide as H20; [discriminate|].
  case_bool_decide as H3; [discriminate|].
  destruct (Main.read_images images [] 0) as [e|[data total]] eqn:Hr; [discriminate|].
  apply read_images_inr in Hr as (-> & -> & Hall). simpl.
  case_bool_decide as Htot; [discriminate|].
  unfold StorageService.validate_storage_limits.
  case_bool_decide as Hlim; simpl; [discriminate|].
  set (w1 := with_disk w (StorageService.get_user_directory (users_dir w) user_id)).
  pose proof (save_training_images_metadata inst w1 user_id model_identifier
                (kept_images images)
                (Some (Main.training_metadata ("train_" +:+ uuid8) num_train_epochs
                         learning_rate train_batch_size))) as Hmd.
  pose proof (save_training_images_eq inst w1 user_id model_identifier
                (kept_images images)
                (Some (Main.training_metadata ("train_" +:+ uuid8) num_train_epochs
                         learning_rate train_batch_size))) as Heq.
  cbv zeta in Hmd, Heq.
  destruct (StorageService.save_training_images inst w1 user_id model_identifier _ _)
    as [sr w2] eqn:Hs.
  simpl in Hmd. destruct Hmd as (md & Hmd & Hcm & _ & _ & _ & _ & Hn).
  intros [= <- <- <-]. simpl.
  assert (Hlen : length (kept_images images) = length (filter is_image images))
    by (unfold kept_images; apply length_map).
  pose proof (length_filter is_image images) as Hfl.
  split; [lia|]. split; [lia|]. split; [done|].
  split; [by rewrite Hn, Hlen|].
  split; [rewrite Hn, Hlen; lia|].
  split; [done|].
  split; [unfold job_record; rewrite Hmd; simpl; by rewrite Hcm|].
  split.
  { unfold job_field. rewrite Hmd. simpl. rewrite Hcm. simpl.
    unfold Main.training_metadata. by rewrite lookup_insert_eq. }
  injection Heq as _ ->. done.
Qed.

Lemma accepted_request_creates_pending_job_witness :
  job_field Sample.pending "user_123" "aurel_person" "status" = Some (JStr "pending").
Proof.
  destruct Sample.created as [[e|[resp task]] w'] eqn:Hc;
    [vm_compute in Hc; discriminate|].
  pose proof (accepted_request_creates_pending_job Sample.inst Sample.fresh w'
                "ab12cd34" 0 "aurel_person" "user_123" 3 "5e-06" 1
                (map Sample.photo (seq 0 10)) resp task Hc) as H.
  cbv zeta in H. destruct H as (_ & _ & _ & _ & _ & _ & _ & H & _).
  unfold Sample.pending. rewrite Hc. exact H.
Defined.

(** X14.  Right after [train_model] has accepted a request whose
    identifiers are single path components, whose images get new names
    that are, and whose new training id is in no index entry and in no
    [metadata.json] yet, the status endpoint finds the job through the
    durable scan and answers 200, reporting it as [pending], with the
    defaults progress 0 and an empty message, the identifiers of the
    request, and null timestamps and error. *)
Theorem new_job_is_reported_pending
    (inst : Config.install) (w w' : world) (uuid8 : string) (current_size : Z)
    (model_identifier user_id : string) (num_train_epochs : Z)
    (learning_rate : string) (train_batch_size : Z) (images : list Main.upload)
    (resp : Main.train_response) (task : Main.background_task) :
  Py.component user_id = true →
  Py.component model_identifier = true →
  storable model_identifier (kept_images images) = true →
  Main.train_model inst w uuid8 current_size model_identifier user_id
    num_train_epochs learning_rate train_batch_size images = (inr (resp, task), w') →
  let tid := "train_" +:+ uuid8 in
  active_jobs w !! tid = None →
  (∀ u m, job_field w u m "training_id" ≠ Some (JStr tid)) →
  Main.get_training_status w' (Main.tr_training_id resp)
  = Main.Answer200
      {| Main.ts_training_id := JStr tid;
         Main.ts_status := JStr "pending";
         Main.ts_progress := JInt 0;
         Main.ts_message := JStr "";
         Main.ts_model_identifier := JStr model_identifier;
         Main.ts_user_id := JStr user_id;
         Main.ts_started_at := JNull;
         Main.ts_completed_at := JNull;
         Main.ts_error := JNull |}.
Proof.
  intros _ _ _. unfold Main.train_model.
  case_bool_decide as H10; [discriminate|].
  case_bool_decide as H20; [discriminate|].
  case_bool_decide as H3; [discriminate|].
  destruct (Main.read_images images [] 0) as [e|[data total]] eqn:Hr; [discriminate|].
  simpl.
  case_bool_decide as Htot; [discriminate|].
  unfold StorageService.validate_storage_limits.
  case_bool_decide as Hlim; simpl; [discriminate|].
  set (w1 := with_disk w (StorageService.get_user_directory (users_dir w) user_id)).
  set (cm := Main.training_metadata ("train_" +:+ uuid8) num_train_epochs
               learning_rate train_batch_size).
  pose proof (save_training_images_metadata inst w1 user_id model_identifier
                data (Some cm)) as Hmd.
  pose proof (save_training_images_eq inst w1 user_id model_identifier
                data (Some cm)) as Heq.
  cbv zeta in Hmd, Heq.
  destruct (StorageService.save_training_images inst w1 user_id model_identifier _ _)
    as [sr w2] eqn:Hs.
  simpl in Hmd. destruct Hmd as (md & Hmd & Hcm & Hu & Hm & _).
  intros [= <- <- <-] Hidx Hfresh. simpl.
  assert (Hother : ∀ u m, (u, m) ≠ (user_id, model_identifier) →
            Disk.read_metadata (users_dir w2) u m = Disk.read_metadata (users_dir w) u m).
  { intros u m Hne. injection Heq as _ ->. simpl. unfold Disk.read_metadata.
    rewrite lookup_set_training_dir_ne by done.
    rewrite lookup_get_model_training_directory_ne by done.
    subst w1. simpl. by rewrite lookup_get_user_directory. }
  assert (Hact : active_jobs w2 = active_jobs w) by (injection Heq as _ ->; done).
  assert (Hid : default ∅ (md_custom_metadata md) !! "training_id"
                = Some (JStr ("train_" +:+ uuid8))).
  { rewrite Hcm. simpl. subst cm. unfold Main.training_metadata.
    repeat (rewrite lookup_insert_ne by done). by rewrite lookup_insert_eq. }
  unfold Main.get_training_status, TrainingService.get_training_status.
  rewrite Hact, Hidx.
  destruct (scan_disk_found ("train_" +:+ uuid8) (users_dir w2) _ _ _ Hmd Hid)
    as [r Hscan].
  rewrite Hscan.
  apply scan_disk_Some in Hscan as (u' & m' & md' & Hmd' & Hid' & ->).
  assert (Hloc : (u', m') = (user_id, model_identifier)).
  { destruct (decide ((u', m') = (user_id, model_identifier))) as [|Hne]; [done|].
    rewrite Hother in Hmd' by done. exfalso. apply (Hfresh u' m').
    apply job_field_Some. eauto. }
  injection Hloc as -> ->. rewrite Hmd in Hmd'. injection Hmd' as <-.
  destruct (scan_record_fields ("train_" +:+ uuid8) md)
    as (S1 & S2 & S3 & S4 & S5 & S6 & S7 & S8).
  rewrite bool_decide_eq_false_2
    by (intros He; rewrite He in S1; by rewrite lookup_empty in S1).
  assert (Herr : TrainingService.scan_record ("train_" +:+ uuid8) md !! "error" = None)
    by apply scan_record_no_error.
  unfold Main.status_arguments, Main.validates, dict_get in *.
  rewrite S1, S2, S3, S4, S5, S6, S7, S8, Herr, Hu, Hm, Hcm.
  simpl. subst cm. unfold Main.training_metadata.
  rewrite lookup_insert_eq.
  repeat (rewrite lookup_insert_ne by done). rewrite !lookup_empty. done.
Qed.

Lemma fresh_has_no_job u m tid :
  job_field Sample.fresh u m "training_id" ≠ Some (JStr tid).
Proof. unfold job_field, Disk.read_metadata, Disk.lookup_training_dir. simpl.
  by rewrite lookup_empty. Qed.

Lemma new_job_is_reported_pending_witness :
  (Main.ts_status <$> Main.body (Main.get_training_status Sample.pending "train_ab12cd34"))
  = Some (JStr "pending").
Proof.
  destruct Sample.created as [[e|[resp task]] w'] eqn:Hc;
    [vm_compute in Hc; discriminate|].
  assert (Hu : Py.component "user_123" = true) by reflexivity.
  assert (Hm : Py.component "aurel_person" = true) by reflexivity.
  assert (Hs : storable "aurel_person" (kept_images (map Sample.photo (seq 0 10))) = true)
    by (vm_compute; reflexivity).
  pose proof (new_job_is_reported_pending Sample.inst Sample.fresh w'
                "ab12cd34" 0 "aurel_person" "user_123" 3 "5e-06" 1
                (map Sample.photo (seq 0 10)) resp task Hu Hm Hs Hc eq_refl
                (λ u m, fresh_has_no_job u m _)) as H.
  assert (Hid : Main.tr_training_id resp = "train_ab12cd34").
  { vm_compute in Hc. injection Hc as <- _ _. reflexivity. }
  rewrite Hid in H. unfold Sample.pending. rewrite Hc. simpl. rewrite H. reflexivity.
Defined.

Lemma pending_job_is_unique u' m' :
  job_field Sample.pending u' m' "training_id" = Some (JStr "train_ab12cd34") →
  u' = "user_123" ∧ m' = "aurel_person".
Proof.
  intros H.
  destruct (decide ((u', m') = ("user_123", "aurel_person"))) as [[= -> ->]|Hne]; [done|].
  exfalso. revert H. unfold job_field, Sample.pending.
  destruct Sample.created as [[e|ok] w'] eqn:Hc; [vm_compute in Hc; discriminate|].
  simpl. rewrite (train_model_other_locations _ _ _ _ _ _ _ _ _ _ _ _ _ _ Hc Hne).
  unfold Disk.read_metadata, Disk.lookup_training_dir. simpl.
  by rewrite lookup_empty.
Qed.

Lemma restart_reports_same_status_witness :
  let w' := TrainingService.update_training_status Sample.pending "user_123"
              "aurel_person" "train_ab12cd34" "running" 5
              "Initializing training environment..." None in
  ∃ live stored,
    TrainingService.get_training_status w' "train_ab12cd34" = Some live
    ∧ TrainingService.get_training_status (restart w') "train_ab12cd34" = Some stored
    ∧ stored !! "status" = live !! "status".
Proof.
  intros w'.
  assert (H1 : job_field Sample.pending "user_123" "aurel_person" "training_id"
               = Some (JStr "train_ab12cd34")) by (vm_compute; reflexivity).
  destruct (restart_reports_same_status Sample.pending "user_123" "aurel_person"
              "train_ab12cd34" "running" 5 "Initializing training environment..." None
              eq_refl eq_refl H1 pending_job_is_unique)
    as (live & stored & A & B & C & _).
  exists live, stored. split; [exact A|]. split; [exact B|].
  apply C. right. left.
Defined.

(** ** The model service: further properties *)

Section Service.
Import ModelService.
Variable inst : Config.install.
Implicit Types (hub : string → hub_answer) (sv : service) (m u : string).

(** What [load_model] does, case by case. *)
Lemma load_model_cases hub sv m :
  load_model inst hub sv m =
  match hub m with
  | Loadable x =>
      (Ok (new_pipeline inst sv m x),
       {| model_cache := model_cache sv; next_obj := S (next_obj sv);
          attempts := attempts sv ++ [m] |})
  | Unloadable e =>
      if decide (m = Config.FALLBACK_MODEL_ID)
      then (Raise ("Failed to load model " +:+ m +:+ ": " +:+ e),
            {| model_cache := model_cache sv; next_obj := next_obj sv;
               attempts := attempts sv ++ [m] |})
      else
        match hub Config.FALLBACK_MODEL_ID with
        | Loadable x =>
            (Ok {| obj_id := next_obj sv;
                   loaded_from := Config.FALLBACK_MODEL_ID;
                   on_device := Config.DEVICE inst;
                   torch_dtype := Config.TORCH_DTYPE inst;
                   attention_slicing :=
                     negb (negb (bool_decide (Config.DEVICE inst = "cpu")) && x);
                   xformers := negb (bool_decide (Config.DEVICE inst = "cpu")) && x |},
             {| model_cache := model_cache sv; next_obj := S (next_obj sv);
                attempts := attempts sv ++ [m; Config.FALLBACK_MODEL_ID] |})
        | Unloadable e' =>
            (Raise ("Failed to load model " +:+ Config.FALLBACK_MODEL_ID +:+ ": " +:+ e'),
             {| model_cache := model_cache sv; next_obj := next_obj sv;
                attempts := attempts sv ++ [m; Config.FALLBACK_MODEL_ID] |})
        end
  end.
Proof.
  destruct (hub m) as [e|x] eqn:Hm.
  - rewrite (load_model_on_failure inst hub sv m e Hm). cbv zeta.
    destruct (decide (m = Config.FALLBACK_MODEL_ID)); [done|].
    rewrite load_model_on_fallback.
    destruct (hub Config.FALLBACK_MODEL_ID); simpl; by rewrite <- app_assoc.
  - rewrite load_model_eq. unfold try_load. by rewrite Hm.
Qed.

Lemma load_model_next_obj hub sv m :
  (next_obj sv ≤ next_obj (load_model inst hub sv m).2)%nat.
Proof.
  rewrite load_model_cases.
  destruct (hub m); [destruct (decide _); [|destruct (hub _)]|]; simpl; lia.
Qed.

Lemma load_model_obj_id hub sv m pipe sv' :
  load_model inst hub sv m = (Ok pipe, sv') →
  (next_obj sv ≤ obj_id pipe < next_obj sv')%nat.
Proof.
  rewrite load_model_cases.
  destruct (hub m); [destruct (decide _); [|destruct (hub _)]|];
    intros [= <- <-]; simpl; lia.
Qed.

Lemma get_or_load_model_next_obj hub sv u :
  (next_obj sv ≤ next_obj (get_or_load_model inst hub sv u).2)%nat.
Proof.
  unfold get_or_load_model.
  destruct (model_cache sv !! get_model_id inst u); [done|].
  pose proof (load_model_next_obj hub sv (get_model_id inst u)).
  destruct (load_model inst hub sv (get_model_id inst u)) as [[p|e] sv']; done.
Qed.

Lemma get_or_load_model_fresh_ids hub sv u :
  fresh_ids sv → fresh_ids (get_or_load_model inst hub sv u).2.
Proof.
  intros Hf. unfold get_or_load_model.
  destruct (model_cache sv !! get_model_id inst u) eqn:Hc; [done|].
  pose proof (load_model_next_obj hub sv (get_model_id inst u)) as Hn.
  pose proof (load_model_cache inst hub sv (get_model_id inst u)) as Hk.
  destruct (load_model inst hub sv (get_model_id inst u)) as [[p|e] sv'] eqn:Hl;
    simpl in *.
  - intros k q. simpl. destruct (decide (k = get_model_id inst u)) as [->|].
    + rewrite lookup_insert_eq. intros [= <-].
      by apply (load_model_obj_id hub sv _ _ _ Hl).
    + rewrite lookup_insert_ne by done. rewrite Hk. intros H.
      specialize (Hf k q H). lia.
  - intros k q. rewrite Hk. intros H. specialize (Hf k q H). lia.
Qed.

Lemma get_or_load_model_obj_id hub sv u pipe m sv' :
  fresh_ids sv →
  get_or_load_model inst hub sv u = (Ok (pipe, m), sv') →
  (obj_id pipe < next_obj sv')%nat.
Proof.
  intros Hf H.
  pose proof (get_or_load_model_fresh_ids hub sv u Hf) as Hf'.
  rewrite H in Hf'. simpl in Hf'.
  destruct (get_or_load_model_cached inst _ _ _ _ _ _ H) as [_ Hc].
  by apply (Hf' m).
Qed.

Lemma serve_app sv ops1 ops2 :
  serve inst sv (ops1 ++ ops2) = serve inst (serve inst sv ops1) ops2.
Proof. apply foldl_app. Qed.

Lemma serve_next_obj sv ops : (next_obj sv ≤ next_obj (serve inst sv ops))%nat.
Proof.
  revert sv. induction ops as [|[hub u|] ops IH]; intros sv; simpl; [lia| |].
  - etransitivity; [|apply IH]. apply get_or_load_model_next_obj.
  - etransitivity; [|apply IH]. done.
Qed.

Lemma serve_fresh_ids sv ops : fresh_ids sv → fresh_ids (serve inst sv ops).
Proof.
  revert sv. induction ops as [|[hub u|] ops IH]; intros sv Hf; simpl; [done| |].
  - apply IH. by apply get_or_load_model_fresh_ids.
  - apply IH. intros k p. simpl. by rewrite lookup_empty.
Qed.

Lemma fresh_ids_init : fresh_ids init.
Proof. intros k p. simpl. by rewrite lookup_empty. Qed.

Lemma serve_default_only sv ops :
  default_only inst sv → default_only inst (serve inst sv ops).
Proof.
  revert sv. induction ops as [|[hub u|] ops IH]; intros sv Hd; simpl; [done| |].
  - apply IH. intros k. unfold get_or_load_model.
    rewrite get_model_id_default.
    destruct (model_cache sv !! Config.DEFAULT_MODEL_ID inst) eqn:Hc; [apply Hd|].
    pose proof (load_model_cache inst hub sv (Config.DEFAULT_MODEL_ID inst)) as Hk.
    destruct (load_model inst hub sv (Config.DEFAULT_MODEL_ID inst)) as [[p|e] sv'];
      simpl in *.
    + destruct (decide (k = Config.DEFAULT_MODEL_ID inst)) as [->|]; [done|].
      rewrite lookup_insert_ne by done. rewrite Hk. apply Hd.
    + rewrite Hk. apply Hd.
  - apply IH. intros k. simpl. rewrite lookup_empty. by intros [? ?].
Qed.

End Service.

(** X15.  Every user identifier resolves to the default model, so whatever
    operations the service has gone through since it was created, its
    cache holds at most one pipeline, under the default identifier, and
    two users who both get a pipeline get the same object. *)
Theorem cache_holds_at_most_one_model
    (inst : Config.install) (ops : list service_op)
    (hub1 hub2 : string → ModelService.hub_answer) (u1 u2 : string) :
  let sv := serve inst ModelService.init ops in
  (ModelService.get_loaded_models_count sv ≤ 1)%nat
  ∧ (∀ k, is_Some (ModelService.model_cache sv !! k) → k = Config.DEFAULT_MODEL_ID inst)
  ∧ ∀ p1 m1 sv1 p2 m2 sv2,
      ModelService.get_or_load_model inst hub1 sv u1 = (Ok (p1, m1), sv1) →
      ModelService.get_or_load_model inst hub2 sv1 u2 = (Ok (p2, m2), sv2) →
      p2 = p1 ∧ m2 = m1 ∧ sv2 = sv1.
Proof.
  intros sv.
  assert (Hd : default_only inst sv).
  { apply serve_default_only. intros k. simpl. rewrite lookup_empty. by intros [? ?]. }
  split; [|split; [exact Hd|]].
  - unfold ModelService.get_loaded_models_count.
    rewrite <- size_dom.
    transitivity (size ({[Config.DEFAULT_MODEL_ID inst]} : gset string));
      [|by rewrite size_singleton].
    apply subseteq_size. intros k Hk. apply elem_of_dom in Hk.
    apply elem_of_singleton. by apply Hd.
  - intros p1 m1 sv1 p2 m2 sv2 H1 H2.
    destruct (get_or_load_model_cached inst _ _ _ _ _ _ H1) as [Hm1 Hc].
    unfold ModelService.get_or_load_model in H2.
    rewrite get_model_id_default in *. subst m1. rewrite Hc in H2.
    by injection H2 as <- <- <-.
Qed.

(** X16.  An acquire that finds neither the requested model nor the fallback
    loadable raises the error of the fallback attempt, the cause the
    requested model failed with is not reported, and the cache is left as
    it was: nothing is remembered about the failure, and the next acquire
    attempts the load again. *)
Theorem failed_acquire_leaves_cache
    (inst : Config.install) (hub hub2 : string → ModelService.hub_answer)
    (sv : ModelService.service) (u u2 e e' : string) (x : bool) :
  let requested := ModelService.get_model_id inst u in
  ModelService.model_cache sv !! requested = None →
  hub requested = ModelService.Unloadable e →
  hub Config.FALLBACK_MODEL_ID = ModelService.Unloadable e' →
  hub2 requested = ModelService.Loadable x →
  ∃ sv',
    ModelService.get_or_load_model inst hub sv u
      = (Raise ("Failed to load model " +:+ Config.FALLBACK_MODEL_ID +:+ ": " +:+ e'), sv')
    ∧ ModelService.model_cache sv' = ModelService.model_cache sv
    ∧ ModelService.next_obj sv' = ModelService.next_obj sv
    ∧ ModelService.attempts sv'
      = ModelService.attempts sv ++ [requested; Config.FALLBACK_MODEL_ID]
    ∧ ∃ pipe sv'',
        ModelService.get_or_load_model inst hub2 sv' u2 = (Ok (pipe, requested), sv'')
        ∧ ModelService.loaded_from pipe = requested
        ∧ ModelService.attempts sv'' = ModelService.attempts sv' ++ [requested].
Proof.
  intros requested Hmiss Hreq Hfb H2.
  assert (Hne : requested ≠ Config.FALLBACK_MODEL_ID).
  { subst requested. rewrite get_model_id_default. apply default_is_not_fallback. }
  eexists. split.
  { unfold ModelService.get_or_load_model. fold requested. rewrite Hmiss.
    rewrite load_model_cases, Hreq, Hfb.
    destruct (decide (requested = Config.FALLBACK_MODEL_ID)); [done|]. reflexivity. }
  simpl. repeat split; try done.
  eexists _, _. split.
  { unfold ModelService.get_or_load_model.
    rewrite (get_model_id_default inst u2).
    assert (Hr : requested = Config.DEFAULT_MODEL_ID inst)
      by (subst requested; apply get_model_id_default).
    rewrite <- Hr. simpl. rewrite Hmiss.
    rewrite load_model_cases, H2. reflexivity. }
  simpl. done.
Qed.

Lemma failed_acquire_leaves_cache_witness :
  ∃ sv',
    ModelService.get_or_load_model Sample.inst Sample.offline ModelService.init "user_123"
      = (Raise "Failed to load model runwayml/stable-diffusion-v1-5: connection refused", sv')
    ∧ ModelService.model_cache sv' = ∅.
Proof.
  destruct (failed_acquire_leaves_cache Sample.inst Sample.offline Sample.online
              ModelService.init "user_123" "default" "connection refused"
              "connection refused" false)
    as (sv' & H1 & H2 & _).
  - vm_compute. reflexivity.
  - vm_compute. reflexivity.
  - vm_compute. reflexivity.
  - vm_compute. reflexivity.
  - exists sv'. split; [exact H1 | exact H2].
Defined.

(** X17.  [clear_cache] empties the cache, and a pipeline acquired after it
    is a new object: it is never the one a caller obtained before the
    cache was cleared. *)
Theorem acquire_after_clear_is_new_object
    (inst : Config.install) (before between : list service_op)
    (hub1 hub2 : string → ModelService.hub_answer) (u1 u2 : string)
    (p1 p2 : ModelService.pipeline) (m1 m2 : string)
    (sv1 sv2 : ModelService.service) :
  let sv := serve inst ModelService.init before in
  ModelService.get_or_load_model inst hub1 sv u1 = (Ok (p1, m1), sv1) →
  let cleared := ModelService.clear_cache (serve inst sv1 between) in
  ModelService.get_or_load_model inst hub2 cleared u2 = (Ok (p2, m2), sv2) →
  ModelService.get_loaded_models_count cleared = 0%nat
  ∧ ModelService.obj_id p2 ≠ ModelService.obj_id p1
  ∧ ModelService.attempts cleared `prefix_of` ModelService.attempts sv2
  ∧ ModelService.attempts sv2 ≠ ModelService.attempts cleared.
Proof.
  intros sv H1 cleared H2.
  assert (Hf : fresh_ids sv) by (apply serve_fresh_ids, fresh_ids_init).
  pose proof (get_or_load_model_obj_id inst _ _ _ _ _ _ Hf H1) as Hp1.
  pose proof (serve_next_obj inst sv1 between) as Hn.
  split; [done|].
  unfold ModelService.get_or_load_model in H2. simpl in H2.
  rewrite lookup_empty in H2.
  destruct (ModelService.load_model inst hub2 cleared (ModelService.get_model_id inst u2))
    as [[p|e] sv'] eqn:Hl; [|discriminate].
  injection H2 as <- <- <-. simpl.
  pose proof (load_model_obj_id inst _ _ _ _ _ Hl) as Hp2. simpl in Hp2.
  split; [lia|].
  rewrite load_model_cases in Hl.
  destruct (hub2 _); [destruct (decide _); [done|destruct (hub2 _); [done|]]|];
    injection Hl as <- <-; simpl.
  - split; [by eexists|]. intros H. apply (f_equal length) in H.
    rewrite length_app in H. simpl in H. lia.
  - split; [by eexists|]. intros H. apply (f_equal length) in H.
    rewrite length_app in H. simpl in H. lia.
Qed.

Lemma acquire_after_clear_is_new_object_witness :
  let first := ModelService.get_or_load_model Sample.inst Sample.online
                 ModelService.init "user_123" in
  let second := ModelService.get_or_load_model Sample.inst Sample.online
                  (ModelService.clear_cache first.2) "user_123" in
  (ModelService.obj_id <$> (match first.1 with Ok (p, _) => Some p | Raise _ => None end))
    = Some 0%nat
  ∧ ∀ p2 m2 sv2, second = (Ok (p2, m2), sv2) → ModelService.obj_id p2 ≠ 0%nat.
Proof.
  intros first second. split; [vm_compute; reflexivity|].
  intros p2 m2 sv2 H2.
  destruct (acquire_after_clear_is_new_object Sample.inst [] []
              Sample.online Sample.online "user_123" "user_123"
              (ModelService.new_pipeline Sample.inst ModelService.init
                 (Config.DEFAULT_MODEL_ID Sample.inst) false)
              p2 (Config.DEFAULT_MODEL_ID Sample.inst) m2 first.2 sv2)
    as (_ & H & _).
  - vm_compute. reflexivity.
  - exact H2.
  - exact H.
Defined.

(** X18.  Whatever the hub answers, [load_model] calls [from_pretrained] at
    most twice, on the identifier it was given and then on the fallback;
    a pipeline it returns was loaded from the last identifier tried and
    is a new object; an error it raises is always the one of the fallback
    attempt and names the fallback identifier. *)
Theorem load_model_tries_at_most_twice
    (inst : Config.install) (hub : string → ModelService.hub_answer)
    (sv : ModelService.service) (m : string) :
  let r := ModelService.load_model inst hub sv m in
  ModelService.model_cache r.2 = ModelService.model_cache sv
  ∧ ∃ tried,
      ModelService.attempts r.2 = ModelService.attempts sv ++ tried
      ∧ (tried = [m] ∨ (m ≠ Config.FALLBACK_MODEL_ID
                        ∧ tried = [m; Config.FALLBACK_MODEL_ID]))
      ∧ match r.1 with
        | Ok pipe =>
            last tried = Some (ModelService.loaded_from pipe)
            ∧ (∃ x, hub (ModelService.loaded_from pipe) = ModelService.Loadable x)
            ∧ ModelService.obj_id pipe = ModelService.next_obj sv
            ∧ ModelService.next_obj r.2 = S (ModelService.next_obj sv)
        | Raise e =>
            last tried = Some Config.FALLBACK_MODEL_ID
            ∧ (∃ e', hub Config.FALLBACK_MODEL_ID = ModelService.Unloadable e'
                     ∧ e = "Failed to load model " +:+ Config.FALLBACK_MODEL_ID
                           +:+ ": " +:+ e')
            ∧ ModelService.next_obj r.2 = ModelService.next_obj sv
        end.
Proof.
  intros r. subst r. split; [apply load_model_cache|].
  rewrite load_model_cases.
  destruct (hub m) as [e|x] eqn:Hm.
  - destruct (decide (m = Config.FALLBACK_MODEL_ID)) as [->|Hne].
    + exists [Config.FALLBACK_MODEL_ID]. simpl. eauto 10.
    + destruct (hub Config.FALLBACK_MODEL_ID) as [e'|x] eqn:Hf.
      * exists [m; Config.FALLBACK_MODEL_ID]. simpl. eauto 10.
      * exists [m; Config.FALLBACK_MODEL_ID]. simpl. rewrite Hf. eauto 10.
  - exists [m]. simpl. rewrite Hm. eauto 10.
Qed.

(** X19.  Every pipeline [load_model] returns is on the configured device
    with the matching precision ([float16] on a GPU, [float32] on the
    CPU) and has exactly one of the two memory optimisations enabled:
    xformers only on a GPU where it is available, attention slicing in
    every other case. *)
Theorem loaded_pipeline_configuration
    (inst : Config.install) (hub : string → ModelService.hub_answer)
    (sv sv' : ModelService.service) (m : string) (pipe : ModelService.pipeline) :
  ModelService.load_model inst hub sv m = (Ok pipe, sv') →
  ModelService.on_device pipe = (if Config.cuda_available inst then "cuda" else "cpu")
  ∧ ModelService.torch_dtype pipe
    = (if Config.cuda_available inst then "float16" else "float32")
  ∧ ModelService.attention_slicing pipe = negb (ModelService.xformers pipe)
  ∧ (ModelService.xformers pipe = true ↔
     Config.cuda_available inst = true
     ∧ hub (ModelService.loaded_from pipe) = ModelService.Loadable true).
Proof.
  rewrite load_model_cases.
  unfold ModelService.new_pipeline, Config.TORCH_DTYPE, Config.DEVICE.
  destruct (hub m) as [e|x] eqn:Hm.
  - destruct (decide (m = Config.FALLBACK_MODEL_ID)); [done|].
    destruct (hub Config.FALLBACK_MODEL_ID) as [e'|x] eqn:Hf; [done|].
    intros [= <- <-]. simpl. rewrite Hf.
    destruct (Config.cuda_available inst), x; simpl; repeat split; try done;
      intros [? ?]; congruence.
  - intros [= <- <-]. simpl. rewrite Hm.
    destruct (Config.cuda_available inst), x; simpl; repeat split; try done;
      intros [? ?]; congruence.
Qed.

Lemma loaded_pipeline_configuration_witness :
  ModelService.on_device
    (ModelService.new_pipeline Sample.inst ModelService.init
       (Config.DEFAULT_MODEL_ID Sample.inst) false) = "cpu".
Proof.
  apply (loaded_pipeline_configuration Sample.inst Sample.online ModelService.init
           {| ModelService.model_cache := ∅; ModelService.next_obj := 1;
              ModelService.attempts := [Config.DEFAULT_MODEL_ID Sample.inst] |}
           (Config.DEFAULT_MODEL_ID Sample.inst)).
  vm_compute. reflexivity.
Defined.

(** ** The orchestrator: further properties *)

Section EarlyExit.
Import TrainingService.
Variables (inst : Config.install) (env : trainer) (u m tid : string)
          (num_train_epochs : Z) (use_lora : bool) (w : world).

#[local] Abbreviation first_call :=
  {| c_status := "running"; c_progress := 5;
     c_message := "Initializing training environment..."; c_error := None |}.
#[local] Abbreviation failed_call e :=
  {| c_status := "failed"; c_progress := 0;
     c_message := "Training failed"; c_error := Some e |}.
#[local] Abbreviation w5 :=
  (update_training_status w u m tid "running" 5
     "Initializing training environment..." None).

Lemma update_images_dir st p msg err :
  Disk.lookup_training_dir (users_dir (update_training_status w u m tid st p msg err)) u m
    ≫= td_images
  = Disk.lookup_training_dir (users_dir w) u m ≫= td_images.
Proof.
  pose proof (update_images w u m tid st p msg err) as H.
  destruct (Disk.lookup_training_dir (users_dir (update_training_status _ _ _ _ _ _ _ _)) u m),
    (Disk.lookup_training_dir (users_dir w) u m); simpl in *; congruence.
Qed.

Lemma start_training_no_images_dir :
  Disk.lookup_training_dir (users_dir w) u m ≫= td_images = None →
  let e := "Training images directory not found: " +:+ images_dir inst u m in
  start_training inst env u m tid num_train_epochs use_lora (run_from w)
  = (Raise e,
     {| r_world := update_training_status w5 u m tid "failed" 0 "Training failed" (Some e);
        r_calls := [first_call; failed_call e] |}).
Proof.
  intros Hdir e.
  unfold start_training, try_except, start_training_body, bind, update, read_world,
    run_from. simpl.
  rewrite update_images_dir, Hdir. done.
Qed.

Lemma start_training_too_few_images files :
  Disk.lookup_training_dir (users_dir w) u m ≫= td_images = Some files →
  let n := glob_count files ".png" + glob_count files ".jpg" + glob_count files ".jpeg" in
  n < 10 →
  let e := "Insufficient training images: " +:+ pretty n +:+ " < 10" in
  start_training inst env u m tid num_train_epochs use_lora (run_from w)
  = (Raise e,
     {| r_world := update_training_status w5 u m tid "failed" 0 "Training failed" (Some e);
        r_calls := [first_call; failed_call e] |}).
Proof.
  intros Hdir n Hn e.
  unfold start_training, try_except, start_training_body, bind, update, read_world,
    run_from. simpl.
  rewrite update_images_dir, Hdir. fold n.
  rewrite bool_decide_eq_true_2 by done. done.
Qed.

End EarlyExit.

(** X20.  [start_training] for a location that has no [images] directory
    raises "Training images directory not found: <path>" after its first
    update and reports the failure; the trainer is not consulted and no
    output directory is made.  When the location has no [metadata.json]
    either, as for a job that was never created, both updates are dropped
    and the world is left exactly as it was: the failure is recorded
    nowhere. *)
Theorem training_without_images_dir_fails
    (inst : Config.install) (env : TrainingService.trainer) (u m tid : string)
    (num_train_epochs : Z) (use_lora : bool) (w : world) :
  Disk.lookup_training_dir (users_dir w) u m ≫= td_images = None →
  let res := TrainingService.start_training inst env u m tid num_train_epochs use_lora
               (TrainingService.run_from w) in
  let e := "Training images directory not found: "
           +:+ TrainingService.images_dir inst u m in
  res.1 = Raise e
  ∧ TrainingService.r_calls res.2
    = [ {| TrainingService.c_status := "running"; TrainingService.c_progress := 5;
           TrainingService.c_message := "Initializing training environment...";
           TrainingService.c_error := None |};
        {| TrainingService.c_status := "failed"; TrainingService.c_progress := 0;
           TrainingService.c_message := "Training failed";
           TrainingService.c_error := Some e |} ]
  ∧ (∀ u', (ud_models <$> users_dir (TrainingService.r_world res.2) !! u')
           = (ud_models <$> users_dir w !! u'))
  ∧ (Disk.read_metadata (users_dir w) u m = None → TrainingService.r_world res.2 = w)
  ∧ (is_Some (Disk.read_metadata (users_dir w) u m) →
     job_field (TrainingService.r_world res.2) u m "status" = Some (JStr "failed")
     ∧ job_field (TrainingService.r_world res.2) u m "error" = Some (JStr e)).
Proof.
  intros Hdir res e. subst res.
  rewrite start_training_no_images_dir by done. simpl.
  split; [done|]. split; [done|]. split; [|split].
  - intros u'. by rewrite !update_models.
  - intros Hmd. by rewrite !update_missing by (by rewrite ?update_missing).
  - intros Hmd.
    apply (update_keeps_metadata w u m tid "running" 5
             "Initializing training environment..." None) in Hmd as [md Hmd].
    rewrite !(update_field _ _ _ _ _ _ _ _ md) by done.
    rewrite update_custom_status, update_custom_error.
    split; [done|]. by rewrite bool_decide_eq_false_2.
Qed.

Lemma training_without_images_dir_fails_witness :
  (TrainingService.start_training Sample.inst Sample.quiet "user_123" "aurel_person"
     "train_ab12cd34" 3 false (TrainingService.run_from Sample.fresh)).1
  = Raise "Training images directory not found: /srv/photo-ai/data/users/user_123/training_images/aurel_person/images"
  ∧ TrainingService.r_world
      (TrainingService.start_training Sample.inst Sample.quiet "user_123" "aurel_person"
         "train_ab12cd34" 3 false (TrainingService.run_from Sample.fresh)).2
    = Sample.fresh.
Proof.
  assert (H : Disk.lookup_training_dir (users_dir Sample.fresh) "user_123" "aurel_person"
              ≫= td_images = None) by reflexivity.
  destruct (training_without_images_dir_fails Sample.inst Sample.quiet "user_123"
              "aurel_person" "train_ab12cd34" 3 false Sample.fresh H)
    as (A & _ & _ & B & _).
  split; [exact A|]. apply B. reflexivity.
Defined.

(** X21.  [start_training] counts the files of the [images] directory whose
    names end in [.png], [.jpg] or [.jpeg]; when there are fewer than 10
    it raises "Insufficient training images: <n> < 10" after its first
    update and reports the failure, whatever the strategy; the trainer is
    not consulted and no output directory is made. *)
Theorem training_with_too_few_images_fails
    (inst : Config.install) (env : TrainingService.trainer) (u m tid : string)
    (num_train_epochs : Z) (use_lora : bool) (w : world) (files : gmap string bytes) :
  Disk.lookup_training_dir (users_dir w) u m ≫= td_images = Some files →
  let n := TrainingService.glob_count files ".png"
           + TrainingService.glob_count files ".jpg"
           + TrainingService.glob_count files ".jpeg" in
  n < 10 →
  let res := TrainingService.start_training inst env u m tid num_train_epochs use_lora
               (TrainingService.run_from w) in
  let e := "Insufficient training images: " +:+ pretty n +:+ " < 10" in
  res.1 = Raise e
  ∧ TrainingService.r_calls res.2
    = [ {| TrainingService.c_status := "running"; TrainingService.c_progress := 5;
           TrainingService.c_message := "Initializing training environment...";
           TrainingService.c_error := None |};
        {| TrainingService.c_status := "failed"; TrainingService.c_progress := 0;
           TrainingService.c_message := "Training failed";
           TrainingService.c_error := Some e |} ]
  ∧ (∀ u', (ud_models <$> users_dir (TrainingService.r_world res.2) !! u')
           = (ud_models <$> users_dir w !! u'))
  ∧ (is_Some (Disk.read_metadata (users_dir w) u m) →
     job_field (TrainingService.r_world res.2) u m "status" = Some (JStr "failed")
     ∧ job_field (TrainingService.r_world res.2) u m "progress" = Some (JInt 0)
     ∧ job_field (TrainingService.r_world res.2) u m "error" = Some (JStr e)).
Proof.
  intros Hdir n Hn res e. subst res.
  rewrite (start_training_too_few_images inst env u m tid num_train_epochs use_lora
             w files Hdir Hn). simpl.
  split; [done|]. split; [done|]. split.
  - intros u'. by rewrite !update_models.
  - intros Hmd.
    apply (update_keeps_metadata w u m tid "running" 5
             "Initializing training environment..." None) in Hmd as [md Hmd].
    rewrite !(update_field _ _ _ _ _ _ _ _ md) by done.
    rewrite update_custom_status, update_custom_progress, update_custom_error.
    split; [done|]. split; [done|]. by rewrite bool_decide_eq_false_2.
Qed.

Lemma training_with_too_few_images_fails_witness :
  let w := (StorageService.save_training_images Sample.inst Sample.fresh "user_123"
              "aurel_person" [] None).2 in
  (TrainingService.start_training Sample.inst Sample.quiet "user_123" "aurel_person"
     "train_ab12cd34" 3 false (TrainingService.run_from w)).1
  = Raise "Insufficient training images: 0 < 10".
Proof.
  intros w.
  assert (H : Disk.lookup_training_dir (users_dir w) "user_123" "aurel_person"
              ≫= td_images = Some ∅) by (vm_compute; reflexivity).
  assert (Hn : TrainingService.glob_count (∅ : gmap string bytes) ".png"
               + TrainingService.glob_count (∅ : gmap string bytes) ".jpg"
               + TrainingService.glob_count (∅ : gmap string bytes) ".jpeg" < 10)
    by (vm_compute; reflexivity).
  destruct (training_with_too_few_images_fails Sample.inst Sample.quiet "user_123"
              "aurel_person" "train_ab12cd34" 3 false w ∅ H Hn) as (A & _).
  exact A.
Defined.

Section Strategies.
Import TrainingService.
Variables (inst : Config.install) (env : trainer) (u m tid : string)
          (num_train_epochs : Z) (w : world) (files : gmap string bytes).
Hypothesis Hdir : Disk.lookup_training_dir (users_dir w) u m ≫= td_images = Some files.
Hypothesis Hn :
  10 ≤ glob_count files ".png" + glob_count files ".jpg" + glob_count files ".jpeg".

(** The status and progress of the calls of a run. *)
#[local] Abbreviation steps r := (map (λ c, (c_status c, c_progress c)) (r_calls r)).

Lemma start_training_lora :
  ∃ r', start_training inst env u m tid num_train_epochs true (run_from w)
        = (Ok (<["message" := JStr "LoRA training placeholder (implementation pending)"]>
               (<["method" := JStr "lora"]>
               (<["model_path" := JStr (output_model_dir inst u m)]>
               (<["training_id" := JStr tid]>
               (<["success" := JBool true]> ∅))))), r')
        ∧ steps r' = [("running", 5); ("running", 10); ("running", 15);
                      ("running", 20); ("completed", 100)].
Proof.
  unfold start_training, try_except, start_training_body, bind, update, read_world,
    run_from. simpl.
  rewrite update_images_dir, Hdir.
  rewrite bool_decide_eq_false_2 by lia.
  unfold modify_disk, _train_lora, bind, update, ret. simpl.
  eexists. split; reflexivity.
Qed.

Lemma start_training_no_epochs :
  num_train_epochs ≤ 0 →
  (∀ st, (∀ g, st ≠ StStep g) → raises env st = None) →
  ∃ d r', start_training inst env u m tid num_train_epochs false (run_from w) = (Ok d, r')
          ∧ d !! "success" = Some (JBool true)
          ∧ d !! "method" = Some (JStr "dreambooth")
          ∧ steps r' = [("running", 5); ("running", 10); ("running", 15);
                        ("running", 20); ("running", 30); ("running", 40);
                        ("running", 90); ("completed", 100)].
Proof.
  intros Hep Hquiet.
  unfold start_training, try_except, start_training_body, bind, update, read_world,
    run_from. simpl.
  rewrite update_images_dir, Hdir.
  rewrite bool_decide_eq_false_2 by lia.
  unfold modify_disk, _train_dreambooth, try_except, bind, update, ret, ext, read_world.
  simpl.
  rewrite !Hquiet by done.
  replace (Z.to_nat num_train_epochs) with 0%nat by lia. simpl.
  eexists _, _. split; [reflexivity|]. simpl.
  split; [done|]. split; [done|]. reflexivity.
Qed.

End Strategies.

(** X22.  With the LoRA strategy (the default of [start_training]) nothing
    is trained: once the image check has passed, the run issues its five
    updates and returns the placeholder result with status [completed],
    whatever the trainer would answer and whatever the number of epochs. *)
Theorem lora_training_is_a_placeholder
    (inst : Config.install) (env : TrainingService.trainer) (u m tid : string)
    (num_train_epochs : Z) (w : world) (files : gmap string bytes) :
  Disk.lookup_training_dir (users_dir w) u m ≫= td_images = Some files →
  10 ≤ TrainingService.glob_count files ".png"
       + TrainingService.glob_count files ".jpg"
       + TrainingService.glob_count files ".jpeg" →
  let res := TrainingService.start_training inst env u m tid num_train_epochs true
               (TrainingService.run_from w) in
  (∃ d, res.1 = Ok d
        ∧ d !! "success" = Some (JBool true)
        ∧ d !! "method" = Some (JStr "lora")
        ∧ d !! "model_path" = Some (JStr (TrainingService.output_model_dir inst u m))
        ∧ d !! "message" = Some (JStr "LoRA training placeholder (implementation pending)"))
  ∧ map (λ c, (TrainingService.c_status c, TrainingService.c_progress c))
        (TrainingService.r_calls res.2)
    = [("running", 5); ("running", 10); ("running", 15); ("running", 20);
       ("completed", 100)]
  ∧ ∀ env' num_train_epochs',
      TrainingService.start_training inst env' u m tid num_train_epochs' true
        (TrainingService.run_from w) = res.
Proof.
  intros Hdir Hn res.
  destruct (start_training_lora inst env u m tid num_train_epochs w files Hdir Hn)
    as (r' & Hres & Hsteps).
  subst res. rewrite Hres. simpl. split; [|split; [done|]].
  - eexists. split; [done|].
    rewrite lookup_insert_eq. repeat (rewrite lookup_insert_ne by done).
    rewrite !lookup_insert_eq. repeat (rewrite lookup_insert_ne by done).
    by rewrite lookup_insert_eq.
  - intros env' ep'. rewrite <- Hres.
    unfold TrainingService.start_training, TrainingService.try_except,
      TrainingService.start_training_body, TrainingService.bind,
      TrainingService.update, TrainingService.read_world, TrainingService.run_from.
    simpl. rewrite update_images_dir, Hdir.
    rewrite bool_decide_eq_false_2 by lia. reflexivity.
Qed.

(** X23.  The number of epochs is not checked anywhere.  With full
    DreamBooth and [num_train_epochs <= 0] the training loop is not
    entered: when nothing outside the loop raises, no training step is
    executed and the run still saves a model and reports [completed],
    with the progress values 5, 10, 15, 20, 30, 40, 90, 100. *)
Theorem training_with_no_epochs_completes
    (inst : Config.install) (env : TrainingService.trainer) (u m tid : string)
    (num_train_epochs : Z) (w : world) (files : gmap string bytes) :
  Disk.lookup_training_dir (users_dir w) u m ≫= td_images = Some files →
  10 ≤ TrainingService.glob_count files ".png"
       + TrainingService.glob_count files ".jpg"
       + TrainingService.glob_count files ".jpeg" →
  num_train_epochs ≤ 0 →
  (∀ st, (∀ g, st ≠ TrainingService.StStep g) → TrainingService.raises env st = None) →
  let res := TrainingService.start_training inst env u m tid num_train_epochs false
               (TrainingService.run_from w) in
  (∃ d, res.1 = Ok d ∧ d !! "success" = Some (JBool true)
        ∧ d !! "method" = Some (JStr "dreambooth"))
  ∧ map (λ c, (TrainingService.c_status c, TrainingService.c_progress c))
        (TrainingService.r_calls res.2)
    = [("running", 5); ("running", 10); ("running", 15); ("running", 20);
       ("running", 30); ("running", 40); ("running", 90); ("completed", 100)].
Proof.
  intros Hdir Hn Hep Hquiet res.
  destruct (start_training_no_epochs inst env u m tid num_train_epochs w files
              Hdir Hn Hep Hquiet) as (d & r' & Hres & Hs & Hm & Hsteps).
  subst res. rewrite Hres. simpl. split; [eauto|done].
Qed.

Lemma lora_training_is_a_placeholder_witness :
  map (λ c, (TrainingService.c_status c, TrainingService.c_progress c))
      (TrainingService.r_calls
         (TrainingService.start_training Sample.inst Sample.out_of_memory "user_123"
            "aurel_person" "train_ab12cd34" 3 true
            (TrainingService.run_from Sample.pending)).2)
  = [("running", 5); ("running", 10); ("running", 15); ("running", 20);
     ("completed", 100)].
Proof.
  pose (files := default ∅ (Disk.lookup_training_dir (users_dir Sample.pending)
                              "user_123" "aurel_person" ≫= td_images)).
  assert (H : Disk.lookup_training_dir (users_dir Sample.pending) "user_123"
                "aurel_person" ≫= td_images = Some files) by (vm_compute; reflexivity).
  assert (Hn : 10 ≤ TrainingService.glob_count files ".png"
                    + TrainingService.glob_count files ".jpg"
                    + TrainingService.glob_count files ".jpeg")
    by (vm_compute; discriminate).
  destruct (lora_training_is_a_placeholder Sample.inst Sample.out_of_memory "user_123"
              "aurel_person" "train_ab12cd34" 3 Sample.pending files H Hn)
    as (_ & A & _).
  exact A.
Defined.

Lemma training_with_no_epochs_completes_witness :
  map (λ c, (TrainingService.c_status c, TrainingService.c_progress c))
      (TrainingService.r_calls
         (TrainingService.start_training Sample.inst Sample.quiet "user_123"
            "aurel_person" "train_ab12cd34" 0 false
            (TrainingService.run_from Sample.pending)).2)
  = [("running", 5); ("running", 10); ("running", 15); ("running", 20);
     ("running", 30); ("running", 40); ("running", 90); ("completed", 100)].
Proof.
  pose (files := default ∅ (Disk.lookup_training_dir (users_dir Sample.pending)
                              "user_123" "aurel_person" ≫= td_images)).
  assert (H : Disk.lookup_training_dir (users_dir Sample.pending) "user_123"
                "aurel_person" ≫= td_images = Some files) by (vm_compute; reflexivity).
  assert (Hn : 10 ≤ TrainingService.glob_count files ".png"
                    + TrainingService.glob_count files ".jpg"
                    + TrainingService.glob_count files ".jpeg")
    by (vm_compute; discriminate).
  assert (Hep : 0 ≤ 0) by lia.
  assert (Hq : ∀ st, (∀ g, st ≠ TrainingService.StStep g) →
                     TrainingService.raises Sample.quiet st = None)
    by (intros st _; reflexivity).
  destruct (training_with_no_epochs_completes Sample.inst Sample.quiet "user_123"
              "aurel_person" "train_ab12cd34" 0 Sample.pending files H Hn Hep Hq)
    as (_ & A).
  exact A.
Defined.

(** ** What a run leaves behind *)

Section Invariant.
Import TrainingService.
Variables (inst : Config.install) (env : trainer) (u m tid : string) (epochs_given : Z).
Variable Inv : run → Prop.
Hypothesis Inv_update :
  ∀ st p msg err r, Inv r → Inv (update u m tid st p msg err r).2.

#[local] Abbreviation holds c := (triple Inv c (λ _, Inv) (λ _, Inv)).

Lemma holds_update st p msg err : holds (update u m tid st p msg err).
Proof. intros r Hr. by apply Inv_update. Qed.

Lemma holds_ext st : holds (ext env st).
Proof. intros r Hr. unfold ext. by destruct (raises env st). Qed.

Lemma holds_read_world : holds read_world.
Proof. intros r Hr. done. Qed.

Lemma holds_bind {A B} (c : M A) (k : A → M B) :
  holds c → (∀ a, holds (k a)) → holds (bind c k).
Proof. intros Hc Hk. eapply triple_bind; [exact Hc | exact Hk]. Qed.

Lemma holds_ret {A} (a : A) : holds (ret a).
Proof. by apply triple_ret. Qed.

Lemma holds_raise {A} e : holds (@raise A e).
Proof. by apply triple_raise. Qed.

Lemma holds_on_failure {A} e : holds (@on_failure u m tid A e).
Proof. apply holds_bind; [apply holds_update | intros; apply holds_raise]. Qed.

Lemma holds_batches k epoch g : holds (batches env u m tid epochs_given k epoch g).
Proof.
  revert g. induction k as [|k IH]; intros g; simpl; [apply holds_ret|].
  apply holds_bind; [apply holds_ext | intros _].
  apply holds_bind; [|intros _; apply IH].
  case_bool_decide; [apply holds_update | apply holds_ret].
Qed.

Lemma holds_epochs n epoch g : holds (epochs env u m tid epochs_given n epoch g).
Proof.
  revert epoch g. induction n as [|n IH]; intros epoch g; simpl; [apply holds_ret|].
  apply holds_bind; [apply holds_batches | intros g'; apply IH].
Qed.

Lemma holds_train_lora : holds (_train_lora inst u m tid).
Proof.
  unfold _train_lora.
  repeat (apply holds_bind; [apply holds_update | intros _]). apply holds_ret.
Qed.

Lemma holds_train_dreambooth : holds (_train_dreambooth inst env u m tid epochs_given).
Proof.
  unfold _train_dreambooth.
  eapply triple_try; [|intros e; apply holds_on_failure].
  repeat first
    [ apply holds_ret
    | apply holds_bind;
      [ first [ apply holds_update | apply holds_ext | apply holds_read_world
              | apply holds_epochs ]
      | intros ? ] ].
Qed.

(** An invariant that the first update establishes and that the updates
    and [mkdir] keep holds whenever the run ends. *)
Lemma holds_start_training (P0 : run → Prop) use_lora :
  (∀ st p msg err r, P0 r → Inv (update u m tid st p msg err r).2) →
  (∀ r, Inv r → Inv (modify_disk (mkdir_output_model_dir u m) r).2) →
  triple P0 (start_training inst env u m tid epochs_given use_lora)
         (λ _, Inv) (λ _, Inv).
Proof.
  intros Hfirst Hmk. unfold start_training.
  eapply triple_try; [|intros e; apply holds_on_failure].
  unfold start_training_body.
  eapply triple_bind with (Q1 := λ _, Inv); [intros r Hr; by apply Hfirst | intros _].
  apply holds_bind; [apply holds_read_world | intros w].
  destruct (_ ≫= td_images) as [files|]; [|apply holds_raise].
  case_bool_decide; [apply holds_raise|].
  apply holds_bind; [intros r Hr; by apply Hmk | intros _].
  apply holds_bind; [apply holds_update | intros _].
  destruct use_lora; [apply holds_train_lora | apply holds_train_dreambooth].
Qed.

(** An invariant that the updates keep and [mkdir] establishes holds
    after every run that returns normally. *)
Lemma established_by_mkdir use_lora :
  (∀ r, Inv (modify_disk (mkdir_output_model_dir u m) r).2) →
  triple (λ _, True) (start_training inst env u m tid epochs_given use_lora)
         (λ _, Inv) (λ _ _, True).
Proof.
  intros Hmk. unfold start_training.
  eapply triple_try with (E1 := λ _ _, True).
  2:{ intros e r _. unfold on_failure, bind, update, raise. by simpl. }
  unfold start_training_body.
  eapply triple_bind with (Q1 := λ _ _, True);
    [by intros r _ | intros _].
  eapply triple_bind with (Q1 := λ _ _, True); [by intros r _ | intros w].
  destruct (_ ≫= td_images) as [files|]; [|by apply triple_raise].
  case_bool_decide; [by apply triple_raise|].
  eapply triple_bind with (Q1 := λ _, Inv); [intros r _; apply Hmk | intros _].
  eapply triple_weaken with (Q' := λ _, Inv) (E' := λ _, Inv); [|done|done|done].
  apply holds_bind; [apply holds_update | intros _].
  destruct use_lora; [apply holds_train_lora | apply holds_train_dreambooth].
Qed.

End Invariant.

Section Recorded.
Import TrainingService.
Variables (u m tid : string).

(** The job's [metadata.json] exists, at least one update was issued,
    and both stores show the last one. *)
#[local] Abbreviation recorded :=
  (λ r : run, has_metadata u m r ∧ r_calls r ≠ [] ∧ shows_last_call u m tid r).

Lemma recorded_update st p msg err r :
  has_metadata u m r → recorded (update u m tid st p msg err r).2.
Proof.
  intros [md Hmd]. split; [by apply update_keeps_metadata; eexists|]. split.
  { simpl. intros H. by apply app_eq_nil in H as [_ ?]. }
  intros c Hc. simpl in *. rewrite last_snoc in Hc. injection Hc as <-. simpl.
  rewrite !(update_field _ _ _ _ _ _ _ _ md) by done.
  rewrite update_custom_status, update_custom_progress, update_custom_message.
  rewrite update_active_jobs, Hmd, lookup_insert_eq. done.
Qed.

Lemma recorded_mkdir r :
  recorded r → recorded (modify_disk (mkdir_output_model_dir u m) r).2.
Proof.
  intros (Hmd & Hne & Hs). unfold has_metadata, shows_last_call, job_field in *. simpl.
  rewrite read_metadata_mkdir. done.
Qed.

Lemma has_output_dir_mkdir r :
  has_output_dir u m (modify_disk (mkdir_output_model_dir u m) r).2.
Proof.
  unfold has_output_dir, mkdir_output_model_dir. simpl. rewrite lookup_insert_eq. simpl.
  eexists. split; [done|]. set_solver.
Qed.

Lemma has_output_dir_update st p msg err r :
  has_output_dir u m r → has_output_dir u m (update u m tid st p msg err r).2.
Proof.
  unfold has_output_dir. simpl. intros (models & Hm & Hin).
  exists models. split; [|done].
  pose proof (update_models (r_world r) u m tid st p msg err u) as H.
  destruct (users_dir (update_training_status _ _ _ _ _ _ _ _) !! u),
    (users_dir (r_world r) !! u); simpl in *; congruence.
Qed.

End Recorded.

(** X24.  Whenever [start_training] ends, normally or with an exception, for
    a job whose [metadata.json] exists, it has issued at least one update
    and the durable record and the index entry both show the status,
    progress and message of the last update issued.  After a normal
    return that is [completed] with progress 100, and the user's [models]
    directory contains the output directory of the model. *)
Theorem finished_run_is_recorded
    (inst : Config.install) (env : TrainingService.trainer) (u m tid : string)
    (num_train_epochs : Z) (use_lora : bool) (w : world) :
  is_Some (Disk.read_metadata (users_dir w) u m) →
  let res := TrainingService.start_training inst env u m tid num_train_epochs use_lora
               (TrainingService.run_from w) in
  let w' := TrainingService.r_world res.2 in
  (∃ c, last (TrainingService.r_calls res.2) = Some c
        ∧ job_field w' u m "status" = Some (JStr (TrainingService.c_status c))
        ∧ job_field w' u m "progress" = Some (JInt (TrainingService.c_progress c))
        ∧ job_field w' u m "message" = Some (JStr (TrainingService.c_message c))
        ∧ TrainingService.get_training_status w' tid
          = Some (TrainingService.job_info u m tid (TrainingService.c_status c)
                    (TrainingService.c_progress c) (TrainingService.c_message c)))
  ∧ ∀ d, res.1 = Ok d →
      job_field w' u m "status" = Some (JStr "completed")
      ∧ job_field w' u m "progress" = Some (JInt 100)
      ∧ TrainingService.get_training_status w' tid
        = Some (TrainingService.job_info u m tid "completed" 100
                  (default "" (TrainingService.c_message
                                 <$> last (TrainingService.r_calls res.2))))
      ∧ ∃ models, users_dir w' !! u ≫= ud_models = Some models ∧ m ∈ models.
Proof.
  intros Hmd res w'.
  pose proof (holds_start_training inst env u m tid num_train_epochs
                (λ r, has_metadata u m r ∧ TrainingService.r_calls r ≠ []
                      ∧ shows_last_call u m tid r)
                (λ st p msg err r H, recorded_update u m tid st p msg err r (proj1 H))
                (has_metadata u m) use_lora
                (recorded_update u m tid) (recorded_mkdir u m tid)
                (TrainingService.run_from w) Hmd) as Hinv.
  pose proof (established_by_mkdir inst env u m tid num_train_epochs
                (has_output_dir u m)
                (λ st p msg err r, has_output_dir_update u m tid st p msg err r)
                use_lora (has_output_dir_mkdir u m)
                (TrainingService.run_from w) I) as Hout.
  pose proof (climb_start_training inst env u m tid num_train_epochs use_lora
                (TrainingService.run_from w) (climbing_nil 0)) as Hclimb.
  fold res in Hinv, Hout, Hclimb.
  assert (Hrec : has_metadata u m res.2 ∧ TrainingService.r_calls res.2 ≠ []
                 ∧ shows_last_call u m tid res.2)
    by (by destruct res as [[d|e] r']).
  destruct Hrec as (_ & Hne & Hshow).
  destruct (last (TrainingService.r_calls res.2)) as [c|] eqn:Hlast;
    [|by apply last_None in Hlast].
  destruct (Hshow c Hlast) as (H1 & H2 & H3 & H4).
  assert (Hget : TrainingService.get_training_status w' tid
                 = Some (TrainingService.job_info u m tid (TrainingService.c_status c)
                           (TrainingService.c_progress c) (TrainingService.c_message c))).
  { unfold TrainingService.get_training_status. subst w'. by rewrite H4. }
  split; [eauto 10|].
  intros d Hd. destruct res as [[d'|e] r'] eqn:Hres; [|discriminate]. simpl in *.
  destruct Hclimb as (pre & post & Hc & _ & c' & -> & Hst & Hp).
  rewrite Hc, last_snoc in Hlast. injection Hlast as ->.
  rewrite Hst, Hp in *. done.
Qed.

Lemma finished_run_is_recorded_witness :
  ∃ c, last (TrainingService.r_calls Sample.completed_run.2) = Some c
       ∧ job_field Sample.completed "user_123" "aurel_person" "status"
         = Some (JStr (TrainingService.c_status c)).
Proof.
  assert (H : is_Some (Disk.read_metadata (users_dir Sample.pending)
                         "user_123" "aurel_person")) by (vm_compute; eauto).
  destruct (finished_run_is_recorded Sample.inst Sample.quiet "user_123" "aurel_person"
              "train_ab12cd34" 3 false Sample.pending H) as ((c & A & B & _) & _).
  exists c. split; [exact A | exact B].
Defined.

(** ** From the upload to the training run *)

Section Glob.
Import TrainingService.

Lemma prefix_cons a s1 b s2 :
  String.prefix (String a s1) (String b s2)
  = if ascii_dec a b then String.prefix s1 s2 else false.
Proof. reflexivity. Qed.

(** A name ends in at most one of the three extensions. *)
Lemma one_extension s :
  (if Py.endswith s ".png" then 1 else 0)
  + (if Py.endswith s ".jpg" then 1 else 0)
  + (if Py.endswith s ".jpeg" then 1 else 0) ≤ 1.
Proof.
  unfold Py.endswith.
  change (String.rev ".png") with "gnp.".
  change (String.rev ".jpg") with "gpj.".
  change (String.rev ".jpeg") with "gepj.".
  generalize (String.rev s). intros t.
  destruct t as [|a [|b t]]; [cbn; lia | |].
  - rewrite !prefix_cons. destruct (ascii_dec "g"%char a); cbn; lia.
  - rewrite !(prefix_cons "g"). destruct (ascii_dec "g"%char a); [|lia].
    rewrite !(prefix_cons _ _ b).
    destruct (ascii_dec "n"%char b) as [Hn|Hn], (ascii_dec "p"%char b) as [Hp|Hp],
      (ascii_dec "e"%char b) as [He|He]; try (subst b; discriminate);
      repeat (destruct (String.prefix _ _)); lia.
Qed.

Lemma glob_count_list (l : list (string * bytes)) ext :
  Z.of_nat (length (filter (λ kv, Is_true (Py.endswith kv.1 ext)) l))
  = foldr (λ kv acc, (if Py.endswith kv.1 ext then 1 else 0) + acc) 0 l.
Proof.
  induction l as [|kv l IH]; [done|].
  rewrite filter_cons. simpl.
  destruct (decide (Is_true (Py.endswith kv.1 ext))) as [H|H].
  - apply Is_true_true in H. rewrite H. simpl. lia.
  - apply Is_true_false in H. rewrite H. lia.
Qed.

(** The images [start_training] counts are among the files there. *)
Lemma glob_count_le_size (files : gmap string bytes) :
  0 ≤ glob_count files ".png" + glob_count files ".jpg" + glob_count files ".jpeg"
    ≤ Z.of_nat (size files).
Proof.
  unfold glob_count. rewrite <- length_map_to_list.
  rewrite !glob_count_list.
  induction (map_to_list files) as [|kv l IH]; simpl; [lia|].
  pose proof (one_extension kv.1).
  repeat (destruct (Py.endswith kv.1 _)); lia.
Qed.

Lemma save_each_size mid dir idx images files saved total :
  (size (StorageService.save_each mid dir idx images files saved total).1.1
   ≤ size files + length images)%nat.
Proof.
  revert idx files saved total.
  induction images as [|[fn c] images IH]; intros idx files saved total; simpl; [lia|].
  etransitivity; [apply IH|]. rewrite map_size_insert.
  destruct (files !! _); simpl; lia.
Qed.

End Glob.

Section Accepted.
Import Main.

(** What an accepted request has done. *)
Lemma train_model_inr inst w w' uuid8 current_size model_identifier user_id
    num_train_epochs learning_rate train_batch_size images resp task :
  train_model inst w uuid8 current_size model_identifier user_id
    num_train_epochs learning_rate train_batch_size images = (inr (resp, task), w') →
  let tid := "train_" +:+ uuid8 in
  let r := StorageService.save_training_images inst
             (with_disk w (StorageService.get_user_directory (users_dir w) user_id))
             user_id model_identifier (kept_images images)
             (Some (training_metadata tid num_train_epochs learning_rate
                                      train_batch_size)) in
  w' = r.2
  ∧ tr_images_saved resp = StorageService.sr_num_images r.1
  ∧ tr_training_id resp = tid
  ∧ task = {| bt_user_id := user_id; bt_model_identifier := model_identifier;
              bt_training_id := tid; bt_num_train_epochs := num_train_epochs;
              bt_learning_rate := learning_rate;
              bt_train_batch_size := train_batch_size;
              bt_resolution := 512; bt_use_lora := false |}.
Proof.
  unfold train_model.
  case_bool_decide as H10; [discriminate|].
  case_bool_decide as H20; [discriminate|].
  case_bool_decide as H3; [discriminate|].
  destruct (read_images images [] 0) as [e|[data total]] eqn:Hr; [discriminate|].
  apply read_images_inr in Hr as (-> & -> & Hall). simpl.
  case_bool_decide as Htot; [discriminate|].
  unfold StorageService.validate_storage_limits.
  case_bool_decide as Hlim; simpl; [discriminate|].
  destruct (StorageService.save_training_images inst _ user_id model_identifier _ _)
    as [sr w2] eqn:Hs.
  intros [= <- <- <-]. done.
Qed.

End Accepted.

(** X25.  Uploads that [train_model] drops are not made up for.  When a
    request is accepted for a location that had no [images] directory
    and fewer than 10 of its uploads were images, the queued training run
    fails its image check: it raises "Insufficient training images: <n> <
    10" for some [n] not above [images_saved], whatever the trainer, and
    the job ends [failed] with that error stored. *)
Theorem dropped_uploads_fail_the_training
    (inst : Config.install) (env : TrainingService.trainer) (w w' : world)
    (uuid8 : string) (current_size : Z) (model_identifier user_id : string)
    (num_train_epochs : Z) (learning_rate : string) (train_batch_size : Z)
    (images : list Main.upload) (resp : Main.train_response)
    (task : Main.background_task) :
  Main.train_model inst w uuid8 current_size model_identifier user_id
    num_train_epochs learning_rate train_batch_size images = (inr (resp, task), w') →
  Disk.lookup_training_dir (users_dir w) user_id model_identifier ≫= td_images = None →
  Main.tr_images_saved resp < 10 →
  let res := Main.run_background inst env task w' in
  let final := TrainingService.r_world res.2 in
  ∃ n, 0 ≤ n ≤ Main.tr_images_saved resp
       ∧ res.1 = Raise ("Insufficient training images: " +:+ pretty n +:+ " < 10")
       ∧ job_field final user_id model_identifier "status" = Some (JStr "failed")
       ∧ job_field final user_id model_identifier "error"
         = Some (JStr ("Insufficient training images: " +:+ pretty n +:+ " < 10"))
       ∧ ∃ info, TrainingService.get_training_status final (Main.tr_training_id resp)
                 = Some info
                 ∧ info !! "status" = Some (JStr "failed").
Proof.
  intros Hacc Hfresh Hsaved res final.
  apply train_model_inr in Hacc as (Hw' & Hn & Htid & ->). cbv zeta in Hw', Hn.
  set (w1 := with_disk w (StorageService.get_user_directory (users_dir w) user_id)) in *.
  set (tid := "train_" +:+ uuid8) in *.
  set (cm := Main.training_metadata tid num_train_epochs learning_rate train_batch_size)
    in *.
  pose proof (save_training_images_eq inst w1 user_id model_identifier
                (kept_images images) (Some cm)) as Heq.
  pose proof (save_training_images_metadata inst w1 user_id model_identifier
                (kept_images images) (Some cm)) as Hmd.
  cbv zeta in Heq, Hmd.
  destruct Hmd as (md & Hmd & _ & _ & _ & _ & _ & Hnum).
  rewrite <- Hw' in Hmd. rewrite Hnum in Hn.
  assert (Hbefore : default ∅ (Disk.lookup_training_dir (users_dir w1) user_id
                                 model_identifier ≫= td_images) = ∅).
  { subst w1. simpl. by rewrite lookup_get_user_directory, Hfresh. }
  rewrite Hbefore in Heq.
  set (files := (StorageService.save_each model_identifier
                   (Py.path_join (StorageService.training_dir_path inst user_id
                                    model_identifier) "images")
                   0 (kept_images images) ∅ [] 0).1.1) in *.
  assert (Hfiles : Disk.lookup_training_dir (users_dir w') user_id model_identifier
                   ≫= td_images = Some files).
  { rewrite Hw', Heq. simpl.
    destruct (lookup_get_model_training_directory (users_dir w1) user_id
                model_identifier) as [td0 Htd0].
    by erewrite lookup_set_training_dir. }
  set (n := TrainingService.glob_count files ".png"
            + TrainingService.glob_count files ".jpg"
            + TrainingService.glob_count files ".jpeg").
  assert (Hrange : 0 ≤ n ≤ Main.tr_images_saved resp).
  { pose proof (glob_count_le_size files) as Hg. fold n in Hg.
    pose proof (save_each_size model_identifier
                  (Py.path_join (StorageService.training_dir_path inst user_id
                                   model_identifier) "images")
                  0 (kept_images images) ∅ [] 0) as Hs.
    fold files in Hs. rewrite map_size_empty in Hs. lia. }
  exists n. split; [done|].
  subst res final. unfold Main.run_background. simpl.
  rewrite (start_training_too_few_images inst env user_id model_identifier tid
             num_train_epochs false w' files Hfiles) by (fold n; lia).
  fold n. simpl.
  assert (Hmd5 : is_Some (Disk.read_metadata (users_dir w') user_id model_identifier))
    by eauto.
  apply (update_keeps_metadata w' user_id model_identifier tid "running" 5
           "Initializing training environment..." None) in Hmd5 as [md5 Hmd5].
  rewrite !(update_field _ _ _ _ _ _ _ _ md5) by done.
  rewrite update_custom_status, update_custom_error.
  rewrite bool_decide_eq_false_2 by done.
  split; [done|]. split; [done|]. split; [done|].
  eexists. split.
  - unfold TrainingService.get_training_status.
    rewrite Htid, update_active_jobs, Hmd5, lookup_insert_eq. done.
  - apply job_info_status.
Qed.

Lemma dropped_uploads_fail_the_training_witness :
  let notes := {| Main.up_filename := "notes.txt";
                  Main.up_content_type := "text/plain";
                  Main.up_contents := [] |} in
  let created := Main.train_model Sample.inst Sample.fresh "ab12cd34" 0 "aurel_person"
                   "user_123" 3 "5e-06" 1 (map Sample.photo (seq 0 9) ++ [notes]) in
  match created with
  | (inr (_, task), w') =>
      ∃ n : Z, (Main.run_background Sample.inst Sample.quiet task w').1
               = Raise ("Insufficient training images: " +:+ pretty n +:+ " < 10")
  | (inl _, _) => False
  end.
Proof.
  intros notes created.
  destruct created as [[e|[resp task]] w'] eqn:Hc;
    [subst created; vm_compute in Hc; discriminate|].
  assert (H1 : Disk.lookup_training_dir (users_dir Sample.fresh) "user_123"
                 "aurel_person" ≫= td_images = None) by reflexivity.
  assert (H2 : Main.tr_images_saved resp < 10).
  { subst created. vm_compute in Hc. injection Hc as <- _ _. reflexivity. }
  destruct (dropped_uploads_fail_the_training Sample.inst Sample.quiet Sample.fresh w'
              "ab12cd34" 0 "aurel_person" "user_123" 3 "5e-06" 1
              (map Sample.photo (seq 0 9) ++ [notes]) resp task Hc H1 H2)
    as (n & _ & A & _).
  exists n. exact A.
Defined.

(** ** The cadence of the loop's updates *)

Section Cadence.
Import TrainingService.
Variables (inst : Config.install) (env : trainer) (u m tid : string)
          (num_train_epochs : Z).
Hypothesis Hquiet : ∀ st, raises env st = None.

#[local] Abbreviation steps r := (map (λ c, (c_status c, c_progress c)) (r_calls r)).
#[local] Abbreviation marks g k :=
  (filter (λ s, s mod 10 = 0)%nat (seq (S g) k)).
#[local] Abbreviation reported l :=
  (map (λ s, ("running", loop_progress env num_train_epochs s)) l).

Lemma marks_app g a b : marks g (a + b) = marks g a ++ marks (g + a) b.
Proof. by rewrite seq_app, filter_app. Qed.

Lemma batches_quiet k epoch g r :
  ∃ r', batches env u m tid num_train_epochs k epoch g r = (Ok (g + k)%nat, r')
        ∧ steps r' = steps r ++ reported (marks g k).
Proof.
  revert g r. induction k as [|k IH]; intros g r.
  { exists r. cbn [batches]. unfold ret. rewrite Nat.add_0_r.
    split; [done|]. cbn. by rewrite app_nil_r. }
  cbn [batches]. cbv [bind ext]. rewrite Hquiet. cbv beta iota.
  change (seq (S g) (S k)) with (S g :: seq (S (S g)) k). rewrite filter_cons.
  destruct (decide (S g mod 10 = 0)%nat) as [Hg|Hg].
  - rewrite bool_decide_eq_true_2 by done.
    match goal with
    | |- context [update u m tid ?st ?p ?msg ?err r] =>
        destruct (IH (S g) (update u m tid st p msg err r).2) as (r' & HIH & Hs)
    end.
    cbv [update] in HIH, Hs |- *. cbv beta iota in HIH, Hs |- *.
    cbn [snd r_calls] in HIH, Hs. rewrite HIH.
    exists r'. split; [do 2 f_equal; lia|].
    rewrite Hs, map_app, <- app_assoc. done.
  - rewrite bool_decide_eq_false_2 by done. cbv [ret]. cbv beta iota.
    destruct (IH (S g) r) as (r' & -> & Hs).
    exists r'. split; [do 2 f_equal; lia|]. done.
Qed.

Lemma epochs_quiet n epoch g r :
  ∃ r', epochs env u m tid num_train_epochs n epoch g r
        = (Ok (g + n * dataloader_len env)%nat, r')
        ∧ steps r' = steps r ++ reported (marks g (n * dataloader_len env)).
Proof.
  revert epoch g r. induction n as [|n IH]; intros epoch g r.
  { exists r. cbn [epochs]. unfold ret. rewrite Nat.add_0_r.
    split; [done|]. cbn. by rewrite app_nil_r. }
  cbn [epochs]. cbv [bind].
  destruct (batches_quiet (dataloader_len env) epoch g r) as (r1 & -> & Hs1).
  destruct (IH (S epoch) (g + dataloader_len env)%nat r1) as (r' & -> & Hs).
  exists r'. split; [do 2 f_equal; lia|].
  rewrite Hs, Hs1. cbn [Nat.mul]. rewrite marks_app, map_app, <- app_assoc. done.
Qed.

End Cadence.

(** X26.  In a full DreamBooth run in which nothing raises, the training
    loop reports progress exactly at the global steps that are multiples
    of 10, with the value [40 + int((step / num_steps) * 50)], between
    the update at 40 and the update at 90; a run of fewer than 10 steps
    reports nothing from the loop. *)
Theorem loop_reports_every_tenth_step
    (inst : Config.install) (env : TrainingService.trainer) (u m tid : string)
    (num_train_epochs : Z) (w : world) (files : gmap string bytes) :
  Disk.lookup_training_dir (users_dir w) u m ≫= td_images = Some files →
  10 ≤ TrainingService.glob_count files ".png"
       + TrainingService.glob_count files ".jpg"
       + TrainingService.glob_count files ".jpeg" →
  (∀ st, TrainingService.raises env st = None) →
  let res := TrainingService.start_training inst env u m tid num_train_epochs false
               (TrainingService.run_from w) in
  let total := (Z.to_nat num_train_epochs * TrainingService.dataloader_len env)%nat in
  (∃ d, res.1 = Ok d)
  ∧ map (λ c, (TrainingService.c_status c, TrainingService.c_progress c))
        (TrainingService.r_calls res.2)
    = [("running", 5); ("running", 10); ("running", 15); ("running", 20);
       ("running", 30); ("running", 40)]
      ++ map (λ s, ("running", TrainingService.loop_progress env num_train_epochs s))
             (filter (λ s, s mod 10 = 0)%nat (seq 1 total))
      ++ [("running", 90); ("completed", 100)].
Proof.
  intros Hdir Hn Hquiet res total. subst res.
  unfold TrainingService.start_training, TrainingService.start_training_body,
    TrainingService._train_dreambooth, TrainingService.run_from.
  cbv [TrainingService.try_except TrainingService.bind TrainingService.update
       TrainingService.read_world TrainingService.modify_disk TrainingService.ext
       TrainingService.ret].
  cbv beta iota. cbn [TrainingService.r_world TrainingService.r_calls].
  rewrite update_images_dir, Hdir. cbv beta iota.
  rewrite bool_decide_eq_false_2 by lia.
  rewrite !Hquiet. cbv beta iota.
  match goal with
  | |- context [TrainingService.epochs env u m tid num_train_epochs ?n ?e ?g ?r] =>
      destruct (epochs_quiet env u m tid num_train_epochs Hquiet n e g r)
        as (r' & Hep & Hs); rewrite Hep
  end.
  cbv beta iota. cbn [fst snd TrainingService.r_calls].
  split; [eauto|].
  rewrite !map_app, Hs. cbn [TrainingService.r_calls map app].
  cbn [TrainingService.c_status TrainingService.c_progress].
  by rewrite <- !app_assoc.
Qed.

Lemma loop_reports_every_tenth_step_witness :
  map (λ c, (TrainingService.c_status c, TrainingService.c_progress c))
      (TrainingService.r_calls Sample.completed_run.2)
  = [("running", 5); ("running", 10); ("running", 15); ("running", 20);
     ("running", 30); ("running", 40)]
    ++ map (λ s, ("running", TrainingService.loop_progress Sample.quiet 3 s))
           [10; 20; 30]%nat
    ++ [("running", 90); ("completed", 100)].
Proof.
  pose (files := default ∅ (Disk.lookup_training_dir (users_dir Sample.pending)
                              "user_123" "aurel_person" ≫= td_images)).
  assert (H : Disk.lookup_training_dir (users_dir Sample.pending) "user_123"
                "aurel_person" ≫= td_images = Some files) by (vm_compute; reflexivity).
  assert (Hn : 10 ≤ TrainingService.glob_count files ".png"
                    + TrainingService.glob_count files ".jpg"
                    + TrainingService.glob_count files ".jpeg")
    by (vm_compute; discriminate).
  assert (Hq : ∀ st, TrainingService.raises Sample.quiet st = None)
    by (intros st; reflexivity).
  destruct (loop_reports_every_tenth_step Sample.inst Sample.quiet "user_123"
              "aurel_person" "train_ab12cd34" 3 Sample.pending files H Hn Hq)
    as (_ & A).
  exact A.
Defined.
